(** * Quest and achievement progression engine

    A shallow embedding of [QuestRepository], [QuestService]
    (src/quest/quest.repository.ts) and [AchievementService]
    (src/achievement/achievement.service.ts, with the zod refinement of
    src/achievement/dto/update-achievement.dto.ts).

    The services run against a relational store through drizzle.  The store
    is modelled as a record of tables, each table a list of rows in insertion
    order; a [select] that destructures its first row ([const [row] = ...])
    is the first matching row of the list.  A service method is a function
    from the store to the store it leaves behind together with either its
    return value or the exception it threw: an exception does not roll back
    the statements that ran before it, exactly as in the source, where no
    method opens a transaction.

    src/database/schema.ts is not part of the sources at hand.  The columns
    of each table are the ones the services read or write and the ones the
    test fixtures list; the store enforces no constraint of its own (no
    NOT NULL, no foreign key, no unique index), serial keys come from a
    counter per table, and the column defaults are [recordStatus = CREATED]
    (the fixtures' value) and the current time for the timestamps.

    JavaScript numbers that the engine compares or adds (levels, experience,
    requirement values, step indices) are integers of [Z]; identifiers are
    serial keys, hence [positive] (and truthy wherever the source tests one
    with [if (id)]); the wall clock read by [new Date()] is an argument [now] of the
    method that reads it. *)

From Stdlib Require Import ZArith List String DecimalString Bool Lia.
From stdpp Require Import base tactics option list strings relations gmap.

Open Scope string_scope.
Open Scope Z_scope.

(** ** Values *)

Definition Time := Z.

Definition show_nat (n : nat) : string :=
  NilZero.string_of_uint (Nat.to_uint n).

Definition show_pos (p : positive) : string :=
  NilZero.string_of_uint (Pos.to_uint p).

Definition show_Z (z : Z) : string :=
  NilZero.string_of_int (Z.to_int z).

(** A latitude or longitude arrives as a JS number and is stored through
    [toString()]; the number is carried as that decimal rendering. *)
Record JsNumber := { toString : string }.

(** JS truthiness of a string. *)
Definition truthy_str (o : option string) : bool :=
  match o with
  | Some EmptyString => false
  | Some _ => true
  | None => false
  end.

Inductive RecordStatus := CREATED | DELETED.

Definition not_deleted (r : RecordStatus) : bool :=
  match r with
  | DELETED => false
  | CREATED => true
  end.

Inductive QuestStatus := active | archived | completed.

Definition QuestStatus_str (s : QuestStatus) : string :=
  match s with
  | active => "active"
  | archived => "archived"
  | completed => "completed"
  end.

Definition is_active (s : QuestStatus) : bool :=
  match s with
  | active => true
  | _ => false
  end.

Inductive UserQuestStatus := in_progress | uq_completed | failed.

Definition is_uq_completed (s : UserQuestStatus) : bool :=
  match s with
  | uq_completed => true
  | _ => false
  end.

Inductive Rarity := common | epic | rare | legendary | private.

Definition is_private (r : Rarity) : bool :=
  match r with
  | private => true
  | _ => false
  end.

#[global] Instance RecordStatus_eq_dec : EqDecision RecordStatus.
Proof. solve_decision. Defined.
#[global] Instance QuestStatus_eq_dec : EqDecision QuestStatus.
Proof. solve_decision. Defined.
#[global] Instance UserQuestStatus_eq_dec : EqDecision UserQuestStatus.
Proof. solve_decision. Defined.
#[global] Instance Rarity_eq_dec : EqDecision Rarity.
Proof. solve_decision. Defined.

(** ** Quest steps (the JSON column [quests.steps]) *)

(** The declared type has both values mandatory; the service casts to
    [{ currentValue?: number; targetValue?: number }] and tests
    [targetValue] for absence, so both are optional here. *)
Record Requirement := {
  currentValue : option Z;
  targetValue : option Z
}.

Record Step := {
  step_title : string;
  step_description : option string;
  step_status : string;
  step_progress : Z;
  requirement : option Requirement;
  deadline : option string
}.

Record Contact := { contact_name : string; contact_value : string }.

#[global] Instance Requirement_eq_dec : EqDecision Requirement.
Proof. solve_decision. Defined.
#[global] Instance Step_eq_dec : EqDecision Step.
Proof. solve_decision. Defined.

(** ** Tables *)

(** Modelled from the spec: src/database/schema.ts is absent.  The columns
    are those of the data model (section 3 of the specification) that the
    services read or write, with the names the code uses for them; the quest
    columns are the ones [QuestWithRelations] declares, the others are also
    the ones the test fixtures list. *)

Module Users.
Record row := {
  id : positive;
  firstName : string;
  lastName : string;
  email : string;
  level : Z;
  experience : Z;
  recordStatus : RecordStatus
}.
Definition set_experience (x : Z) (u : row) : row :=
  {| id := id u; firstName := firstName u; lastName := lastName u;
     email := email u; level := level u; experience := x;
     recordStatus := recordStatus u |}.
End Users.

Module Cities.
Record row := {
  id : positive;
  name : string;
  latitude : option string;
  longitude : option string;
  recordStatus : RecordStatus
}.
End Cities.

Module OrganizationTypes.
Record row := { id : positive; name : string; recordStatus : RecordStatus }.
End OrganizationTypes.

Module Categories.
Record row := { id : positive; name : string; recordStatus : RecordStatus }.
End Categories.

Module QuestCategories.
Record row := { questId : positive; categoryId : positive }.
End QuestCategories.

Module Achievements.
Record row := {
  id : positive;
  title : string;
  description : option string;
  icon : option string;
  rarity : Rarity;
  questId : option positive;
  recordStatus : RecordStatus
}.
Definition set_questId (q : option positive) (a : row) : row :=
  {| id := id a; title := title a; description := description a;
     icon := icon a; rarity := rarity a; questId := q;
     recordStatus := recordStatus a |}.
End Achievements.

Module UserAchievements.
Record row := {
  id : positive;
  userId : positive;
  achievementId : option positive;
  unlockedAt : Time
}.
End UserAchievements.

Module UserQuests.
Record row := {
  id : positive;
  userId : positive;
  questId : positive;
  status : UserQuestStatus;
  startedAt : option Time;
  completedAt : option Time
}.
End UserQuests.

Module Quests.
Record row := {
  id : positive;
  title : string;
  description : option string;
  status : QuestStatus;
  experienceReward : Z;
  achievementId : option positive;
  ownerId : positive;
  cityId : positive;
  organizationTypeId : option positive;
  latitude : option string;
  longitude : option string;
  address : option string;
  contacts : option (list Contact);
  coverImage : option string;
  gallery : option (list string);
  steps : option (list Step);
  recordStatus : RecordStatus;
  createdAt : Time;
  updatedAt : Time
}.
Definition set_updatedAt (t : Time) (q : row) : row :=
  {| id := id q; title := title q; description := description q;
     status := status q; experienceReward := experienceReward q;
     achievementId := achievementId q; ownerId := ownerId q;
     cityId := cityId q; organizationTypeId := organizationTypeId q;
     latitude := latitude q; longitude := longitude q; address := address q;
     contacts := contacts q; coverImage := coverImage q;
     gallery := gallery q; steps := steps q; recordStatus := recordStatus q;
     createdAt := createdAt q; updatedAt := t |}.
Definition set_gallery (g : option (list string)) (q : row) : row :=
  {| id := id q; title := title q; description := description q;
     status := status q; experienceReward := experienceReward q;
     achievementId := achievementId q; ownerId := ownerId q;
     cityId := cityId q; organizationTypeId := organizationTypeId q;
     latitude := latitude q; longitude := longitude q; address := address q;
     contacts := contacts q; coverImage := coverImage q;
     gallery := g; steps := steps q; recordStatus := recordStatus q;
     createdAt := createdAt q; updatedAt := updatedAt q |}.
End Quests.

(** ** Joined projections and domain events *)

Record AchievementView := {
  av_id : positive;
  av_title : string;
  av_description : option string;
  av_icon : option string;
  av_rarity : Rarity;
  av_questId : option positive
}.

Record OwnerView := {
  ov_id : positive;
  ov_firstName : string;
  ov_lastName : string;
  ov_email : string
}.

Record NamedView := { nv_id : positive; nv_name : string }.

Record QuestWithRelations := {
  qr_quest : Quests.row;
  qr_achievement : option AchievementView;
  qr_owner : OwnerView;
  qr_city : option NamedView;
  qr_organizationType : option NamedView
}.

Record QuestWithAllData := {
  qd_quest : QuestWithRelations;
  qd_categories : list NamedView
}.

Record QuestData := {
  qdata_id : positive;
  qdata_title : string;
  qdata_status : QuestStatus;
  qdata_experienceReward : Z
}.

Inductive Event :=
| UserJoined (questId userId : positive) (userData : option OwnerView)
| QuestCreated (questId : positive) (quest : QuestWithAllData)
| QuestCompleted (questId userId : positive) (questData : option QuestData)
| RequirementUpdated (questId : positive) (steps : option (list Step)).

(** ** The store *)

Record Store := {
  users : list Users.row;
  quests : list Quests.row;
  userQuests : list UserQuests.row;
  achievements : list Achievements.row;
  userAchievements : list UserAchievements.row;
  cities : list Cities.row;
  organizationTypes : list OrganizationTypes.row;
  categories : list Categories.row;
  questCategories : list QuestCategories.row;
  quests_seq : positive;
  userQuests_seq : positive;
  achievements_seq : positive;
  userAchievements_seq : positive;
  events : list Event
}.

Definition with_users (v : list Users.row) (s : Store) : Store :=
  {| users := v; quests := quests s; userQuests := userQuests s;
     achievements := achievements s; userAchievements := userAchievements s;
     cities := cities s; organizationTypes := organizationTypes s;
     categories := categories s; questCategories := questCategories s;
     quests_seq := quests_seq s; userQuests_seq := userQuests_seq s;
     achievements_seq := achievements_seq s;
     userAchievements_seq := userAchievements_seq s; events := events s |}.

Definition with_quests (v : list Quests.row) (n : positive) (s : Store) : Store :=
  {| users := users s; quests := v; userQuests := userQuests s;
     achievements := achievements s; userAchievements := userAchievements s;
     cities := cities s; organizationTypes := organizationTypes s;
     categories := categories s; questCategories := questCategories s;
     quests_seq := n; userQuests_seq := userQuests_seq s;
     achievements_seq := achievements_seq s;
     userAchievements_seq := userAchievements_seq s; events := events s |}.

Definition with_userQuests (v : list UserQuests.row) (n : positive) (s : Store) : Store :=
  {| users := users s; quests := quests s; userQuests := v;
     achievements := achievements s; userAchievements := userAchievements s;
     cities := cities s; organizationTypes := organizationTypes s;
     categories := categories s; questCategories := questCategories s;
     quests_seq := quests_seq s; userQuests_seq := n;
     achievements_seq := achievements_seq s;
     userAchievements_seq := userAchievements_seq s; events := events s |}.

Definition with_achievements (v : list Achievements.row) (n : positive) (s : Store) : Store :=
  {| users := users s; quests := quests s; userQuests := userQuests s;
     achievements := v; userAchievements := userAchievements s;
     cities := cities s; organizationTypes := organizationTypes s;
     categories := categories s; questCategories := questCategories s;
     quests_seq := quests_seq s; userQuests_seq := userQuests_seq s;
     achievements_seq := n;
     userAchievements_seq := userAchievements_seq s; events := events s |}.

Definition with_userAchievements (v : list UserAchievements.row) (n : positive)
    (s : Store) : Store :=
  {| users := users s; quests := quests s; userQuests := userQuests s;
     achievements := achievements s; userAchievements := v;
     cities := cities s; organizationTypes := organizationTypes s;
     categories := categories s; questCategories := questCategories s;
     quests_seq := quests_seq s; userQuests_seq := userQuests_seq s;
     achievements_seq := achievements_seq s;
     userAchievements_seq := n; events := events s |}.

Definition with_questCategories (v : list QuestCategories.row) (s : Store) : Store :=
  {| users := users s; quests := quests s; userQuests := userQuests s;
     achievements := achievements s; userAchievements := userAchievements s;
     cities := cities s; organizationTypes := organizationTypes s;
     categories := categories s; questCategories := v;
     quests_seq := quests_seq s; userQuests_seq := userQuests_seq s;
     achievements_seq := achievements_seq s;
     userAchievements_seq := userAchievements_seq s; events := events s |}.

Definition with_events (v : list Event) (s : Store) : Store :=
  {| users := users s; quests := quests s; userQuests := userQuests s;
     achievements := achievements s; userAchievements := userAchievements s;
     cities := cities s; organizationTypes := organizationTypes s;
     categories := categories s; questCategories := questCategories s;
     quests_seq := quests_seq s; userQuests_seq := userQuests_seq s;
     achievements_seq := achievements_seq s;
     userAchievements_seq := userAchievements_seq s; events := v |}.

(** ** Calls: store passing with exceptions that keep the writes made *)

Inductive Exception :=
| NotFoundException (message : string)
| BadRequestException (message : string)
| ConflictException (message : string)
| ForbiddenException (message : string)
| Error (message : string).

Inductive Outcome (A : Type) :=
| Returned (a : A)
| Thrown (e : Exception).
Arguments Returned {A} a.
Arguments Thrown {A} e.

Definition Call (A : Type) : Type := Store -> Store * Outcome A.

Definition ret {A} (a : A) : Call A := fun s => (s, Returned a).

Definition throw {A} (e : Exception) : Call A := fun s => (s, Thrown e).

Definition bind {A B} (m : Call A) (k : A -> Call B) : Call B :=
  fun s =>
    match m s with
    | (s', Returned a) => k a s'
    | (s', Thrown e) => (s', Thrown e)
    end.

Notation "'let!' x ':=' m 'in' k" := (bind m (fun x => k))
  (at level 10, x name, m at level 100, k at level 200,
   format "'[v' 'let!'  x  ':='  m  'in' '/' k ']'").

(** A read of the store, and a statement that rewrites it. *)
Definition query {A} (f : Store -> A) : Call A := fun s => (s, Returned (f s)).

Definition exec (f : Store -> Store) : Call unit := fun s => (f s, Returned tt).

(** [if (!x) throw e] *)
Definition or_throw {A} (o : option A) (e : Exception) : Call A :=
  match o with
  | Some a => ret a
  | None => throw e
  end.

(** [if (b) throw e] *)
Definition throw_if (b : bool) (e : Exception) : Call unit :=
  if b then throw e else ret tt.

Definition when (b : bool) (c : Call unit) : Call unit :=
  if b then c else ret tt.

(** Modelled from the spec: quest.events.ts is absent; the event sink is
    fire-and-forget, so [this.questEventsService.emit...] appends the event
    to a log the engine never reads. *)
Definition emit (e : Event) : Call unit :=
  exec (fun s => with_events (events s ++ [e]) s).

(** The kind of an exception, as the error taxonomy has it. *)
Definition is_validation_failure (e : Exception) : bool :=
  match e with
  | Error _ => false
  | _ => true
  end.

(** ** Projections of the list queries *)

(** The quest columns [findActiveQuests] and [findUserQuestsByUserId]
    select (the object is flat in the first and nested under [quest] in the
    second). *)
Record QuestCard := {
  qc_id : positive;
  qc_title : string;
  qc_description : option string;
  qc_status : QuestStatus;
  qc_experienceReward : Z;
  qc_achievementId : option positive;
  qc_ownerId : positive;
  qc_cityId : positive;
  qc_coverImage : option string;
  qc_gallery : option (list string);
  qc_steps : option (list Step);
  qc_createdAt : Time;
  qc_updatedAt : Time
}.

(** A row of [findActiveQuests]. *)
Record ActiveQuest := {
  aq_quest : QuestCard;
  aq_achievement : option AchievementView;
  aq_owner : OwnerView;
  aq_city : option NamedView
}.

(** A row of [findByStatus]: fewer quest columns, no city. *)
Record QuestSummary := {
  qs_id : positive;
  qs_title : string;
  qs_description : option string;
  qs_status : QuestStatus;
  qs_experienceReward : Z;
  qs_achievementId : option positive;
  qs_ownerId : positive;
  qs_createdAt : Time;
  qs_updatedAt : Time;
  qs_achievement : option AchievementView;
  qs_owner : OwnerView
}.

(** A row of [findUserQuestsByUserId]: every column of the participation
    row, the quest, and its left-joined achievement and city. *)
Record UserQuestView := {
  uqv_userQuest : UserQuests.row;
  uqv_quest : QuestCard;
  uqv_achievement : option AchievementView;
  uqv_city : option NamedView
}.

(** [CategoryRelation]: a category tagged with the quest it belongs to. *)
Record CategoryRelation := {
  cr_questId : positive;
  cr_id : positive;
  cr_name : string
}.

(** [{ ...row, categories }], the shape the list methods of the service
    return. *)
Record Listed (A : Type) := {
  listed : A;
  listed_categories : list NamedView
}.
Arguments listed {A} _.
Arguments listed_categories {A} _.

(** ** QuestRepository *)

(** The values of an [insert into quests].  [status] and [experienceReward]
    are optional in the signature; the one caller always supplies them. *)
Record CreateData := {
  c_title : string;
  c_description : option string;
  c_status : QuestStatus;
  c_experienceReward : Z;
  c_achievementId : option positive;
  c_ownerId : positive;
  c_cityId : positive;
  c_organizationTypeId : option positive;
  c_latitude : option string;
  c_longitude : option string;
  c_address : option string;
  c_contacts : option (list Contact);
  c_coverImage : option string;
  c_gallery : option (list string);
  c_steps : option (list Step)
}.

(** [Partial<typeof quests.$inferInsert>] as the callers fill it: [None] is
    a key that is absent (or [undefined], which drizzle skips), [Some None]
    an explicit [null] on a nullable column.  [cityId] is a non-null column
    ([QuestWithRelations.cityId: number]), so its patch carries no null. *)
Record UpdateData := {
  u_title : option string;
  u_description : option (option string);
  u_status : option QuestStatus;
  u_experienceReward : option Z;
  u_achievementId : option (option positive);
  u_cityId : option positive;
  u_organizationTypeId : option (option positive);
  u_latitude : option string;
  u_longitude : option string;
  u_address : option (option string);
  u_contacts : option (option (list Contact));
  u_coverImage : option (option string);
  u_gallery : option (option (list string));
  u_steps : option (option (list Step))
}.

Definition no_update : UpdateData :=
  {| u_title := None; u_description := None; u_status := None;
     u_experienceReward := None; u_achievementId := None; u_cityId := None;
     u_organizationTypeId := None; u_latitude := None; u_longitude := None;
     u_address := None; u_contacts := None; u_coverImage := None;
     u_gallery := None; u_steps := None |}.

(** [Partial<typeof userQuests.$inferInsert>], with the keys the engine sets. *)
Record UserQuestData := {
  uq_status : option UserQuestStatus;
  uq_completedAt : option (option Time)
}.

Module QuestRepository.

Definition live_quest (id : positive) (q : Quests.row) : bool :=
  (Quests.id q =? id)%positive && not_deleted (Quests.recordStatus q).

Definition live_user (id : positive) (u : Users.row) : bool :=
  (Users.id u =? id)%positive && not_deleted (Users.recordStatus u).

Definition live_achievement (id : positive) (a : Achievements.row) : bool :=
  (Achievements.id a =? id)%positive && not_deleted (Achievements.recordStatus a).

Definition live_city (id : positive) (c : Cities.row) : bool :=
  (Cities.id c =? id)%positive && not_deleted (Cities.recordStatus c).

Definition live_organizationType (id : positive) (o : OrganizationTypes.row) : bool :=
  (OrganizationTypes.id o =? id)%positive && not_deleted (OrganizationTypes.recordStatus o).

Definition achievement_view (a : Achievements.row) : AchievementView :=
  {| av_id := Achievements.id a; av_title := Achievements.title a;
     av_description := Achievements.description a;
     av_icon := Achievements.icon a; av_rarity := Achievements.rarity a;
     av_questId := Achievements.questId a |}.

Definition owner_view (u : Users.row) : OwnerView :=
  {| ov_id := Users.id u; ov_firstName := Users.firstName u;
     ov_lastName := Users.lastName u; ov_email := Users.email u |}.

Definition city_view (c : Cities.row) : NamedView :=
  {| nv_id := Cities.id c; nv_name := Cities.name c |}.

Definition organizationType_view (o : OrganizationTypes.row) : NamedView :=
  {| nv_id := OrganizationTypes.id o; nv_name := OrganizationTypes.name o |}.

Definition category_view (c : Categories.row) : NamedView :=
  {| nv_id := Categories.id c; nv_name := Categories.name c |}.

(** [findByIdBasic]: the quest row alone, soft-deleted rows excluded. *)
Definition findByIdBasic (id : positive) (s : Store) : option Quests.row :=
  List.find (live_quest id) (quests s).

(** [findById]: the quest joined with its relations.  Identifiers are
    primary keys, so each join contributes at most one row: the achievement,
    the city and the organization type are left joins (absent or deleted
    gives null), the owner is an inner join (absent or deleted owner gives
    no row at all). *)
Definition findById (id : positive) (s : Store) : option QuestWithRelations :=
  match findByIdBasic id s with
  | None => None
  | Some q =>
    match List.find (live_user (Quests.ownerId q)) (users s) with
    | None => None
    | Some u =>
      Some {| qr_quest := q;
              qr_achievement :=
                match Quests.achievementId q with
                | Some a => achievement_view <$> List.find (live_achievement a) (achievements s)
                | None => None
                end;
              qr_owner := owner_view u;
              qr_city := city_view <$> List.find (live_city (Quests.cityId q)) (cities s);
              qr_organizationType :=
                match Quests.organizationTypeId q with
                | Some o =>
                  organizationType_view
                    <$> List.find (live_organizationType o) (organizationTypes s)
                | None => None
                end |}
    end
  end.

(** [create]: [insert ... returning], the key taken from the sequence. *)
Definition create (now : Time) (data : CreateData) : Call Quests.row :=
  fun s =>
    let quest :=
      {| Quests.id := quests_seq s; Quests.title := c_title data;
         Quests.description := c_description data;
         Quests.status := c_status data;
         Quests.experienceReward := c_experienceReward data;
         Quests.achievementId := c_achievementId data;
         Quests.ownerId := c_ownerId data; Quests.cityId := c_cityId data;
         Quests.organizationTypeId := c_organizationTypeId data;
         Quests.latitude := c_latitude data;
         Quests.longitude := c_longitude data;
         Quests.address := c_address data;
         Quests.contacts := c_contacts data;
         Quests.coverImage := c_coverImage data;
         Quests.gallery := c_gallery data; Quests.steps := c_steps data;
         Quests.recordStatus := CREATED; Quests.createdAt := now;
         Quests.updatedAt := now |} in
    (with_quests (quests s ++ [quest]) (Pos.succ (quests_seq s)) s, Returned quest).

(** [.set({ ...data, updatedAt: new Date() })] on one row. *)
Definition set_row (data : UpdateData) (now : Time) (q : Quests.row) : Quests.row :=
  {| Quests.id := Quests.id q;
     Quests.title := default (Quests.title q) (u_title data);
     Quests.description := default (Quests.description q) (u_description data);
     Quests.status := default (Quests.status q) (u_status data);
     Quests.experienceReward := default (Quests.experienceReward q) (u_experienceReward data);
     Quests.achievementId := default (Quests.achievementId q) (u_achievementId data);
     Quests.ownerId := Quests.ownerId q;
     Quests.cityId := default (Quests.cityId q) (u_cityId data);
     Quests.organizationTypeId := default (Quests.organizationTypeId q) (u_organizationTypeId data);
     Quests.latitude :=
       match u_latitude data with
       | Some v => Some v
       | None => Quests.latitude q
       end;
     Quests.longitude :=
       match u_longitude data with
       | Some v => Some v
       | None => Quests.longitude q
       end;
     Quests.address := default (Quests.address q) (u_address data);
     Quests.contacts := default (Quests.contacts q) (u_contacts data);
     Quests.coverImage := default (Quests.coverImage q) (u_coverImage data);
     Quests.gallery := default (Quests.gallery q) (u_gallery data);
     Quests.steps := default (Quests.steps q) (u_steps data);
     Quests.recordStatus := Quests.recordStatus q;
     Quests.createdAt := Quests.createdAt q;
     Quests.updatedAt := now |}.

Definition update_rows (id : positive) (data : UpdateData) (now : Time)
    (l : list Quests.row) : list Quests.row :=
  map (fun q => if live_quest id q then set_row data now q else q) l.

(** [update]: every live row with the key is rewritten; the first row that
    [returning] lists is handed back, [undefined] when there is none. *)
Definition update (now : Time) (id : positive) (data : UpdateData) : Call (option Quests.row) :=
  fun s =>
    let s' := with_quests (update_rows id data now (quests s)) (quests_seq s) s in
    (s', Returned (set_row data now <$> List.find (live_quest id) (quests s))).

Definition updateStatus (now : Time) (id : positive) (status : QuestStatus)
    : Call (option Quests.row) :=
  update now id
    {| u_title := None; u_description := None; u_status := Some status;
       u_experienceReward := None; u_achievementId := None; u_cityId := None;
       u_organizationTypeId := None; u_latitude := None; u_longitude := None;
       u_address := None; u_contacts := None; u_coverImage := None;
       u_gallery := None; u_steps := None |}.

Definition mark_deleted (now : Time) (q : Quests.row) : Quests.row :=
  {| Quests.id := Quests.id q; Quests.title := Quests.title q;
     Quests.description := Quests.description q;
     Quests.status := Quests.status q;
     Quests.experienceReward := Quests.experienceReward q;
     Quests.achievementId := Quests.achievementId q;
     Quests.ownerId := Quests.ownerId q; Quests.cityId := Quests.cityId q;
     Quests.organizationTypeId := Quests.organizationTypeId q;
     Quests.latitude := Quests.latitude q;
     Quests.longitude := Quests.longitude q;
     Quests.address := Quests.address q; Quests.contacts := Quests.contacts q;
     Quests.coverImage := Quests.coverImage q;
     Quests.gallery := Quests.gallery q; Quests.steps := Quests.steps q;
     Quests.recordStatus := DELETED; Quests.createdAt := Quests.createdAt q;
     Quests.updatedAt := now |}.

Definition softDelete (now : Time) (id : positive) : Call (option Quests.row) :=
  fun s =>
    let rows := map (fun q => if live_quest id q then mark_deleted now q else q) (quests s) in
    (with_quests rows (quests_seq s) s,
     Returned (mark_deleted now <$> List.find (live_quest id) (quests s))).

(** [findCategoriesByQuestId]: association rows of the quest joined with
    the live categories. *)
Definition findCategoriesByQuestId (questId : positive) (s : Store) : list NamedView :=
  flat_map
    (fun qc =>
       if (QuestCategories.questId qc =? questId)%positive
       then map category_view
              (List.filter
                 (fun c => (Categories.id c =? QuestCategories.categoryId qc)%positive
                           && not_deleted (Categories.recordStatus c))
                 (categories s))
       else [])
    (questCategories s).

Definition createQuestCategories (questId : positive) (categoryIds : list positive) : Call unit :=
  match categoryIds with
  | [] => ret tt
  | _ =>
    exec (fun s =>
      with_questCategories
        (questCategories s ++
         map (fun c => {| QuestCategories.questId := questId;
                          QuestCategories.categoryId := c |}) categoryIds) s)
  end.

Definition deleteQuestCategories (questId : positive) : Call unit :=
  exec (fun s =>
    with_questCategories
      (List.filter (fun qc => negb (QuestCategories.questId qc =? questId)%positive)
         (questCategories s)) s).

Definition for_pair (userId questId : positive) (r : UserQuests.row) : bool :=
  (UserQuests.userId r =? userId)%positive && (UserQuests.questId r =? questId)%positive.

Definition findUserQuest (userId questId : positive) (s : Store) : option UserQuests.row :=
  List.find (for_pair userId questId) (userQuests s).

(** [createUserQuest]: [startedAt] is left to its column default. *)
Definition createUserQuest (now : Time) (userId questId : positive)
    (status : UserQuestStatus) : Call UserQuests.row :=
  fun s =>
    let r :=
      {| UserQuests.id := userQuests_seq s; UserQuests.userId := userId;
         UserQuests.questId := questId; UserQuests.status := status;
         UserQuests.startedAt := Some now; UserQuests.completedAt := None |} in
    (with_userQuests (userQuests s ++ [r]) (Pos.succ (userQuests_seq s)) s, Returned r).

Definition set_userQuest (data : UserQuestData) (r : UserQuests.row) : UserQuests.row :=
  {| UserQuests.id := UserQuests.id r; UserQuests.userId := UserQuests.userId r;
     UserQuests.questId := UserQuests.questId r;
     UserQuests.status := default (UserQuests.status r) (uq_status data);
     UserQuests.startedAt := UserQuests.startedAt r;
     UserQuests.completedAt := default (UserQuests.completedAt r) (uq_completedAt data) |}.

Definition has_id (userQuestId : positive) (r : UserQuests.row) : bool :=
  (UserQuests.id r =? userQuestId)%positive.

Definition updateUserQuest (userQuestId : positive) (data : UserQuestData)
    : Call (option UserQuests.row) :=
  fun s =>
    let rows :=
      map (fun r => if has_id userQuestId r then set_userQuest data r else r)
        (userQuests s) in
    (with_userQuests rows (userQuests_seq s) s,
     Returned (set_userQuest data <$> List.find (has_id userQuestId) (userQuests s))).

Definition deleteUserQuest (userQuestId : positive) : Call (option UserQuests.row) :=
  fun s =>
    let rows := List.filter (fun r => negb (has_id userQuestId r)) (userQuests s) in
    (with_userQuests rows (userQuests_seq s) s,
     Returned (List.find (has_id userQuestId) (userQuests s))).


(** *** The list queries *)

(** The joins every quest query shares.  Identifiers are primary keys, so a
    join contributes at most one row. *)
Definition joined_achievement (s : Store) (q : Quests.row) : option AchievementView :=
  match Quests.achievementId q with
  | Some a => achievement_view <$> List.find (live_achievement a) (achievements s)
  | None => None
  end.

Definition joined_owner (s : Store) (q : Quests.row) : option OwnerView :=
  owner_view <$> List.find (live_user (Quests.ownerId q)) (users s).

Definition joined_city (s : Store) (q : Quests.row) : option NamedView :=
  city_view <$> List.find (live_city (Quests.cityId q)) (cities s).

Definition joined_organizationType (s : Store) (q : Quests.row) : option NamedView :=
  match Quests.organizationTypeId q with
  | Some o =>
    organizationType_view <$> List.find (live_organizationType o) (organizationTypes s)
  | None => None
  end.

(** [if (cityId) conditions.push(eq(quests.cityId, cityId))] *)
Definition in_city (cityId : option positive) (q : Quests.row) : bool :=
  match cityId with
  | Some c => (Quests.cityId q =? c)%positive
  | None => true
  end.

(** [if (status) conditions.push(eq(quests.status, status))] *)
Definition has_status (status : option QuestStatus) (q : Quests.row) : bool :=
  match status with
  | Some st => bool_decide (Quests.status q = st)
  | None => true
  end.

(** [if (categoryId)]: the inner join with [questCategories] pairs the quest
    with each of its association rows for that category, so the quest comes
    once per such row; without the filter it comes once. *)
Definition per_association {A} (categoryId : option positive) (questId : positive)
    (s : Store) (v : A) : list A :=
  match categoryId with
  | Some c =>
    map (fun _ => v)
      (List.filter
         (fun qc => (QuestCategories.questId qc =? questId)%positive
                    && (QuestCategories.categoryId qc =? c)%positive)
         (questCategories s))
  | None => [v]
  end.

(** [findAll]: every quest row that has a live owner, with the two optional
    filters.  The query has no condition on [quests.recordStatus]. *)
Definition findAll (cityId categoryId : option positive) (s : Store)
    : list QuestWithRelations :=
  flat_map
    (fun q =>
       match joined_owner s q with
       | Some owner =>
         if in_city cityId q
         then per_association categoryId (Quests.id q) s
                {| qr_quest := q; qr_achievement := joined_achievement s q;
                   qr_owner := owner; qr_city := joined_city s q;
                   qr_organizationType := joined_organizationType s q |}
         else []
       | None => []
       end)
    (quests s).

Definition summary (s : Store) (q : Quests.row) (owner : OwnerView) : QuestSummary :=
  {| qs_id := Quests.id q; qs_title := Quests.title q;
     qs_description := Quests.description q; qs_status := Quests.status q;
     qs_experienceReward := Quests.experienceReward q;
     qs_achievementId := Quests.achievementId q; qs_ownerId := Quests.ownerId q;
     qs_createdAt := Quests.createdAt q; qs_updatedAt := Quests.updatedAt q;
     qs_achievement := joined_achievement s q; qs_owner := owner |}.

(** [findByStatus]: live quests with a live owner, filtered by status, city
    and category where given. *)
Definition findByStatus (status : option QuestStatus) (cityId categoryId : option positive)
    (s : Store) : list QuestSummary :=
  flat_map
    (fun q =>
       match joined_owner s q with
       | Some owner =>
         if not_deleted (Quests.recordStatus q) && has_status status q && in_city cityId q
         then per_association categoryId (Quests.id q) s (summary s q owner)
         else []
       | None => []
       end)
    (quests s).

Definition card (q : Quests.row) : QuestCard :=
  {| qc_id := Quests.id q; qc_title := Quests.title q;
     qc_description := Quests.description q; qc_status := Quests.status q;
     qc_experienceReward := Quests.experienceReward q;
     qc_achievementId := Quests.achievementId q; qc_ownerId := Quests.ownerId q;
     qc_cityId := Quests.cityId q; qc_coverImage := Quests.coverImage q;
     qc_gallery := Quests.gallery q; qc_steps := Quests.steps q;
     qc_createdAt := Quests.createdAt q; qc_updatedAt := Quests.updatedAt q |}.

(** [findActiveQuests]: live quests of status active with a live owner. *)
Definition findActiveQuests (s : Store) : list ActiveQuest :=
  flat_map
    (fun q =>
       match joined_owner s q with
       | Some owner =>
         if is_active (Quests.status q) && not_deleted (Quests.recordStatus q)
         then [{| aq_quest := card q; aq_achievement := joined_achievement s q;
                  aq_owner := owner; aq_city := joined_city s q |}]
         else []
       | None => []
       end)
    (quests s).

(** [findCategoriesByQuestIds]: nothing for an empty list of quests;
    otherwise the association rows of those quests joined with the live
    categories, each result tagged with its quest. *)
Definition findCategoriesByQuestIds (questIds : list positive) (s : Store)
    : list CategoryRelation :=
  match questIds with
  | [] => []
  | _ =>
    flat_map
      (fun qc =>
         if existsb (Pos.eqb (QuestCategories.questId qc)) questIds
         then map (fun c => {| cr_questId := QuestCategories.questId qc;
                               cr_id := Categories.id c; cr_name := Categories.name c |})
                (List.filter
                   (fun c => (Categories.id c =? QuestCategories.categoryId qc)%positive
                             && not_deleted (Categories.recordStatus c))
                   (categories s))
         else [])
      (questCategories s)
  end.

(** [findUserQuestsByUserId]: the participation rows of the user whose quest
    is live (inner join; the first live quest row with the key). *)
Definition findUserQuestsByUserId (userId : positive) (s : Store) : list UserQuestView :=
  flat_map
    (fun r =>
       if (UserQuests.userId r =? userId)%positive
       then match List.find (live_quest (UserQuests.questId r)) (quests s) with
            | Some q =>
              [{| uqv_userQuest := r; uqv_quest := card q;
                  uqv_achievement := joined_achievement s q;
                  uqv_city := joined_city s q |}]
            | None => []
            end
       else [])
    (userQuests s).

(** [findStartedQuestIdsByUserId]: the quest of every participation row of
    the user, whatever its status. *)
Definition findStartedQuestIdsByUserId (userId : positive) (s : Store) : list positive :=
  map UserQuests.questId
    (List.filter (fun r => (UserQuests.userId r =? userId)%positive) (userQuests s)).

End QuestRepository.

(** ** Request payloads of the quest service *)

(** Modelled from the spec: dto/create-quest.dto.ts, dto/update-quest.dto.ts
    and dto/update-requirement.dto.ts are absent.  The fields are the ones
    the service reads, optional where it tests them for [undefined],
    nullable where it tests them for [null] or for truthiness; [cityId] of a
    patch is the exception, a quest's city being mandatory (the method tests
    it for null all the same). *)

Record AchievementPayload := {
  ap_title : string;
  ap_description : option string;
  ap_icon : option string
}.

Module CreateQuestDto.
Record t := {
  title : string;
  description : option string;
  status : option QuestStatus;
  experienceReward : option Z;
  achievement : option AchievementPayload;
  cityId : positive;
  organizationTypeId : option positive;
  categoryIds : option (list positive);
  latitude : option JsNumber;
  longitude : option JsNumber;
  address : option string;
  contacts : option (list Contact);
  coverImage : option string;
  gallery : option (list string);
  steps : option (list Step)
}.
End CreateQuestDto.

Module UpdateQuestDto.
Record t := {
  title : option string;
  description : option (option string);
  status : option QuestStatus;
  experienceReward : option Z;
  achievementId : option (option positive);
  cityId : option positive;
  organizationTypeId : option (option positive);
  latitude : option JsNumber;
  longitude : option JsNumber;
  address : option (option string);
  contacts : option (option (list Contact));
  coverImage : option (option string);
  gallery : option (option (list string));
  steps : option (option (list Step));
  categoryIds : option (list positive)
}.

(** The patch [{}]. *)
Definition empty : t :=
  {| title := None; description := None; status := None;
     experienceReward := None; achievementId := None; cityId := None;
     organizationTypeId := None; latitude := None; longitude := None;
     address := None; contacts := None; coverImage := None; gallery := None;
     steps := None; categoryIds := None |}.

(** The patch [{ gallery: g }]. *)
Definition only_gallery (g : list string) : t :=
  {| title := None; description := None; status := None;
     experienceReward := None; achievementId := None; cityId := None;
     organizationTypeId := None; latitude := None; longitude := None;
     address := None; contacts := None; coverImage := None;
     gallery := Some (Some g); steps := None; categoryIds := None |}.
End UpdateQuestDto.

Record UpdateRequirementDto := { dto_currentValue : Z }.

(** ** QuestService *)

Module QuestService.

Import QuestRepository.

(** [select().from(users).where(id = userId and recordStatus <> DELETED)] *)
Definition select_user (userId : positive) (s : Store) : option Users.row :=
  List.find (live_user userId) (users s).

Definition select_city (cityId : positive) (s : Store) : option Cities.row :=
  List.find (live_city cityId) (cities s).

Definition select_organizationType (id : positive) (s : Store) : option OrganizationTypes.row :=
  List.find (live_organizationType id) (organizationTypes s).

Definition select_achievement (id : positive) (s : Store) : option Achievements.row :=
  List.find (live_achievement id) (achievements s).

(** [where(inArray(categories.id, ids) and recordStatus <> DELETED)] *)
Definition select_categories (ids : list positive) (s : Store) : list Categories.row :=
  List.filter
    (fun c => existsb (Pos.eqb (Categories.id c)) ids
              && not_deleted (Categories.recordStatus c))
    (categories s).

(** A [select] followed by [if (!row) throw e]. *)
Definition fetch {A} (f : Store -> option A) (e : Exception) : Call A :=
  let! o := query f in or_throw o e.

Definition user_not_found (userId : positive) : Exception :=
  NotFoundException ("Пользователь с ID " ++ show_pos userId ++ " не найден").

Definition quest_not_found (id : positive) : Exception :=
  NotFoundException ("Квест с ID " ++ show_pos id ++ " не найден").

Definition city_not_found (id : positive) : Exception :=
  NotFoundException ("Город с ID " ++ show_pos id ++ " не найден").

Definition organizationType_not_found (id : positive) : Exception :=
  NotFoundException ("Тип организации с ID " ++ show_pos id ++ " не найден").

Definition achievement_not_found (id : positive) : Exception :=
  NotFoundException ("Достижение с ID " ++ show_pos id ++ " не найдено").

Definition categories_not_found : Exception :=
  NotFoundException "Одна или несколько категорий не найдены".

Definition gallery_too_large : Exception :=
  BadRequestException "Галерея не может содержать более 10 изображений".

Definition level_too_low : Exception :=
  ForbiddenException "Для создания квеста требуется уровень 5 или выше".

(** [insert into achievements ... returning], rarity forced to private and
    [questId] left unset. *)
Definition insert_achievement (p : AchievementPayload) : Call Achievements.row :=
  fun s =>
    let a :=
      {| Achievements.id := achievements_seq s;
         Achievements.title := ap_title p;
         Achievements.description := ap_description p;
         Achievements.icon := ap_icon p; Achievements.rarity := private;
         Achievements.questId := None; Achievements.recordStatus := CREATED |} in
    (with_achievements (achievements s ++ [a]) (Pos.succ (achievements_seq s)) s, Returned a).

(** [update(achievements).set({ questId }).where(id = achievementId)] *)
Definition set_achievement_quest (achievementId questId : positive) : Call unit :=
  exec (fun s =>
    with_achievements
      (map (fun a => if (Achievements.id a =? achievementId)%positive
                     then Achievements.set_questId (Some questId) a else a)
         (achievements s))
      (achievements_seq s) s).

Definition gallery_over_limit (g : option (list string)) : bool :=
  match g with
  | Some l => (10 <? length l)%nat
  | None => false
  end.

Definition nonempty_ids (o : option (list positive)) : option (list positive) :=
  match o with
  | Some (c :: l) => Some (c :: l)
  | _ => None
  end.

Definition create (now : Time) (createQuestDto : CreateQuestDto.t) (userId : positive)
    : Call QuestWithAllData :=
  let! user := fetch (select_user userId) (user_not_found userId) in
  let! _ := throw_if (Users.level user <? 5) level_too_low in
  let! achievementId :=
    match CreateQuestDto.achievement createQuestDto with
    | Some p => let! achievement := insert_achievement p in
                ret (Some (Achievements.id achievement))
    | None => ret None
    end in
  let! city := fetch (select_city (CreateQuestDto.cityId createQuestDto))
                 (city_not_found (CreateQuestDto.cityId createQuestDto)) in
  let! _ :=
    match CreateQuestDto.organizationTypeId createQuestDto with
    | Some o =>
      let! _ := fetch (select_organizationType o) (organizationType_not_found o) in
      ret tt
    | None => ret tt
    end in
  let! _ :=
    match nonempty_ids (CreateQuestDto.categoryIds createQuestDto) with
    | Some ids =>
      let! existingCategories := query (select_categories ids) in
      throw_if (negb (length existingCategories =? length ids)%nat) categories_not_found
    | None => ret tt
    end in
  let! _ := throw_if (gallery_over_limit (CreateQuestDto.gallery createQuestDto))
              gallery_too_large in
  let latitude :=
    match CreateQuestDto.latitude createQuestDto with
    | Some n => Some (toString n)
    | None => Cities.latitude city
    end in
  let longitude :=
    match CreateQuestDto.longitude createQuestDto with
    | Some n => Some (toString n)
    | None => Cities.longitude city
    end in
  let! quest :=
    QuestRepository.create now
      {| c_title := CreateQuestDto.title createQuestDto;
         c_description := CreateQuestDto.description createQuestDto;
         c_status := default active (CreateQuestDto.status createQuestDto);
         c_experienceReward := default 0 (CreateQuestDto.experienceReward createQuestDto);
         c_achievementId := achievementId;
         c_ownerId := userId;
         c_cityId := CreateQuestDto.cityId createQuestDto;
         c_organizationTypeId := CreateQuestDto.organizationTypeId createQuestDto;
         c_latitude := latitude;
         c_longitude := longitude;
         c_address := CreateQuestDto.address createQuestDto;
         c_contacts := CreateQuestDto.contacts createQuestDto;
         c_coverImage := CreateQuestDto.coverImage createQuestDto;
         c_gallery := CreateQuestDto.gallery createQuestDto;
         c_steps := CreateQuestDto.steps createQuestDto |} in
  let! _ :=
    match achievementId with
    | Some a => set_achievement_quest a (Quests.id quest)
    | None => ret tt
    end in
  let! _ :=
    match nonempty_ids (CreateQuestDto.categoryIds createQuestDto) with
    | Some ids => createQuestCategories (Quests.id quest) ids
    | None => ret tt
    end in
  let! questWithAchievement :=
    fetch (findById (Quests.id quest)) (Error "Не удалось получить созданный квест") in
  let! questCategoriesData := query (findCategoriesByQuestId (Quests.id quest)) in
  let questWithAllData :=
    {| qd_quest := questWithAchievement; qd_categories := questCategoriesData |} in
  let! userQuest := createUserQuest now userId (Quests.id quest) in_progress in
  let! userData := query (select_user userId) in
  let! _ := emit (UserJoined (Quests.id quest) userId (owner_view <$> userData)) in
  let! _ := emit (QuestCreated (Quests.id quest) questWithAllData) in
  ret questWithAllData.

Definition findOne (id : positive) : Call QuestWithAllData :=
  let! quest := fetch (findById id) (quest_not_found id) in
  let! questCategoriesData := query (findCategoriesByQuestId id) in
  ret {| qd_quest := quest; qd_categories := questCategoriesData |}.

(** [newStep?.requirement !== undefined && newStep?.requirement !== null] *)
Definition has_requirement (step : option Step) : bool :=
  match step with
  | Some st => bool_decide (is_Some (requirement st))
  | None => false
  end.

(** [v !== undefined && v !== old] on an optional number. *)
Definition defined_and_differs (v old : option Z) : bool :=
  match v with
  | Some _ => negb (bool_decide (v = old))
  | None => false
  end.

(** One turn of the pairwise comparison of the update loop. *)
Definition requirement_differs (newStep oldStep : option Step) : bool :=
  let hasNewRequirement := has_requirement newStep in
  let hasOldRequirement := has_requirement oldStep in
  if negb (eqb hasNewRequirement hasOldRequirement) then true
  else
    match newStep ≫= requirement, oldStep ≫= requirement with
    | Some newReq, Some oldReq =>
      defined_and_differs (currentValue newReq) (currentValue oldReq)
      || defined_and_differs (targetValue newReq) (targetValue oldReq)
    | _, _ => false
    end.

(** [step => step?.requirement] as a predicate of [some]. *)
Definition step_has_requirement (st : Step) : bool :=
  bool_decide (is_Some (requirement st)).

(** The flag [requirementsChanged] for a patch whose [steps] is defined. *)
Definition requirementsChanged (existing new : option (list Step)) : bool :=
  match existing, new with
  | Some olds, Some news =>
    existsb (fun i => requirement_differs (news !! i) (olds !! i))
      (seq 0 (Nat.max (length olds) (length news)))
  | None, Some news => existsb step_has_requirement news
  | Some olds, None => existsb step_has_requirement olds
  | None, None => false
  end.

(** The object [updateData] once every branch of the method has run; the
    timestamp it starts with is overwritten by the repository. *)
Definition updateData (dto : UpdateQuestDto.t) : UpdateData :=
  {| u_title := UpdateQuestDto.title dto;
     u_description := UpdateQuestDto.description dto;
     u_status := UpdateQuestDto.status dto;
     u_experienceReward := UpdateQuestDto.experienceReward dto;
     u_achievementId := UpdateQuestDto.achievementId dto;
     u_cityId := UpdateQuestDto.cityId dto;
     u_organizationTypeId := UpdateQuestDto.organizationTypeId dto;
     u_latitude := toString <$> UpdateQuestDto.latitude dto;
     u_longitude := toString <$> UpdateQuestDto.longitude dto;
     u_address := UpdateQuestDto.address dto;
     u_contacts := UpdateQuestDto.contacts dto;
     u_coverImage := UpdateQuestDto.coverImage dto;
     u_gallery := UpdateQuestDto.gallery dto;
     u_steps := UpdateQuestDto.steps dto |}.

Definition update (now : Time) (id : positive) (updateQuestDto : UpdateQuestDto.t)
    : Call QuestWithAllData :=
  let! existingQuest := fetch (findByIdBasic id) (quest_not_found id) in
  let! _ :=
    match UpdateQuestDto.achievementId updateQuestDto with
    | Some (Some a) =>
      let! _ := fetch (select_achievement a) (achievement_not_found a) in ret tt
    | _ => ret tt
    end in
  let! _ :=
    match UpdateQuestDto.cityId updateQuestDto with
    | Some c => let! _ := fetch (select_city c) (city_not_found c) in ret tt
    | None => ret tt
    end in
  let! _ :=
    match UpdateQuestDto.organizationTypeId updateQuestDto with
    | Some (Some o) =>
      let! _ := fetch (select_organizationType o) (organizationType_not_found o) in
      ret tt
    | _ => ret tt
    end in
  let! _ :=
    match UpdateQuestDto.gallery updateQuestDto with
    | Some g => throw_if (gallery_over_limit g) gallery_too_large
    | None => ret tt
    end in
  let changed :=
    match UpdateQuestDto.steps updateQuestDto with
    | Some new => requirementsChanged (Quests.steps existingQuest) new
    | None => false
    end in
  let! updated := QuestRepository.update now id (updateData updateQuestDto) in
  let! quest := or_throw updated (quest_not_found id) in
  let! _ := when changed (emit (RequirementUpdated id (Quests.steps quest))) in
  let! _ :=
    match UpdateQuestDto.categoryIds updateQuestDto with
    | Some categoryIds =>
      let! _ := deleteQuestCategories id in
      match categoryIds with
      | [] => ret tt
      | _ =>
        let! existingCategories := query (select_categories categoryIds) in
        let! _ := throw_if (negb (length existingCategories =? length categoryIds)%nat)
                    categories_not_found in
        createQuestCategories id categoryIds
      end
    | None => ret tt
    end in
  findOne id.

Definition remove (now : Time) (id : positive) : Call Quests.row :=
  let! quest := QuestRepository.softDelete now id in
  or_throw quest (quest_not_found id).

Definition joinQuest (now : Time) (userId questId : positive) : Call UserQuests.row :=
  let! user := fetch (select_user userId) (user_not_found userId) in
  let! quest := fetch (findByIdBasic questId) (quest_not_found questId) in
  let! _ := throw_if (negb (is_active (Quests.status quest)))
              (BadRequestException "Квест не доступен для выполнения") in
  let! existingUserQuest := query (findUserQuest userId questId) in
  let! _ := throw_if (bool_decide (is_Some existingUserQuest))
              (ConflictException "Пользователь уже присоединился к этому квесту") in
  let! userQuest := createUserQuest now userId questId in_progress in
  let! userData := query (select_user userId) in
  let! _ := emit (UserJoined questId userId (owner_view <$> userData)) in
  ret userQuest.

Definition leaveQuest (userId questId : positive) : Call UserQuests.row :=
  let! user := fetch (select_user userId) (user_not_found userId) in
  let! quest := fetch (findByIdBasic questId) (quest_not_found questId) in
  let! userQuest := fetch (findUserQuest userId questId)
                      (NotFoundException "Пользователь не участвует в этом квесте") in
  let! _ := throw_if (is_uq_completed (UserQuests.status userQuest))
              (BadRequestException "Нельзя покинуть уже завершенный квест") in
  let! deletedUserQuest := deleteUserQuest (UserQuests.id userQuest) in
  or_throw deletedUserQuest (Error "Не удалось покинуть квест").

(** [update(users).set({ experience }).where(id = userId)] *)
Definition set_user_experience (userId : positive) (experience : Z) : Call unit :=
  exec (fun s =>
    with_users
      (map (fun u => if (Users.id u =? userId)%positive
                     then Users.set_experience experience u else u)
         (users s)) s).

(** [where(userId = u and achievementId = a)]: with [a] null the comparison
    is [achievement_id = NULL], which no row satisfies. *)
Definition grant_matches (userId : positive) (achievementId : option positive)
    (r : UserAchievements.row) : bool :=
  (UserAchievements.userId r =? userId)%positive
  && match achievementId, UserAchievements.achievementId r with
     | Some a, Some b => (a =? b)%positive
     | _, _ => false
     end.

Definition select_userAchievement (userId : positive) (achievementId : option positive)
    (s : Store) : option UserAchievements.row :=
  List.find (grant_matches userId achievementId) (userAchievements s).

(** [insert(userAchievements).values({ userId, achievementId })] *)
Definition insert_userAchievement (now : Time) (userId : positive)
    (achievementId : option positive) : Call unit :=
  exec (fun s =>
    with_userAchievements
      (userAchievements s ++
       [{| UserAchievements.id := userAchievements_seq s;
           UserAchievements.userId := userId;
           UserAchievements.achievementId := achievementId;
           UserAchievements.unlockedAt := now |}])
      (Pos.succ (userAchievements_seq s)) s).

Definition quest_data (q : Quests.row) : QuestData :=
  {| qdata_id := Quests.id q; qdata_title := Quests.title q;
     qdata_status := Quests.status q;
     qdata_experienceReward := Quests.experienceReward q |}.

Definition completeQuest (now : Time) (userId questId : positive) : Call UserQuests.row :=
  let! user := fetch (select_user userId) (user_not_found userId) in
  let! quest := fetch (findByIdBasic questId) (quest_not_found questId) in
  let! userQuest := fetch (findUserQuest userId questId)
                      (NotFoundException "Пользователь не начал этот квест") in
  let! _ := throw_if (is_uq_completed (UserQuests.status userQuest))
              (ConflictException "Квест уже выполнен") in
  let! updated :=
    updateUserQuest (UserQuests.id userQuest)
      {| uq_status := Some uq_completed; uq_completedAt := Some (Some now) |} in
  let! completedQuest := or_throw updated (Error "Не удалось завершить квест") in
  let newExperience := Users.experience user + Quests.experienceReward quest in
  let! _ := set_user_experience userId newExperience in
  let! existingUserAchievement :=
    query (select_userAchievement userId (Quests.achievementId quest)) in
  let! _ :=
    match existingUserAchievement with
    | None => insert_userAchievement now userId (Quests.achievementId quest)
    | Some _ => ret tt
    end in
  let! questData := query (findByIdBasic questId) in
  let! _ := emit (QuestCompleted questId userId (quest_data <$> questData)) in
  ret completedQuest.

Definition status_not_active (status : QuestStatus) : Exception :=
  BadRequestException
    ("Квест со статусом '" ++ QuestStatus_str status ++ "' не может быть изменен").

Definition index_out_of_range (stepIndex : Z) (len : nat) : Exception :=
  BadRequestException
    ("Индекс этапа " ++ show_Z stepIndex
     ++ " выходит за границы массива этапов (длина: " ++ show_nat len ++ ")").

Definition above_target (newCurrentValue target : Z) : Exception :=
  BadRequestException
    ("currentValue (" ++ show_Z newCurrentValue
     ++ ") не может превышать targetValue (" ++ show_Z target ++ ")").

(** [{ ...step, requirement: { ...requirement, currentValue } }] *)
Definition with_currentValue (step : Step) (req : Requirement) (v : Z) : Step :=
  {| step_title := step_title step;
     step_description := step_description step;
     step_status := step_status step;
     step_progress := step_progress step;
     requirement := Some {| currentValue := Some v; targetValue := targetValue req |};
     deadline := deadline step |}.

Definition only_steps (l : list Step) : UpdateData :=
  {| u_title := None; u_description := None; u_status := None;
     u_experienceReward := None; u_achievementId := None; u_cityId := None;
     u_organizationTypeId := None; u_latitude := None; u_longitude := None;
     u_address := None; u_contacts := None; u_coverImage := None;
     u_gallery := None; u_steps := Some (Some l) |}.

Definition updateRequirementCurrentValue (now : Time) (questId : positive)
    (stepIndex : Z) (updateRequirementDto : UpdateRequirementDto)
    : Call QuestWithAllData :=
  let! quest := fetch (findByIdBasic questId) (quest_not_found questId) in
  let! _ := throw_if (negb (is_active (Quests.status quest)))
              (status_not_active (Quests.status quest)) in
  let! steps := or_throw (Quests.steps quest)
                  (BadRequestException "У квеста нет этапов") in
  let! _ := throw_if ((stepIndex <? 0) || (Z.of_nat (length steps) <=? stepIndex))
              (index_out_of_range stepIndex (length steps)) in
  let! step := or_throw (steps !! Z.to_nat stepIndex)
                 (BadRequestException
                    ("Этап с индексом " ++ show_Z stepIndex ++ " не найден")) in
  let! req := or_throw (requirement step)
                (BadRequestException
                   ("У этапа с индексом " ++ show_Z stepIndex ++ " нет требования")) in
  let! target := or_throw (targetValue req)
                   (BadRequestException "У требования отсутствует targetValue") in
  let newCurrentValue := dto_currentValue updateRequirementDto in
  let! _ := throw_if (newCurrentValue <? 0)
              (BadRequestException "currentValue должен быть неотрицательным числом") in
  let! _ := throw_if (target <? newCurrentValue) (above_target newCurrentValue target) in
  let updatedSteps := <[Z.to_nat stepIndex := with_currentValue step req newCurrentValue]> steps in
  let! updated := QuestRepository.update now questId (only_steps updatedSteps) in
  let! updatedQuest := or_throw updated (quest_not_found questId) in
  let! _ := emit (RequirementUpdated questId (Quests.steps updatedQuest)) in
  findOne questId.

Definition archiveQuest (now : Time) (id : positive) : Call QuestWithAllData :=
  let! existingQuest := fetch (findByIdBasic id) (quest_not_found id) in
  let! updated := updateStatus now id archived in
  let! quest := or_throw updated (quest_not_found id) in
  findOne id.

Definition unarchiveQuest (now : Time) (id : positive) : Call QuestWithAllData :=
  let! existingQuest := fetch (findByIdBasic id) (quest_not_found id) in
  let! updated := updateStatus now id active in
  let! quest := or_throw updated (quest_not_found id) in
  findOne id.


(** *** The list methods *)

(** The loop that fills [categoriesByQuestId], a [Map] from quest id to the
    categories met so far for it, in the order met. *)
Definition groupByQuestId (allCategories : list CategoryRelation)
    : gmap positive (list NamedView) :=
  fold_left
    (fun m category =>
       <[cr_questId category :=
           (default [] (m !! cr_questId category)
            ++ [{| nv_id := cr_id category; nv_name := cr_name category |}])%list]> m)
    allCategories ∅.

(** [categoriesByQuestId.get(id) || []] *)
Definition categories_of (m : gmap positive (list NamedView)) (id : positive)
    : list NamedView :=
  default [] (m !! id).

(** [findAll]: the repository's list, the categories of all its quests
    fetched by one query and handed out through the map. *)
Definition findAll (cityId categoryId : option positive) : Call (list QuestWithAllData) :=
  let! questsList := query (QuestRepository.findAll cityId categoryId) in
  let questIds := map (fun q => Quests.id (qr_quest q)) questsList in
  let! allCategories := query (findCategoriesByQuestIds questIds) in
  let categoriesByQuestId := groupByQuestId allCategories in
  ret (map (fun quest =>
              {| qd_quest := quest;
                 qd_categories :=
                   categories_of categoriesByQuestId (Quests.id (qr_quest quest)) |})
         questsList).

(** [findByStatus]: the same over the narrower rows of the repository's
    [findByStatus]. *)
Definition findByStatus (status : option QuestStatus) (cityId categoryId : option positive)
    : Call (list (Listed QuestSummary)) :=
  let! questsList := query (QuestRepository.findByStatus status cityId categoryId) in
  let questIds := map qs_id questsList in
  let! allCategories := query (findCategoriesByQuestIds questIds) in
  let categoriesByQuestId := groupByQuestId allCategories in
  ret (map (fun quest =>
              {| listed := quest;
                 listed_categories := categories_of categoriesByQuestId (qs_id quest) |})
         questsList).

(** [getUserQuests]: the user must exist; the key of the map is the
    [questId] of the participation row, and the source puts [categories]
    inside the nested [quest] object. *)
Definition getUserQuests (userId : positive) : Call (list (Listed UserQuestView)) :=
  let! user := fetch (select_user userId) (user_not_found userId) in
  let! result := query (findUserQuestsByUserId userId) in
  let questIds := map (fun r => UserQuests.questId (uqv_userQuest r)) result in
  let! allCategories := query (findCategoriesByQuestIds questIds) in
  let categoriesByQuestId := groupByQuestId allCategories in
  ret (map (fun item =>
              {| listed := item;
                 listed_categories :=
                   categories_of categoriesByQuestId
                     (UserQuests.questId (uqv_userQuest item)) |})
         result).

(** [getAvailableQuests]: the active quests whose key is not in
    [new Set(startedQuestIds)]. *)
Definition getAvailableQuests (userId : positive) : Call (list (Listed ActiveQuest)) :=
  let! user := fetch (select_user userId) (user_not_found userId) in
  let! activeQuests := query findActiveQuests in
  let! startedQuestIds := query (findStartedQuestIdsByUserId userId) in
  let filteredQuests :=
    List.filter
      (fun quest => negb (existsb (Pos.eqb (qc_id (aq_quest quest))) startedQuestIds))
      activeQuests in
  let questIds := map (fun q => qc_id (aq_quest q)) filteredQuests in
  let! allCategories := query (findCategoriesByQuestIds questIds) in
  let categoriesByQuestId := groupByQuestId allCategories in
  ret (map (fun quest =>
              {| listed := quest;
                 listed_categories :=
                   categories_of categoriesByQuestId (qc_id (aq_quest quest)) |})
         filteredQuests).

End QuestService.

(** ** Achievement payloads *)

(** Modelled from the spec: dto/create-achievement.dto.ts is absent; the
    fields are the ones the service and the test fixtures use.  [questId]
    may be absent ([None]) or an explicit null ([Some None]). *)
Module CreateAchievementDto.
Record t := {
  title : string;
  description : option string;
  icon : option string;
  rarity : Rarity;
  questId : option (option positive)
}.
End CreateAchievementDto.

Module UpdateAchievementDto.
Record t := {
  title : option string;
  description : option string;
  icon : option string;
  rarity : option Rarity;
  questId : option (option positive)
}.

(** [updateAchievementDto.questId = null] *)
Definition set_questId_null (d : t) : t :=
  {| title := title d; description := description d; icon := icon d;
     rarity := rarity d; questId := Some None |}.

(** The predicate of [updateAchievementSchema.refine]. *)
Definition refine (data : t) : bool :=
  if match rarity data, questId data with
     | Some private, Some None => true
     | _, _ => false
     end
  then false
  else if match rarity data, questId data with
          | Some r, Some (Some _) => negb (is_private r)
          | _, _ => false
          end
  then false
  else true.
End UpdateAchievementDto.

(** ** AchievementRepository *)

Module AchievementRepository.

(** Modelled from the spec: achievement.repository.ts is absent; its test
    suite and the Achievement Store contract ([get/create/update/softDelete]
    over non-deleted records, a quest lookup that sees live quests only)
    give the reads as first live match and the writes as [insert ...
    returning] and [update ... set ... where id ... returning]. *)
Definition findByTitle (title : string) (s : Store) : option Achievements.row :=
  List.find
    (fun a => String.eqb (Achievements.title a) title
              && not_deleted (Achievements.recordStatus a))
    (achievements s).

(** Modelled from the spec: as [findByTitle], the row with key [id] left out. *)
Definition findByTitleExcludingId (title : string) (id : positive) (s : Store)
    : option Achievements.row :=
  List.find
    (fun a => String.eqb (Achievements.title a) title
              && negb (Achievements.id a =? id)%positive
              && not_deleted (Achievements.recordStatus a))
    (achievements s).

(** Modelled from the spec: the live achievement with key [id]. *)
Definition findById (id : positive) (s : Store) : option Achievements.row :=
  List.find (QuestRepository.live_achievement id) (achievements s).

(** Modelled from the spec: the live quest with key [id]. *)
Definition findQuestById (id : positive) (s : Store) : option Quests.row :=
  List.find (QuestRepository.live_quest id) (quests s).

(** Modelled from the spec: [insert(achievements).values(dto).returning()]. *)
Definition create (dto : CreateAchievementDto.t) : Call Achievements.row :=
  fun s =>
    let a :=
      {| Achievements.id := achievements_seq s;
         Achievements.title := CreateAchievementDto.title dto;
         Achievements.description := CreateAchievementDto.description dto;
         Achievements.icon := CreateAchievementDto.icon dto;
         Achievements.rarity := CreateAchievementDto.rarity dto;
         Achievements.questId := mjoin (CreateAchievementDto.questId dto);
         Achievements.recordStatus := CREATED |} in
    (with_achievements (achievements s ++ [a]) (Pos.succ (achievements_seq s)) s,
     Returned a).

Definition set_row (dto : UpdateAchievementDto.t) (a : Achievements.row) : Achievements.row :=
  {| Achievements.id := Achievements.id a;
     Achievements.title := default (Achievements.title a) (UpdateAchievementDto.title dto);
     Achievements.description :=
       match UpdateAchievementDto.description dto with
       | Some d => Some d
       | None => Achievements.description a
       end;
     Achievements.icon :=
       match UpdateAchievementDto.icon dto with
       | Some i => Some i
       | None => Achievements.icon a
       end;
     Achievements.rarity := default (Achievements.rarity a) (UpdateAchievementDto.rarity dto);
     Achievements.questId := default (Achievements.questId a) (UpdateAchievementDto.questId dto);
     Achievements.recordStatus := Achievements.recordStatus a |}.

(** Modelled from the spec: [update(achievements).set(dto).where(id and not
    deleted).returning()], absent keys left as they are. *)
Definition update (id : positive) (dto : UpdateAchievementDto.t)
    : Call (option Achievements.row) :=
  fun s =>
    let rows :=
      map (fun a => if QuestRepository.live_achievement id a then set_row dto a else a)
        (achievements s) in
    (with_achievements rows (achievements_seq s) s,
     Returned (set_row dto <$> findById id s)).


(** Modelled from the spec: every achievement that is not soft-deleted. *)
Definition findAll (s : Store) : list Achievements.row :=
  List.filter (fun a => not_deleted (Achievements.recordStatus a)) (achievements s).

Definition mark_deleted (a : Achievements.row) : Achievements.row :=
  {| Achievements.id := Achievements.id a; Achievements.title := Achievements.title a;
     Achievements.description := Achievements.description a;
     Achievements.icon := Achievements.icon a; Achievements.rarity := Achievements.rarity a;
     Achievements.questId := Achievements.questId a;
     Achievements.recordStatus := DELETED |}.

(** Modelled from the spec: [update(achievements).set({ recordStatus:
    'DELETED' }).where(id and not deleted).returning()]. *)
Definition softDelete (id : positive) : Call (option Achievements.row) :=
  fun s =>
    let rows :=
      map (fun a => if QuestRepository.live_achievement id a then mark_deleted a else a)
        (achievements s) in
    (with_achievements rows (achievements_seq s) s,
     Returned (mark_deleted <$> findById id s)).

(** Modelled from the spec: the live user with key [id]. *)
Definition findUserById (id : positive) (s : Store) : option Users.row :=
  List.find (QuestRepository.live_user id) (users s).

(** Modelled from the spec: [findGrant], the first grant of the achievement
    to the user. *)
Definition findUserAchievement (userId achievementId : positive) (s : Store)
    : option UserAchievements.row :=
  List.find (QuestService.grant_matches userId (Some achievementId)) (userAchievements s).

(** Modelled from the spec: [grant],
    [insert(userAchievements).values({ userId, achievementId }).returning()]. *)
Definition assignToUser (now : Time) (userId achievementId : positive)
    : Call UserAchievements.row :=
  fun s =>
    let r :=
      {| UserAchievements.id := userAchievements_seq s;
         UserAchievements.userId := userId;
         UserAchievements.achievementId := Some achievementId;
         UserAchievements.unlockedAt := now |} in
    (with_userAchievements (userAchievements s ++ [r]) (Pos.succ (userAchievements_seq s)) s,
     Returned r).

(** Modelled from the spec: the grants of the user joined with their
    achievement, grants of a soft-deleted achievement left out. *)
Definition findUserAchievements (userId : positive) (s : Store)
    : list (UserAchievements.row * AchievementView) :=
  flat_map
    (fun r =>
       if (UserAchievements.userId r =? userId)%positive
       then match UserAchievements.achievementId r with
            | Some a =>
              match findById a s with
              | Some row => [(r, QuestRepository.achievement_view row)]
              | None => []
              end
            | None => []
            end
       else [])
    (userAchievements s).

End AchievementRepository.

(** ** AchievementService *)

Module AchievementService.

Import AchievementRepository.

(** The character [U+0022] of the messages that quote [private]. *)
Definition dquote : string := String (Ascii.ascii_of_nat 34) EmptyString.

Definition title_taken : Exception :=
  ConflictException "Достижение с таким названием уже существует".

Definition questId_required : Exception :=
  BadRequestException
    ("Для rarity=" ++ dquote ++ "private" ++ dquote ++ " questId обязателен").

Definition questId_forbidden : Exception :=
  BadRequestException
    ("Для rarity отличной от " ++ dquote ++ "private" ++ dquote
     ++ " questId должен быть null или отсутствовать").

Definition quest_not_found (id : positive) : Exception :=
  NotFoundException ("Квест с ID " ++ show_pos id ++ " не найден").

Definition achievement_not_found (id : positive) : Exception :=
  NotFoundException ("Достижение с ID " ++ show_pos id ++ " не найдено").

Definition create (createAchievementDto : CreateAchievementDto.t)
    : Call Achievements.row :=
  let! existingAchievement :=
    query (findByTitle (CreateAchievementDto.title createAchievementDto)) in
  let! _ := throw_if (bool_decide (is_Some existingAchievement)) title_taken in
  let! _ :=
    if is_private (CreateAchievementDto.rarity createAchievementDto)
    then
      match CreateAchievementDto.questId createAchievementDto with
      | Some (Some q) =>
        let! _ := QuestService.fetch (findQuestById q) (quest_not_found q) in ret tt
      | _ => throw questId_required
      end
    else
      match CreateAchievementDto.questId createAchievementDto with
      | Some (Some _) => throw questId_forbidden
      | _ => ret tt
      end in
  AchievementRepository.create createAchievementDto.

Definition update (id : positive) (updateAchievementDto : UpdateAchievementDto.t)
    : Call Achievements.row :=
  let! currentAchievement :=
    QuestService.fetch (findById id) (achievement_not_found id) in
  let! _ :=
    if truthy_str (UpdateAchievementDto.title updateAchievementDto)
    then
      let! existingAchievement :=
        query (findByTitleExcludingId
                 (default EmptyString (UpdateAchievementDto.title updateAchievementDto)) id) in
      throw_if (bool_decide (is_Some existingAchievement)) title_taken
    else ret tt in
  let finalRarity :=
    default (Achievements.rarity currentAchievement)
      (UpdateAchievementDto.rarity updateAchievementDto) in
  let! dto :=
    if is_private finalRarity
    then
      match UpdateAchievementDto.questId updateAchievementDto with
      | Some (Some q) =>
        let! _ := QuestService.fetch (findQuestById q) (quest_not_found q) in
        ret updateAchievementDto
      | Some None => throw questId_required
      | None =>
        match Achievements.questId currentAchievement with
        | Some _ => ret updateAchievementDto
        | None => throw questId_required
        end
      end
    else
      match UpdateAchievementDto.rarity updateAchievementDto with
      | Some _ => ret (UpdateAchievementDto.set_questId_null updateAchievementDto)
      | None =>
        match UpdateAchievementDto.questId updateAchievementDto with
        | Some (Some _) => throw questId_forbidden
        | _ => ret updateAchievementDto
        end
      end in
  let! achievement := AchievementRepository.update id dto in
  or_throw achievement (achievement_not_found id).


Definition user_not_found (userId : positive) : Exception :=
  NotFoundException ("Пользователь с ID " ++ show_pos userId ++ " не найден").

Definition already_granted : Exception :=
  ConflictException "Пользователь уже получил это достижение".

(** The methods besides [create] and [update]. *)
Definition findAll : Call (list Achievements.row) :=
  query AchievementRepository.findAll.

Definition findOne (id : positive) : Call Achievements.row :=
  QuestService.fetch (findById id) (achievement_not_found id).

Definition remove (id : positive) : Call Achievements.row :=
  let! achievement := softDelete id in
  or_throw achievement (achievement_not_found id).

Definition assignToUser (now : Time) (userId achievementId : positive)
    : Call UserAchievements.row :=
  let! user := QuestService.fetch (findUserById userId) (user_not_found userId) in
  let! achievement :=
    QuestService.fetch (findById achievementId) (achievement_not_found achievementId) in
  let! existingUserAchievement := query (findUserAchievement userId achievementId) in
  let! _ := throw_if (bool_decide (is_Some existingUserAchievement)) already_granted in
  AchievementRepository.assignToUser now userId achievementId.

Definition getUserAchievements (userId : positive)
    : Call (list (UserAchievements.row * AchievementView)) :=
  let! user := QuestService.fetch (findUserById userId) (user_not_found userId) in
  query (findUserAchievements userId).

End AchievementService.

(** ** A store to run the methods on

    Alice (user 1, level 5) owns an active quest 1 without achievement and
    an archived quest 2 bound to the private achievement 1; she has joined
    both.  Quest 3 is active and belongs to user 2, who is soft-deleted. *)

Definition step_of (current target : Z) : Step :=
  {| step_title := "S1"; step_description := None; step_status := "pending";
     step_progress := 0;
     requirement := Some {| currentValue := Some current; targetValue := Some target |};
     deadline := None |}.

Definition demo_quest (id owner : positive) (status : QuestStatus) (reward : Z)
    (achievementId : option positive) (current : Z) : Quests.row :=
  {| Quests.id := id; Quests.title := "Q"; Quests.description := None;
     Quests.status := status; Quests.experienceReward := reward;
     Quests.achievementId := achievementId; Quests.ownerId := owner;
     Quests.cityId := 1%positive; Quests.organizationTypeId := None;
     Quests.latitude := None; Quests.longitude := None; Quests.address := None;
     Quests.contacts := None; Quests.coverImage := None;
     Quests.gallery := Some ["a.png"; "b.png"];
     Quests.steps := Some [step_of current 10];
     Quests.recordStatus := CREATED; Quests.createdAt := 1; Quests.updatedAt := 1 |}.

Definition alice : Users.row :=
  {| Users.id := 1; Users.firstName := "Alice"; Users.lastName := "A";
     Users.email := "alice@example.com"; Users.level := 5;
     Users.experience := 100; Users.recordStatus := CREATED |}.

Definition bob : Users.row :=
  {| Users.id := 2; Users.firstName := "Bob"; Users.lastName := "B";
     Users.email := "bob@example.com"; Users.level := 7;
     Users.experience := 0; Users.recordStatus := DELETED |}.

Definition joined (id userId questId : positive) : UserQuests.row :=
  {| UserQuests.id := id; UserQuests.userId := userId;
     UserQuests.questId := questId; UserQuests.status := in_progress;
     UserQuests.startedAt := Some 1; UserQuests.completedAt := None |}.

Definition badge : Achievements.row :=
  {| Achievements.id := 1; Achievements.title := "Badge";
     Achievements.description := None; Achievements.icon := None;
     Achievements.rarity := private; Achievements.questId := Some 2%positive;
     Achievements.recordStatus := CREATED |}.

Definition demo_requirement : Requirement :=
  {| currentValue := Some 0; targetValue := Some 10 |}.

Definition demo_store : Store :=
  {| users := [alice; bob];
     quests :=
       [ demo_quest 1 1 active 50 None 0;
         demo_quest 2 1 archived 20 (Some 1%positive) 3;
         demo_quest 3 2 active 5 None 0 ];
     userQuests := [joined 1 1 1; joined 2 1 2];
     achievements := [badge];
     userAchievements := [];
     cities :=
       [ {| Cities.id := 1; Cities.name := "City"; Cities.latitude := Some "55.75";
            Cities.longitude := Some "37.61"; Cities.recordStatus := CREATED |} ];
     organizationTypes := [];
     categories := [ {| Categories.id := 1; Categories.name := "Help";
                        Categories.recordStatus := CREATED |} ];
     questCategories := [ {| QuestCategories.questId := 1; QuestCategories.categoryId := 1 |} ];
     quests_seq := 4; userQuests_seq := 3; achievements_seq := 2;
     userAchievements_seq := 1; events := [] |}.

(** A request for a quest with an inline achievement in a city that does not
    exist. *)
Definition demo_create_in_missing_city : CreateQuestDto.t :=
  {| CreateQuestDto.title := "New"; CreateQuestDto.description := None;
     CreateQuestDto.status := None; CreateQuestDto.experienceReward := Some 10;
     CreateQuestDto.achievement :=
       Some {| ap_title := "Medal"; ap_description := None; ap_icon := None |};
     CreateQuestDto.cityId := 99%positive;
     CreateQuestDto.organizationTypeId := None; CreateQuestDto.categoryIds := None;
     CreateQuestDto.latitude := None; CreateQuestDto.longitude := None;
     CreateQuestDto.address := None; CreateQuestDto.contacts := None;
     CreateQuestDto.coverImage := None; CreateQuestDto.gallery := None;
     CreateQuestDto.steps := None |}.

(** An achievement request of rarity private that names no quest, and a
    patch that makes an achievement common. *)
Definition private_without_quest : CreateAchievementDto.t :=
  {| CreateAchievementDto.title := "Solo";
     CreateAchievementDto.description := None; CreateAchievementDto.icon := None;
     CreateAchievementDto.rarity := private; CreateAchievementDto.questId := None |}.

Definition make_common : UpdateAchievementDto.t :=
  {| UpdateAchievementDto.title := None; UpdateAchievementDto.description := None;
     UpdateAchievementDto.icon := None; UpdateAchievementDto.rarity := Some common;
     UpdateAchievementDto.questId := None |}.

(** Carol (user 3, level 1) has joined nothing; the demo store with her in
    it. *)
Definition carol : Users.row :=
  {| Users.id := 3; Users.firstName := "Carol"; Users.lastName := "C";
     Users.email := "carol@example.com"; Users.level := 1;
     Users.experience := 0; Users.recordStatus := CREATED |}.

Definition demo_store_with_carol : Store :=
  with_users [alice; bob; carol] demo_store.

(** Quest 1 as the list and detail views show it. *)
Definition demo_listed_quest : QuestWithAllData :=
  {| qd_quest :=
       {| qr_quest := demo_quest 1 1 active 50 None 0;
          qr_achievement := None;
          qr_owner := QuestRepository.owner_view alice;
          qr_city := Some {| nv_id := 1; nv_name := "City" |};
          qr_organizationType := None |};
     qd_categories := [ {| nv_id := 1; nv_name := "Help" |} ] |}.

(** A request for a quest in city 1 with an inline achievement and the
    category 1. *)
Definition demo_create : CreateQuestDto.t :=
  {| CreateQuestDto.title := "New"; CreateQuestDto.description := None;
     CreateQuestDto.status := None; CreateQuestDto.experienceReward := None;
     CreateQuestDto.achievement :=
       Some {| ap_title := "Medal"; ap_description := None; ap_icon := None |};
     CreateQuestDto.cityId := 1%positive;
     CreateQuestDto.organizationTypeId := None;
     CreateQuestDto.categoryIds := Some [1%positive];
     CreateQuestDto.latitude := None; CreateQuestDto.longitude := None;
     CreateQuestDto.address := None; CreateQuestDto.contacts := None;
     CreateQuestDto.coverImage := None; CreateQuestDto.gallery := None;
     CreateQuestDto.steps := None |}.

(** The demo store with a second step on quest 1, and a patch that reports
    progress on the first step. *)
Definition demo_store_two_steps : Store :=
  with_quests
    [ QuestRepository.set_row (QuestService.only_steps [step_of 0 10; step_of 0 5]) 1
        (demo_quest 1 1 active 50 None 0) ]
    2 demo_store.

Definition demo_progress_patch : UpdateQuestDto.t :=
  {| UpdateQuestDto.title := None; UpdateQuestDto.description := None;
     UpdateQuestDto.status := None; UpdateQuestDto.experienceReward := None;
     UpdateQuestDto.achievementId := None; UpdateQuestDto.cityId := None;
     UpdateQuestDto.organizationTypeId := None; UpdateQuestDto.latitude := None;
     UpdateQuestDto.longitude := None; UpdateQuestDto.address := None;
     UpdateQuestDto.contacts := None; UpdateQuestDto.coverImage := None;
     UpdateQuestDto.gallery := None;
     UpdateQuestDto.steps := Some (Some [step_of 5 10]);
     UpdateQuestDto.categoryIds := None |}.

(** A request for a common achievement with the title of the badge. *)
Definition common_badge : CreateAchievementDto.t :=
  {| CreateAchievementDto.title := "Badge";
     CreateAchievementDto.description := None; CreateAchievementDto.icon := None;
     CreateAchievementDto.rarity := common; CreateAchievementDto.questId := None |}.

(** A second achievement, common and bound to no quest, and the store that
    holds it next to the badge. *)
Definition medal : Achievements.row :=
  {| Achievements.id := 2; Achievements.title := "Medal"%string;
     Achievements.description := None; Achievements.icon := None;
     Achievements.rarity := common; Achievements.questId := None;
     Achievements.recordStatus := CREATED |}.

Definition demo_store_with_medal : Store :=
  with_achievements [badge; medal] 3 demo_store.

(** Patches of an achievement that supply quest 3: with the rarity epic, and
    with no rarity. *)
Definition epic_with_quest : UpdateAchievementDto.t :=
  {| UpdateAchievementDto.title := None; UpdateAchievementDto.description := None;
     UpdateAchievementDto.icon := None; UpdateAchievementDto.rarity := Some epic;
     UpdateAchievementDto.questId := Some (Some 3%positive) |}.

Definition only_quest_3 : UpdateAchievementDto.t :=
  {| UpdateAchievementDto.title := None; UpdateAchievementDto.description := None;
     UpdateAchievementDto.icon := None; UpdateAchievementDto.rarity := None;
     UpdateAchievementDto.questId := Some (Some 3%positive) |}.

(** A request for a common achievement with no quest. *)
Definition common_star : CreateAchievementDto.t :=
  {| CreateAchievementDto.title := "Star"%string;
     CreateAchievementDto.description := None; CreateAchievementDto.icon := None;
     CreateAchievementDto.rarity := common; CreateAchievementDto.questId := None |}.

(** A patch that moves a quest to a city that does not exist. *)
Definition demo_move_to_missing_city : UpdateQuestDto.t :=
  {| UpdateQuestDto.title := Some "Moved"%string; UpdateQuestDto.description := None;
     UpdateQuestDto.status := None; UpdateQuestDto.experienceReward := None;
     UpdateQuestDto.achievementId := None; UpdateQuestDto.cityId := Some 99%positive;
     UpdateQuestDto.organizationTypeId := None; UpdateQuestDto.latitude := None;
     UpdateQuestDto.longitude := None; UpdateQuestDto.address := None;
     UpdateQuestDto.contacts := None; UpdateQuestDto.coverImage := None;
     UpdateQuestDto.gallery := None; UpdateQuestDto.steps := None;
     UpdateQuestDto.categoryIds := None |}.

(** * Vocabulary of the properties *)

Close Scope string_scope.

Import QuestRepository QuestService.

(** The exceptions the statements below name. *)
Definition already_completed : Exception :=
  ConflictException "Квест уже выполнен"%string.


Definition negative_value : Exception :=
  BadRequestException "currentValue должен быть неотрицательным числом"%string.

(** What [completeQuest] does to a participation row and to a user row. *)
Definition complete_row (now : Time) (id : positive) (r : UserQuests.row) : UserQuests.row :=
  if has_id id r
  then set_userQuest {| uq_status := Some uq_completed; uq_completedAt := Some (Some now) |} r
  else r.

Definition credit_row (userId : positive) (x : Z) (u : Users.row) : Users.row :=
  if (Users.id u =? userId)%positive then Users.set_experience x u else u.

(** The store after [QuestRepository.update], and the steps after
    [updateRequirementCurrentValue]. *)
Definition rewritten (id : positive) (data : UpdateData) (now : Time) (s : Store) : Store :=
  with_quests (update_rows id data now (quests s)) (quests_seq s) s.

Definition progressed (steps : list Step) (stepIndex : Z) (step : Step)
    (req : Requirement) (v : Z) : list Step :=
  <[Z.to_nat stepIndex := with_currentValue step req v]> steps.

(** Calls that only read. *)
Definition readonly {A} (m : Call A) : Prop :=
  forall s s' o, m s = (s', o) -> s' = s.

(** At most one participation row per (user, quest) pair. *)
Definition pair_of (r : UserQuests.row) : positive * positive :=
  (UserQuests.userId r, UserQuests.questId r).

Definition participation_unique (s : Store) : Prop :=
  NoDup (map pair_of (userQuests s)).

(** Quest keys below the sequence, and no participation row ahead of it. *)
Definition keys_fresh (s : Store) : Prop :=
  (forall q, In q (quests s) -> (Quests.id q < quests_seq s)%positive) /\
  (forall r, In r (userQuests s) -> (UserQuests.questId r < quests_seq s)%positive).

Definition participation_inv (s : Store) : Prop :=
  participation_unique s /\ keys_fresh s.





(** A private achievement names a live quest, and any other rarity has no
    [questId]: the invariant of the data model, both of its sentences. *)
Definition binding_ok (s : Store) (a : Achievements.row) : Prop :=
  match Achievements.questId a with
  | Some q => is_private (Achievements.rarity a) = true
              /\ is_Some (AchievementRepository.findQuestById q s)
  | None => is_private (Achievements.rarity a) = false
  end.

(** The binding holds on every row; the key is a primary key drawn from the
    sequence. *)
Definition achievement_inv (s : Store) : Prop :=
  (forall a, In a (achievements s) -> binding_ok s a)
  /\ NoDup (map Achievements.id (achievements s))
  /\ (forall a, In a (achievements s) -> (Achievements.id a < achievements_seq s)%positive).

(** The title check of [update] lets the patch through. *)
Definition title_free (id : positive) (dto : UpdateAchievementDto.t) (s : Store) : Prop :=
  truthy_str (UpdateAchievementDto.title dto) = true ->
  AchievementRepository.findByTitleExcludingId
    (default EmptyString (UpdateAchievementDto.title dto)) id s = None.

(** [finalRarity] of [update]. *)
Definition effective_rarity (current : Achievements.row) (dto : UpdateAchievementDto.t) : Rarity :=
  default (Achievements.rarity current) (UpdateAchievementDto.rarity dto).

(** What the rarity and quest checks of [update] let through, and the patch
    [dto'] they hand to the repository. *)
Definition binding_check (s : Store) (current : Achievements.row)
    (dto dto' : UpdateAchievementDto.t) : Prop :=
  if is_private (effective_rarity current dto)
  then dto' = dto /\
       match UpdateAchievementDto.questId dto with
       | Some (Some q) => is_Some (AchievementRepository.findQuestById q s)
       | Some None => False
       | None => is_Some (Achievements.questId current)
       end
  else match UpdateAchievementDto.rarity dto with
       | Some _ => dto' = UpdateAchievementDto.set_questId_null dto
       | None => dto' = dto /\ mjoin (UpdateAchievementDto.questId dto) = None
       end.

(** ** Vocabulary of the further properties *)

(** A category of the batched query without its quest tag, and the test
    for the tag. *)
Definition relation_view (c : CategoryRelation) : NamedView :=
  {| nv_id := cr_id c; nv_name := cr_name c |}.

Definition of_quest (k : positive) (c : CategoryRelation) : bool :=
  (cr_questId c =? k)%positive.

(** The key of a quest row is a primary key. *)
Definition quest_keys_unique (s : Store) : Prop :=
  NoDup (map Quests.id (quests s)).

(** The quest row a list query may show: live, with a live owner. *)
Definition listable (s : Store) (q : Quests.row) : Prop :=
  In q (quests s) /\ Quests.recordStatus q = CREATED
  /\ is_Some (select_user (Quests.ownerId q) s).

(** The association row of a quest and a category is in the table. *)
Definition tagged (s : Store) (questId categoryId : positive) : Prop :=
  In {| QuestCategories.questId := questId; QuestCategories.categoryId := categoryId |}
    (questCategories s).

(** The store after [QuestRepository.softDelete]. *)
Definition soft_deleted (id : positive) (now : Time) (s : Store) : Store :=
  with_quests (map (fun q => if live_quest id q then mark_deleted now q else q) (quests s))
    (quests_seq s) s.

(** The patch of [updateStatus]. *)
Definition status_patch (status : QuestStatus) : UpdateData :=
  {| u_title := None; u_description := None; u_status := Some status;
     u_experienceReward := None; u_achievementId := None; u_cityId := None;
     u_organizationTypeId := None; u_latitude := None; u_longitude := None;
     u_address := None; u_contacts := None; u_coverImage := None;
     u_gallery := None; u_steps := None |}.

(** The refusal of [leaveQuest] for a completed row. *)
Definition cannot_leave_completed : Exception :=
  BadRequestException "Нельзя покинуть уже завершенный квест"%string.

(** The key of a participation row is a primary key. *)
Definition participation_keys_unique (s : Store) : Prop :=
  NoDup (map UserQuests.id (userQuests s)).

(** The store after [deleteUserQuest]. *)
Definition without_userQuest (userQuestId : positive) (s : Store) : Store :=
  with_userQuests (List.filter (fun r => negb (has_id userQuestId r)) (userQuests s))
    (userQuests_seq s) s.

(** The participation row [createUserQuest] inserts. *)
Definition enrolment (now : Time) (userId questId : positive) (s : Store) : UserQuests.row :=
  {| UserQuests.id := userQuests_seq s; UserQuests.userId := userId;
     UserQuests.questId := questId; UserQuests.status := in_progress;
     UserQuests.startedAt := Some now; UserQuests.completedAt := None |}.

(** The achievement row an inline payload ends as. *)
Definition bound_achievement (p : AchievementPayload) (s : Store) : Achievements.row :=
  {| Achievements.id := achievements_seq s; Achievements.title := ap_title p;
     Achievements.description := ap_description p; Achievements.icon := ap_icon p;
     Achievements.rarity := private; Achievements.questId := Some (quests_seq s);
     Achievements.recordStatus := CREATED |}.

(** The flag [requirementsChanged] of [update]. *)
Definition changed_by (dto : UpdateQuestDto.t) (quest : Quests.row) : bool :=
  match UpdateQuestDto.steps dto with
  | Some new => requirementsChanged (Quests.steps quest) new
  | None => false
  end.

(** The grant row [AchievementRepository.assignToUser] inserts. *)
Definition grant (now : Time) (userId achievementId : positive) (s : Store)
    : UserAchievements.row :=
  {| UserAchievements.id := userAchievements_seq s;
     UserAchievements.userId := userId;
     UserAchievements.achievementId := Some achievementId;
     UserAchievements.unlockedAt := now |}.

(** The store after [AchievementRepository.softDelete]. *)
Definition without_achievement (id : positive) (s : Store) : Store :=
  with_achievements
    (map (fun a => if live_achievement id a then AchievementRepository.mark_deleted a else a)
       (achievements s))
    (achievements_seq s) s.

(** * Properties *)

(** ** Reading rows back after a write *)

Lemma find_map_inv {A} (p : A -> bool) (f : A -> A) (l : list A) :
  (forall x, p (f x) = p x) -> List.find p (map f l) = f <$> List.find p l.
Proof.
  intros Hp. induction l as [|x l IH]; simpl; [done|].
  rewrite Hp. destruct (p x); [done|]. apply IH.
Qed.

Ltac unfold_call :=
  unfold QuestService.fetch, when, emit in *;
  unfold bind, query, or_throw, throw_if, exec, ret, throw in *;
  cbv beta in *.

Lemma completeQuest_returns now userId questId s s1 r :
  completeQuest now userId questId s = (s1, Returned r) ->
  exists user quest userQuest,
    select_user userId s = Some user /\
    findByIdBasic questId s = Some quest /\
    findUserQuest userId questId s = Some userQuest /\
    UserQuests.status userQuest <> uq_completed.
Proof.
  unfold completeQuest. unfold_call. intros H.
  destruct (select_user userId s) as [user|] eqn:Hu; [|done].
  destruct (findByIdBasic questId s) as [quest|] eqn:Hq; [|done].
  destruct (findUserQuest userId questId s) as [uq|] eqn:Huq; [|done].
  destruct (is_uq_completed (UserQuests.status uq)) eqn:Hc; [done|].
  exists user, quest, uq. repeat split; try done. intros E. rewrite E in Hc. done.
Qed.

Lemma completeQuest_completed_row now userId questId s user quest userQuest :
  select_user userId s = Some user ->
  findByIdBasic questId s = Some quest ->
  findUserQuest userId questId s = Some userQuest ->
  UserQuests.status userQuest = uq_completed ->
  completeQuest now userId questId s = (s, Thrown already_completed).
Proof.
  intros Hu Hq Huq Hc. unfold completeQuest. unfold_call.
  rewrite Hu, Hq, Huq, Hc. reflexivity.
Qed.

Lemma find_by_own_id userId questId s userQuest :
  findUserQuest userId questId s = Some userQuest ->
  is_Some (List.find (has_id (UserQuests.id userQuest)) (userQuests s)).
Proof.
  intros [Hin _]%find_some.
  destruct (List.find (has_id (UserQuests.id userQuest)) (userQuests s)) eqn:E;
    [by eexists|].
  eapply find_none in E; [|exact Hin]. unfold has_id in E.
  by rewrite Pos.eqb_refl in E.
Qed.

Lemma completeQuest_run now userId questId s user quest userQuest :
  select_user userId s = Some user ->
  findByIdBasic questId s = Some quest ->
  findUserQuest userId questId s = Some userQuest ->
  UserQuests.status userQuest <> uq_completed ->
  exists s' r,
    completeQuest now userId questId s = (s', Returned r) /\
    users s'
      = map (credit_row userId (Users.experience user + Quests.experienceReward quest))
          (users s) /\
    quests s' = quests s /\
    userQuests s' = map (complete_row now (UserQuests.id userQuest)) (userQuests s) /\
    userAchievements s' =
      match select_userAchievement userId (Quests.achievementId quest) s with
      | Some _ => userAchievements s
      | None => userAchievements s ++
                [{| UserAchievements.id := userAchievements_seq s;
                    UserAchievements.userId := userId;
                    UserAchievements.achievementId := Quests.achievementId quest;
                    UserAchievements.unlockedAt := now |}]
      end /\
    events s' = events s ++ [QuestCompleted questId userId (Some (quest_data quest))].
Proof.
  intros Hu Hq Huq Hopen.
  destruct (find_by_own_id _ _ _ _ Huq) as [r0 Hr0].
  assert (Hc : is_uq_completed (UserQuests.status userQuest) = false)
    by (by destruct (UserQuests.status userQuest)).
  unfold completeQuest. unfold_call. rewrite Hu, Hq, Huq, Hc.
  unfold updateUserQuest. rewrite Hr0. simpl.
  unfold select_userAchievement. simpl.
  destruct (List.find (grant_matches userId (Quests.achievementId quest))
              (userAchievements s));
    simpl; unfold findByIdBasic in *; simpl; rewrite Hq;
    eexists _, _; (split; [reflexivity|]); by repeat split.
Qed.

Lemma live_user_credit userId x id u :
  live_user id (credit_row userId x u) = live_user id u.
Proof. unfold credit_row. by destruct (Users.id u =? userId)%positive. Qed.

Lemma for_pair_complete now k userId questId r :
  for_pair userId questId (complete_row now k r) = for_pair userId questId r.
Proof. unfold complete_row. by destruct (has_id k r). Qed.

Lemma find_has_own_id {A} (p : A -> bool) (l : list A) x :
  List.find p l = Some x -> p x = true.
Proof. intros H. by apply find_some in H as [_ ?]. Qed.

Lemma completeQuest_effect now userId questId s user quest userQuest :
  select_user userId s = Some user ->
  findByIdBasic questId s = Some quest ->
  findUserQuest userId questId s = Some userQuest ->
  UserQuests.status userQuest <> uq_completed ->
  exists s' r,
    completeQuest now userId questId s = (s', Returned r) /\
    findUserQuest userId questId s'
      = Some (complete_row now (UserQuests.id userQuest) userQuest) /\
    select_user userId s'
      = Some (credit_row userId
                (Users.experience user + Quests.experienceReward quest) user) /\
    findByIdBasic questId s' = Some quest.
Proof.
  intros Hu Hq Huq Hopen.
  destruct (completeQuest_run now _ _ _ _ _ _ Hu Hq Huq Hopen)
    as (s' & r & Hrun & Husers & Hquests & Hrows & _).
  exists s', r. split; [done|]. repeat split.
  - unfold findUserQuest in *. rewrite Hrows, find_map_inv by apply for_pair_complete.
    by rewrite Huq.
  - unfold select_user in *. rewrite Husers, find_map_inv by apply live_user_credit.
    by rewrite Hu.
  - unfold findByIdBasic in *. by rewrite Hquests.
Qed.

Lemma complete_row_own now r :
  UserQuests.status (complete_row now (UserQuests.id r) r) = uq_completed /\
  UserQuests.completedAt (complete_row now (UserQuests.id r) r) = Some now.
Proof. unfold complete_row, has_id. by rewrite Pos.eqb_refl. Qed.

Lemma credit_row_own userId x u :
  live_user userId u = true ->
  Users.experience (credit_row userId x u) = x.
Proof.
  unfold live_user, credit_row. intros H.
  apply andb_true_iff in H as [-> _]. done.
Qed.

(** C10: [completeQuest] asks for a live user, a live quest and a
    participation row that is not yet completed, and for nothing else: with
    these it returns, the row is marked completed and stamped with the time
    of the call, and the user's experience has grown by exactly the quest's
    reward.  No premise mentions the quest's own status or the progress of
    its steps. *)
Theorem completeQuest_needs_only_open_participation
    now userId questId s user quest userQuest :
  QuestService.select_user userId s = Some user ->
  QuestRepository.findByIdBasic questId s = Some quest ->
  QuestRepository.findUserQuest userId questId s = Some userQuest ->
  UserQuests.status userQuest <> uq_completed ->
  exists s' r row' user',
    QuestService.completeQuest now userId questId s = (s', Returned r) /\
    QuestRepository.findUserQuest userId questId s' = Some row' /\
    UserQuests.status row' = uq_completed /\
    UserQuests.completedAt row' = Some now /\
    QuestService.select_user userId s' = Some user' /\
    Users.experience user' = Users.experience user + Quests.experienceReward quest.
Proof.
  intros Hu Hq Huq Hopen.
  destruct (completeQuest_effect now _ _ _ _ _ _ Hu Hq Huq Hopen)
    as (s' & r & Hrun & Hrow & Huser & _).
  exists s', r, (complete_row now (UserQuests.id userQuest) userQuest),
    (credit_row userId (Users.experience user + Quests.experienceReward quest) user).
  destruct (complete_row_own now userQuest) as [Hst Hat].
  repeat split; try done.
  apply credit_row_own. by eapply find_has_own_id.
Qed.

(** C1: after a call of [completeQuest] that returned, the participation
    row of the pair is completed, and a further call for the same pair
    throws Conflict and leaves the store (participation rows, experience,
    grants, and everything else) exactly as the first call left it.  The
    same holds in any store where the user and the quest are live and the
    row of the pair is completed. *)
Theorem completeQuest_second_call_conflict now now' userId questId s s1 r :
  QuestService.completeQuest now userId questId s = (s1, Returned r) ->
  (exists row, QuestRepository.findUserQuest userId questId s1 = Some row
               /\ UserQuests.status row = uq_completed) /\
  QuestService.completeQuest now' userId questId s1
    = (s1, Thrown (ConflictException "Квест уже выполнен"%string)) /\
  (forall s2 user quest row,
     QuestService.select_user userId s2 = Some user ->
     QuestRepository.findByIdBasic questId s2 = Some quest ->
     QuestRepository.findUserQuest userId questId s2 = Some row ->
     UserQuests.status row = uq_completed ->
     QuestService.completeQuest now' userId questId s2
     = (s2, Thrown (ConflictException "Квест уже выполнен"%string))).
Proof.
  intros Hfirst.
  destruct (completeQuest_returns _ _ _ _ _ _ Hfirst)
    as (user & quest & userQuest & Hu & Hq & Huq & Hopen).
  destruct (completeQuest_effect now _ _ _ _ _ _ Hu Hq Huq Hopen)
    as (s' & r' & Hrun & Hrow & Huser & Hquest).
  rewrite Hfirst in Hrun. injection Hrun as <- <-.
  destruct (complete_row_own now userQuest) as [Hst _].
  split; [eauto|]. split.
  - eapply completeQuest_completed_row; eauto.
  - intros s2 user2 quest2 row2. apply completeQuest_completed_row.
Qed.

Lemma find_map_where {A} (p : A -> bool) (f : A -> A) (l : list A) :
  (forall x, p (f x) = p x) ->
  List.find p (map (fun x => if p x then f x else x) l) = f <$> List.find p l.
Proof.
  intros Hp. induction l as [|x l IH]; simpl; [done|].
  destruct (p x) eqn:E; [by rewrite Hp, E|]. rewrite E. apply IH.
Qed.

Lemma live_quest_set_row id data now q :
  live_quest id (set_row data now q) = live_quest id q.
Proof. reflexivity. Qed.

Lemma findByIdBasic_rewritten id data now s :
  findByIdBasic id (rewritten id data now s) = set_row data now <$> findByIdBasic id s.
Proof. unfold findByIdBasic, rewritten, update_rows. simpl. by apply find_map_where. Qed.

Lemma repository_update_run now id data s :
  QuestRepository.update now id data s
  = (rewritten id data now s, Returned (set_row data now <$> findByIdBasic id s)).
Proof. reflexivity. Qed.

Lemma updateRequirement_run now questId stepIndex dto s quest steps step req target :
  findByIdBasic questId s = Some quest ->
  Quests.status quest = active ->
  Quests.steps quest = Some steps ->
  0 <= stepIndex ->
  steps !! Z.to_nat stepIndex = Some step ->
  requirement step = Some req ->
  targetValue req = Some target ->
  updateRequirementCurrentValue now questId stepIndex dto s =
    if dto_currentValue dto <? 0 then (s, Thrown negative_value)
    else if target <? dto_currentValue dto
    then (s, Thrown (above_target (dto_currentValue dto) target))
    else
      let steps' := progressed steps stepIndex step req (dto_currentValue dto) in
      findOne questId
        (with_events (events s ++ [RequirementUpdated questId (Some steps')])
           (rewritten questId (only_steps steps') now s)).
Proof.
  intros Hq Hactive Hsteps Hidx Hstep Hreq Htarget.
  unfold updateRequirementCurrentValue. unfold_call.
  rewrite Hq, Hactive, Hsteps. simpl.
  assert (Hlt : (Z.to_nat stepIndex < length steps)%nat) by (by eapply lookup_lt_Some).
  destruct (stepIndex <? 0) eqn:E1; [lia|].
  destruct (Z.of_nat (length steps) <=? stepIndex) eqn:E2; [lia|]. simpl.
  rewrite Hstep, Hreq, Htarget.
  destruct (dto_currentValue dto <? 0); [done|].
  destruct (target <? dto_currentValue dto); [done|].
  unfold findByIdBasic in Hq. rewrite Hq. reflexivity.
Qed.

Lemma findById_rewritten_some id data now s :
  is_Some (findById id s) -> is_Some (findById id (rewritten id data now s)).
Proof.
  unfold findById. rewrite findByIdBasic_rewritten.
  destruct (findByIdBasic id s) as [q|]; simpl; [|done].
  destruct (List.find (live_user (Quests.ownerId q)) (users s)); [|done].
  intros _. by eexists.
Qed.

Lemma findOne_run id s :
  findOne id s =
    match findById id s with
    | Some q => (s, Returned {| qd_quest := q; qd_categories := findCategoriesByQuestId id s |})
    | None => (s, Thrown (quest_not_found id))
    end.
Proof. unfold findOne. unfold_call. by destruct (findById id s). Qed.

Lemma findById_with_events id ev s :
  findById id (with_events ev s) = findById id s.
Proof. reflexivity. Qed.

Lemma findById_owner id s quest :
  findByIdBasic id s = Some quest ->
  is_Some (findById id s) <-> is_Some (select_user (Quests.ownerId quest) s).
Proof.
  intros Hq. unfold findById, select_user. rewrite Hq.
  destruct (List.find (live_user (Quests.ownerId quest)) (users s));
    split; intros [? ?]; try done; by eexists.
Qed.

Lemma updateRequirement_returned now questId stepIndex dto s s' r :
  updateRequirementCurrentValue now questId stepIndex dto s = (s', Returned r) ->
  exists quest steps step req target,
    findByIdBasic questId s = Some quest /\
    Quests.status quest = active /\
    Quests.steps quest = Some steps /\
    0 <= stepIndex /\
    steps !! Z.to_nat stepIndex = Some step /\
    requirement step = Some req /\
    targetValue req = Some target /\
    0 <= dto_currentValue dto <= target.
Proof.
  unfold updateRequirementCurrentValue. unfold_call. intros H.
  destruct (findByIdBasic questId s) as [quest|] eqn:Hq; [|done].
  destruct (Quests.status quest) eqn:Hst; try done. simpl in H.
  destruct (Quests.steps quest) as [steps|] eqn:Hsteps; [|done].
  destruct (stepIndex <? 0) eqn:E1; [done|].
  destruct (Z.of_nat (length steps) <=? stepIndex) eqn:E2; [done|]. simpl in H.
  destruct (steps !! Z.to_nat stepIndex) as [step|] eqn:Hstep; [|done].
  destruct (requirement step) as [req|] eqn:Hreq; [|done].
  destruct (targetValue req) as [target|] eqn:Htarget; [|done].
  destruct (dto_currentValue dto <? 0) eqn:E3; [done|].
  destruct (target <? dto_currentValue dto) eqn:E4; [done|].
  exists quest, steps, step, req, target. repeat split; try done; lia.
Qed.

(** C2 (amended): for an active quest whose owner is a live user and whose
    addressed step carries a requirement with a target, the call returns if
    and only if [0 <= newCurrentValue <= targetValue]; a value outside the
    range is rejected with BadRequest and the store is untouched.  The
    requirement's prior [currentValue] plays no part. *)
Theorem updateRequirement_accepts_exactly_the_range
    now questId stepIndex dto s quest steps step req target owner :
  findByIdBasic questId s = Some quest ->
  Quests.status quest = active ->
  Quests.steps quest = Some steps ->
  0 <= stepIndex ->
  steps !! Z.to_nat stepIndex = Some step ->
  requirement step = Some req ->
  targetValue req = Some target ->
  select_user (Quests.ownerId quest) s = Some owner ->
  ((exists s' r, updateRequirementCurrentValue now questId stepIndex dto s = (s', Returned r))
   <-> 0 <= dto_currentValue dto <= target) /\
  (~ 0 <= dto_currentValue dto <= target ->
   exists m, updateRequirementCurrentValue now questId stepIndex dto s
             = (s, Thrown (BadRequestException m))).
Proof.
  intros Hq Hactive Hsteps Hidx Hstep Hreq Htarget Howner.
  rewrite (updateRequirement_run now _ _ dto _ _ _ _ _ _
             Hq Hactive Hsteps Hidx Hstep Hreq Htarget).
  destruct (dto_currentValue dto <? 0) eqn:E1.
  { split; [split; [by intros (? & ? & ?)|lia]|]. intros _. by eexists. }
  destruct (target <? dto_currentValue dto) eqn:E2.
  { split; [split; [by intros (? & ? & ?)|lia]|]. intros _. by eexists. }
  split; [|lia]. split; [lia|]. intros _. cbv zeta.
  rewrite findOne_run, findById_with_events.
  destruct (findById_rewritten_some questId
              (only_steps (progressed steps stepIndex step req (dto_currentValue dto))) now s)
    as [v Hv].
  { eapply findById_owner; eauto. }
  rewrite Hv. by eexists _, _.
Qed.

(** C6: on a quest whose status is archived or completed the call throws
    BadRequest with a message that quotes that status, and the store, hence
    the quest's steps, is the one it started from. *)
Theorem updateRequirement_rejects_inactive_quest now questId stepIndex dto s quest :
  findByIdBasic questId s = Some quest ->
  Quests.status quest = archived \/ Quests.status quest = completed ->
  updateRequirementCurrentValue now questId stepIndex dto s =
    (s, Thrown (BadRequestException
                  ("Квест со статусом '" ++ QuestStatus_str (Quests.status quest)
                   ++ "' не может быть изменен")%string)).
Proof.
  intros Hq Hst. unfold updateRequirementCurrentValue. unfold_call.
  rewrite Hq. by destruct Hst as [-> | ->].
Qed.

(** C7: a call that returned has rewritten the quest's steps so that the
    length and every other index are as before, the addressed step keeps its
    title, description, status, progress and deadline, its requirement keeps
    the target and carries the new current value, and the event log has
    grown by one RequirementUpdated event that carries the whole new
    sequence of steps. *)
Theorem updateRequirement_touches_one_value now questId stepIndex dto s s' r :
  updateRequirementCurrentValue now questId stepIndex dto s = (s', Returned r) ->
  exists quest quest' steps steps' step step' req,
    findByIdBasic questId s = Some quest /\
    Quests.steps quest = Some steps /\
    steps !! Z.to_nat stepIndex = Some step /\
    requirement step = Some req /\
    findByIdBasic questId s' = Some quest' /\
    Quests.steps quest' = Some steps' /\
    length steps' = length steps /\
    (forall j, j <> Z.to_nat stepIndex -> steps' !! j = steps !! j) /\
    steps' !! Z.to_nat stepIndex = Some step' /\
    step_title step' = step_title step /\
    step_description step' = step_description step /\
    step_status step' = step_status step /\
    step_progress step' = step_progress step /\
    deadline step' = deadline step /\
    requirement step' = Some {| currentValue := Some (dto_currentValue dto);
                                targetValue := targetValue req |} /\
    events s' = (events s ++ [RequirementUpdated questId (Some steps')])%list.
Proof.
  intros Hrun.
  destruct (updateRequirement_returned _ _ _ _ _ _ _ Hrun)
    as (quest & steps & step & req & target
        & Hq & Hactive & Hsteps & Hidx & Hstep & Hreq & Htarget & Hrange).
  rewrite (updateRequirement_run now _ _ dto _ _ _ _ _ _
             Hq Hactive Hsteps Hidx Hstep Hreq Htarget) in Hrun.
  destruct (dto_currentValue dto <? 0) eqn:E1; [lia|].
  destruct (target <? dto_currentValue dto) eqn:E2; [lia|].
  cbv zeta in Hrun. rewrite findOne_run in Hrun.
  set (steps' := progressed steps stepIndex step req (dto_currentValue dto)) in *.
  destruct (findById questId _); [|done]. injection Hrun as <- _.
  exists quest, (set_row (only_steps steps') now quest), steps, steps', step,
    (with_currentValue step req (dto_currentValue dto)), req.
  assert (Hlt : (Z.to_nat stepIndex < length steps)%nat) by (by eapply lookup_lt_Some).
  repeat split; try done.
  - change (findByIdBasic questId (rewritten questId (only_steps steps') now s)
            = Some (set_row (only_steps steps') now quest)).
    by rewrite findByIdBasic_rewritten, Hq.
  - apply length_insert.
  - intros j Hj. by apply list_lookup_insert_ne.
  - by apply list_lookup_insert_eq.
Qed.

Lemma bind_inv {A B} (m : Call A) (k : A -> Call B) s s' o :
  bind m k s = (s', o) ->
  (exists e, m s = (s', Thrown e) /\ o = Thrown e) \/
  (exists s1 a, m s = (s1, Returned a) /\ k a s1 = (s', o)).
Proof.
  unfold bind. destruct (m s) as [s1 [a|e]]; intros H.
  - right. eauto.
  - left. injection H as <- <-. eauto.
Qed.

Lemma readonly_ret {A} (a : A) : readonly (ret a).
Proof. intros s s' o H. by injection H. Qed.

Lemma readonly_throw {A} e : readonly (@throw A e).
Proof. intros s s' o H. by injection H. Qed.

Lemma readonly_query {A} (f : Store -> A) : readonly (query f).
Proof. intros s s' o H. by injection H. Qed.

Lemma readonly_or_throw {A} (x : option A) e : readonly (or_throw x e).
Proof. destruct x; [apply readonly_ret | apply readonly_throw]. Qed.

Lemma readonly_throw_if b e : readonly (throw_if b e).
Proof. destruct b; [apply readonly_throw | apply readonly_ret]. Qed.

Lemma readonly_bind {A B} (m : Call A) (k : A -> Call B) :
  readonly m -> (forall a, readonly (k a)) -> readonly (bind m k).
Proof.
  intros Hm Hk s s' o H. apply bind_inv in H as [(e & H & _) | (s1 & a & H1 & H2)].
  - by apply Hm in H.
  - apply Hm in H1 as ->. by apply Hk in H2.
Qed.

Lemma readonly_fetch {A} (f : Store -> option A) e : readonly (fetch f e).
Proof. apply readonly_bind; [apply readonly_query | intros; apply readonly_or_throw]. Qed.

Lemma readonly_findOne id : readonly (findOne id).
Proof.
  apply readonly_bind; [apply readonly_fetch|]. intros q.
  apply readonly_bind; [apply readonly_query|]. intros c. apply readonly_ret.
Qed.

Ltac solve_readonly :=
  repeat first
    [ apply readonly_ret | apply readonly_throw | apply readonly_query
    | apply readonly_or_throw | apply readonly_throw_if | apply readonly_fetch
    | apply readonly_findOne
    | apply readonly_bind; [|intros ?]
    | match goal with
      | |- readonly ?m =>
        match m with context [match ?x with _ => _ end] => destruct x end
      end ].

Lemma readonly_elim {A} (m : Call A) s s' o :
  m s = (s', o) -> readonly m -> s' = s.
Proof. intros H Hm. by apply Hm in H. Qed.

Lemma fetch_returned {A} (f : Store -> option A) e s s' a :
  fetch f e s = (s', Returned a) -> f s = Some a.
Proof. unfold fetch. unfold_call. destruct (f s); intros H; by simplify_eq. Qed.

Lemma fetch_thrown {A} (f : Store -> option A) e s s' e' :
  fetch f e s = (s', Thrown e') -> f s = None /\ e' = e.
Proof. unfold fetch. unfold_call. destruct (f s); intros H; by simplify_eq. Qed.

(** A stage of a method that only reads: either it threw and the store is
    the one it started from, or the method goes on from the same store. *)
Ltac read_stage H :=
  let e := fresh "e" in
  let s1 := fresh "s" in
  let a := fresh "a" in
  let Hm := fresh "Hm" in
  let Hs := fresh "Hs" in
  let Ho := fresh "Ho" in
  apply bind_inv in H as [(e & Hm & Ho) | (s1 & a & Hm & H)];
  [ pose proof Hm as Hs; apply readonly_elim in Hs; [|solve [solve_readonly]];
    first [ subst | injection Ho as <-; subst ]
  | pose proof Hm as Hs; apply readonly_elim in Hs; [|solve [solve_readonly]];
    subst s1 ].

Lemma when_emit_run b ev s s' o :
  when b (emit ev) s = (s', o) ->
  o = Returned tt /\ quests s' = quests s /\ users s' = users s
  /\ questCategories s' = questCategories s /\ categories s' = categories s.
Proof. unfold_call. destruct b; intros H; by simplify_eq. Qed.

Lemma retag_run id categoryIds s s' o :
  match categoryIds with
  | Some categoryIds =>
    let! _ := deleteQuestCategories id in
    match categoryIds with
    | [] => ret tt
    | _ =>
      let! existingCategories := query (select_categories categoryIds) in
      let! _ := throw_if (negb (length existingCategories =? length categoryIds)%nat)
                  categories_not_found in
      createQuestCategories id categoryIds
    end
  | None => (ret tt : Call unit)
  end s = (s', o) ->
  quests s' = quests s /\ users s' = users s /\
  (categoryIds = None -> s' = s) /\
  (o = Thrown categories_not_found \/ o = Returned tt).
Proof.
  destruct categoryIds as [[|c l]|]; unfold_call;
    unfold deleteQuestCategories, createQuestCategories; unfold_call.
  - intros H. simplify_eq. by repeat split; eauto.
  - simpl. destruct (negb _); intros H; simplify_eq; by repeat split; eauto.
  - intros H. simplify_eq. by repeat split; eauto.
Qed.

Lemma findById_same_rows id s1 s2 :
  quests s2 = quests s1 -> users s2 = users s1 ->
  is_Some (findById id s1) -> is_Some (findById id s2).
Proof.
  unfold findById, findByIdBasic. intros -> ->.
  destruct (List.find (live_quest id) (quests s1)) as [q|]; [|done].
  destruct (List.find (live_user (Quests.ownerId q)) (users s1)); [|done].
  intros _. by eexists.
Qed.

Lemma update_cases now id dto s s' o :
  update now id dto s = (s', o) ->
  (s' = s /\ exists e, o = Thrown e) \/
  (exists quest,
     findByIdBasic id s = Some quest /\
     quests s' = update_rows id (updateData dto) now (quests s) /\
     users s' = users s /\
     (UpdateQuestDto.categoryIds dto = None -> questCategories s' = questCategories s) /\
     (o = Thrown categories_not_found \/
      (o = Thrown (quest_not_found id) /\ findById id s = None) \/
      exists r, o = Returned r)).
Proof.
  unfold update. intros H.
  read_stage H; [left; eauto|]. apply fetch_returned in Hm as Hq.
  read_stage H; [left; eauto|].
  read_stage H; [left; eauto|].
  read_stage H; [left; eauto|].
  read_stage H; [left; eauto|].
  right. exists a. split; [done|].
  apply bind_inv in H as [(e & Hw & _) | (s1 & updated & Hw & H)];
    rewrite repository_update_run in Hw; simplify_eq.
  rewrite Hq in H. simpl in H.
  apply bind_inv in H as [(e & Hw & _) | (s1 & ? & Hw & H)]; [done|].
  injection Hw as <- <-.
  apply bind_inv in H as [(e & Hw & _) | (s2 & ? & Hw & H)];
    apply when_emit_run in Hw as (? & Hq2 & Hu2 & Hc2 & _); [done|].
  apply bind_inv in H as [(e & Hw & ->) | (s3 & ? & Hw & H)];
    apply retag_run in Hw as (Hq3 & Hu3 & Hc3 & Ho).
  - rewrite Hq3, Hq2, Hu3, Hu2. repeat split; try done.
    + intros Hnone. by rewrite (Hc3 Hnone), Hc2.
    + destruct Ho as [Ho|Ho]; [injection Ho as ->; by left | done].
  - pose proof H as Hs. apply readonly_elim in Hs; [|solve_readonly]. subst s3.
    rewrite Hq3, Hq2, Hu3, Hu2. repeat split; try done.
    + intros Hnone. by rewrite (Hc3 Hnone), Hc2.
    + right. rewrite findOne_run in H.
      destruct (findById id s') eqn:Hf; simplify_eq; [right; by eexists|].
      left. split; [done|].
      destruct (findById id s) eqn:Hf0; [|done].
      assert (Hsome : is_Some (findById id s')); [|rewrite Hf in Hsome; by destruct Hsome].
      eapply findById_same_rows;
        [| |eapply (findById_rewritten_some id (updateData dto) now s); by eexists].
      * by rewrite Hq3, Hq2.
      * by rewrite Hu3, Hu2.
Qed.

(** ** Partial updates *)

Lemma set_row_no_update now q :
  set_row (updateData UpdateQuestDto.empty) now q = Quests.set_updatedAt now q.
Proof. reflexivity. Qed.

Lemma set_row_only_gallery now g q :
  set_row (updateData (UpdateQuestDto.only_gallery g)) now q
  = Quests.set_updatedAt now (Quests.set_gallery (Some g) q).
Proof. reflexivity. Qed.

Lemma update_empty_run now id s quest :
  findByIdBasic id s = Some quest ->
  update now id UpdateQuestDto.empty s
  = findOne id (rewritten id (updateData UpdateQuestDto.empty) now s).
Proof.
  intros Hq. unfold update. unfold_call. rewrite Hq. simpl.
  unfold findByIdBasic in Hq. rewrite Hq. reflexivity.
Qed.

Lemma update_gallery_run now id s quest g :
  findByIdBasic id s = Some quest ->
  gallery_over_limit (Some g) = false ->
  update now id (UpdateQuestDto.only_gallery g) s
  = findOne id (rewritten id (updateData (UpdateQuestDto.only_gallery g)) now s).
Proof.
  intros Hq Hg. unfold update. unfold_call. rewrite Hq.
  cbn [UpdateQuestDto.achievementId UpdateQuestDto.only_gallery
       UpdateQuestDto.cityId UpdateQuestDto.organizationTypeId
       UpdateQuestDto.gallery UpdateQuestDto.steps UpdateQuestDto.categoryIds].
  rewrite Hg. simpl.
  unfold findByIdBasic in Hq. rewrite Hq. reflexivity.
Qed.

Lemma map_rows_set now id data (f : Quests.row -> Quests.row) s :
  (forall q, set_row data now q = f q) ->
  rewritten id data now s
  = with_quests (map (fun q => if live_quest id q then f q else q) (quests s))
      (quests_seq s) s.
Proof.
  intros Hf. unfold rewritten, update_rows. f_equal.
  apply map_ext. intros q. by rewrite Hf.
Qed.

Lemma findById_quest id s w : findById id s = Some w -> findByIdBasic id s = Some (qr_quest w).
Proof.
  unfold findById. destruct (findByIdBasic id s) as [q|]; [|discriminate].
  destruct (List.find _ (users s)); [|discriminate].
  intros [= <-]. reflexivity.
Qed.

(** What the final [findOne] of a method finds once the quest row is
    rewritten: the rewritten row when the owner is a live user, no row
    otherwise. *)
Lemma findOne_after_update id data now s quest :
  findByIdBasic id s = Some quest ->
  exists o,
    findOne id (rewritten id data now s) = (rewritten id data now s, o)
    /\ (is_Some (select_user (Quests.ownerId quest) s) ->
        exists r, o = Returned r /\ qr_quest (qd_quest r) = set_row data now quest)
    /\ (select_user (Quests.ownerId quest) s = None -> o = Thrown (quest_not_found id)).
Proof.
  intros Hq. rewrite findOne_run.
  assert (Hq' : findByIdBasic id (rewritten id data now s) = Some (set_row data now quest))
    by now rewrite findByIdBasic_rewritten, Hq.
  pose proof (findById_owner id _ _ Hq') as Howner.
  change (select_user (Quests.ownerId (set_row data now quest)) (rewritten id data now s))
    with (select_user (Quests.ownerId quest) s) in Howner.
  destruct (findById id (rewritten id data now s)) as [w|] eqn:Hw.
  - eexists. split; [reflexivity|]. split.
    + intros _. eexists. split; [reflexivity|]. simpl.
      apply findById_quest in Hw. rewrite Hq' in Hw. now injection Hw.
    + intros Hnone. destruct Howner as [Howner _].
      destruct (Howner (ex_intro _ w eq_refl)) as [u Hu]. congruence.
  - eexists. split; [reflexivity|]. split; [|reflexivity].
    intros Ho. apply Howner in Ho as [w Hw']. discriminate.
Qed.

(** C9 (amended): on an existing quest whose owner is a live user, the empty
    patch rewrites nothing in the store but [updatedAt] of that quest and
    the call returns the quest so rewritten; the patch [{ gallery: [] }]
    stores the empty gallery (and the timestamp) and the call returns the
    quest with it.  When the owner is soft-deleted the same writes are made
    and the call then throws the NotFound of the quest, from the final
    re-read.  For any patch, a field the patch leaves undefined keeps its
    stored value, the category associations included. *)
Theorem update_writes_only_what_the_patch_names now id s quest :
  QuestRepository.findByIdBasic id s = Some quest ->
  (exists o,
     QuestService.update now id UpdateQuestDto.empty s
     = (with_quests
          (map (fun q => if live_quest id q then Quests.set_updatedAt now q else q)
             (quests s))
          (quests_seq s) s, o) /\
     (is_Some (QuestService.select_user (Quests.ownerId quest) s) ->
      exists r, o = Returned r
                /\ qr_quest (qd_quest r) = Quests.set_updatedAt now quest) /\
     (QuestService.select_user (Quests.ownerId quest) s = None ->
      o = Thrown (QuestService.quest_not_found id))) /\
  (exists o,
     QuestService.update now id (UpdateQuestDto.only_gallery []) s
     = (with_quests
          (map (fun q => if live_quest id q
                         then Quests.set_updatedAt now (Quests.set_gallery (Some []) q)
                         else q)
             (quests s))
          (quests_seq s) s, o) /\
     (is_Some (QuestService.select_user (Quests.ownerId quest) s) ->
      exists r, o = Returned r
                /\ qr_quest (qd_quest r)
                   = Quests.set_updatedAt now (Quests.set_gallery (Some []) quest)) /\
     (QuestService.select_user (Quests.ownerId quest) s = None ->
      o = Thrown (QuestService.quest_not_found id))) /\
  (forall dto s' o,
     QuestService.update now id dto s = (s', o) ->
     exists quest',
       QuestRepository.findByIdBasic id s' = Some quest' /\
       (UpdateQuestDto.title dto = None -> Quests.title quest' = Quests.title quest) /\
       (UpdateQuestDto.description dto = None ->
        Quests.description quest' = Quests.description quest) /\
       (UpdateQuestDto.status dto = None -> Quests.status quest' = Quests.status quest) /\
       (UpdateQuestDto.experienceReward dto = None ->
        Quests.experienceReward quest' = Quests.experienceReward quest) /\
       (UpdateQuestDto.achievementId dto = None ->
        Quests.achievementId quest' = Quests.achievementId quest) /\
       (UpdateQuestDto.cityId dto = None -> Quests.cityId quest' = Quests.cityId quest) /\
       (UpdateQuestDto.organizationTypeId dto = None ->
        Quests.organizationTypeId quest' = Quests.organizationTypeId quest) /\
       (UpdateQuestDto.latitude dto = None -> Quests.latitude quest' = Quests.latitude quest) /\
       (UpdateQuestDto.longitude dto = None ->
        Quests.longitude quest' = Quests.longitude quest) /\
       (UpdateQuestDto.address dto = None -> Quests.address quest' = Quests.address quest) /\
       (UpdateQuestDto.contacts dto = None -> Quests.contacts quest' = Quests.contacts quest) /\
       (UpdateQuestDto.coverImage dto = None ->
        Quests.coverImage quest' = Quests.coverImage quest) /\
       (UpdateQuestDto.gallery dto = None -> Quests.gallery quest' = Quests.gallery quest) /\
       (UpdateQuestDto.steps dto = None -> Quests.steps quest' = Quests.steps quest) /\
       (UpdateQuestDto.categoryIds dto = None -> questCategories s' = questCategories s)).
Proof.
  intros Hq. split; [|split].
  - rewrite (update_empty_run _ _ _ _ Hq).
    destruct (findOne_after_update id (updateData UpdateQuestDto.empty) now s quest Hq)
      as (o & Hrun & Hret & Hthrow).
    rewrite (map_rows_set now id _ (Quests.set_updatedAt now)) in Hrun
      by apply set_row_no_update.
    exists o. split; [exact Hrun|]. split; [exact Hret|exact Hthrow].
  - rewrite (update_gallery_run _ _ _ _ [] Hq) by done.
    destruct (findOne_after_update id (updateData (UpdateQuestDto.only_gallery [])) now s
                quest Hq) as (o & Hrun & Hret & Hthrow).
    rewrite (map_rows_set now id _
               (fun q => Quests.set_updatedAt now (Quests.set_gallery (Some []) q))) in Hrun
      by apply set_row_only_gallery.
    exists o. split; [exact Hrun|]. split; [exact Hret|exact Hthrow].
  - intros dto s' o Hrun.
    apply update_cases in Hrun as [[-> _] | (quest0 & Hq0 & Hrows & _ & Hcat & _)].
    + exists quest. by repeat split.
    + rewrite Hq in Hq0. injection Hq0 as <-.
      exists (set_row (updateData dto) now quest). split.
      { unfold findByIdBasic in *. rewrite Hrows. unfold update_rows.
        rewrite find_map_where by done. by rewrite Hq. }
      repeat split; try done; intros Hnone; simpl; by rewrite Hnone.
Qed.

(** ** Failures and writes *)

Lemma joinQuest_thrown now userId questId s s' e :
  joinQuest now userId questId s = (s', Thrown e) -> s' = s.
Proof.
  unfold joinQuest. intros H.
  do 5 (read_stage H; [done|]).
  unfold_call. unfold createUserQuest in H. by simplify_eq.
Qed.

Lemma leaveQuest_thrown userId questId s s' e :
  leaveQuest userId questId s = (s', Thrown e) -> s' = s.
Proof.
  unfold leaveQuest. intros H.
  read_stage H; [done|]. read_stage H; [done|].
  read_stage H; [done|]. apply fetch_returned in Hm1 as Hrow.
  read_stage H; [done|].
  unfold_call. unfold deleteUserQuest in H.
  unfold findUserQuest in Hrow. apply find_some in Hrow as [Hin _].
  destruct (List.find (has_id (UserQuests.id a1)) (userQuests s)) eqn:E; [by simplify_eq|].
  eapply find_none in E; [|exact Hin]. unfold has_id in E. by rewrite Pos.eqb_refl in E.
Qed.

Lemma completeQuest_thrown now userId questId s s' e :
  completeQuest now userId questId s = (s', Thrown e) -> s' = s.
Proof.
  intros H.
  destruct (select_user userId s) as [user|] eqn:Hu;
    [|unfold completeQuest in H; unfold_call; rewrite Hu in H; by simplify_eq].
  destruct (findByIdBasic questId s) as [quest|] eqn:Hq;
    [|unfold completeQuest in H; unfold_call; rewrite Hu, Hq in H; by simplify_eq].
  destruct (findUserQuest userId questId s) as [row|] eqn:Hrow;
    [|unfold completeQuest in H; unfold_call; rewrite Hu, Hq, Hrow in H; by simplify_eq].
  destruct (decide (UserQuests.status row = uq_completed)) as [Hc|Hopen].
  - rewrite (completeQuest_completed_row now _ _ _ _ _ _ Hu Hq Hrow Hc) in H.
    by simplify_eq.
  - destruct (completeQuest_run now _ _ _ _ _ _ Hu Hq Hrow Hopen) as (s2 & r & Hrun & _).
    rewrite Hrun in H. by simplify_eq.
Qed.

Lemma updateRequirement_thrown now questId stepIndex dto s s' e :
  updateRequirementCurrentValue now questId stepIndex dto s = (s', Thrown e) ->
  (exists m, e = BadRequestException m) \/ findByIdBasic questId s = None ->
  s' = s.
Proof.
  unfold updateRequirementCurrentValue. intros H Hkind.
  read_stage H; [done|]. apply fetch_returned in Hm as Hq.
  do 8 (read_stage H; [done|]).
  apply bind_inv in H as [(e' & Hw & _) | (s1 & updated & Hw & H)];
    rewrite repository_update_run in Hw; simplify_eq.
  rewrite Hq in H. simpl in H.
  apply bind_inv in H as [(e' & Hw & _) | (s1 & ? & Hw & H)]; [done|].
  injection Hw as <- <-.
  apply bind_inv in H as [(e' & Hw & _) | (s2 & ? & Hw & H)]; [done|].
  rewrite findOne_run in H. destruct (findById questId s2); [done|].
  injection H as <- <-. destruct Hkind as [[m Hm']|Hnone]; [done|congruence].
Qed.

Lemma update_thrown now id dto s s' e :
  QuestService.update now id dto s = (s', Thrown e) ->
  (exists m, e = BadRequestException m) \/ findByIdBasic id s = None
  \/ (exists a, e = QuestService.achievement_not_found a)
  \/ (exists c, e = city_not_found c)
  \/ (exists o, e = organizationType_not_found o) ->
  s' = s.
Proof.
  intros H Hkind.
  apply update_cases in H as [[-> _] | (quest & Hq & _ & _ & _ & Ho)]; [done|].
  exfalso.
  destruct Hkind as [[m ->] | [Hnone | [[a ->] | [[c ->] | [o ->]]]]];
    try congruence;
    destruct Ho as [Ho | [[Ho _] | [r Ho]]]; try done;
    injection Ho; simpl; discriminate.
Qed.

Lemma tail_of_create_no_validation_failure now userId (questWithId : positive)
    (k : Call unit) (ids : option (list positive)) s s' e :
  (forall s0 s1 e0, k s0 = (s1, Thrown e0) -> False) ->
  (let! _ := k in
   let! _ :=
     match nonempty_ids ids with
     | Some ids => createQuestCategories questWithId ids
     | None => ret tt
     end in
   let! questWithAchievement :=
     fetch (findById questWithId) (Error "Не удалось получить созданный квест"%string) in
   let! questCategoriesData := query (findCategoriesByQuestId questWithId) in
   let questWithAllData :=
     {| qd_quest := questWithAchievement; qd_categories := questCategoriesData |} in
   let! userQuest := createUserQuest now userId questWithId in_progress in
   let! userData := query (select_user userId) in
   let! _ := emit (UserJoined questWithId userId (owner_view <$> userData)) in
   let! _ := emit (QuestCreated questWithId questWithAllData) in
   ret questWithAllData) s = (s', Thrown e) ->
  is_validation_failure e = false.
Proof.
  intros Hk H.
  apply bind_inv in H as [(e1 & H1 & _) | (s1 & ? & _ & H)]; [by apply Hk in H1|].
  apply bind_inv in H as [(e2 & H2 & _) | (s2 & ? & _ & H)];
    [destruct (nonempty_ids _) as [[|? ?]|]; done|].
  apply bind_inv in H as [(e3 & H3 & Ho) | (s3 & ? & _ & H)].
  { apply fetch_thrown in H3 as [_ ->]. by injection Ho as ->. }
  unfold_call. unfold createUserQuest in H. by simplify_eq.
Qed.

Lemma create_thrown now dto userId s s' e :
  QuestService.create now dto userId s = (s', Thrown e) ->
  is_validation_failure e = true ->
  CreateQuestDto.achievement dto = None
  \/ e = user_not_found userId
  \/ (exists m, e = ForbiddenException m) ->
  s' = s.
Proof.
  unfold QuestService.create. intros H Hval Hkind.
  read_stage H; [done|].
  read_stage H; [done|].
  destruct (CreateQuestDto.achievement dto) as [p|] eqn:Hach.
  - (* the achievement row is written first: only the two failures of the
       stages before it are covered *)
    exfalso.
    destruct Hkind as [? | Hkind]; [done|].
    apply bind_inv in H as [(e1 & H1 & _) | (s1 & achievementId & _ & H)];
      [unfold insert_achievement in H1; unfold_call; by simplify_eq|].
    apply bind_inv in H as [(e2 & H2 & Ho) | (s2 & city & _ & H)].
    { apply fetch_thrown in H2 as [_ ->]. injection Ho as ->.
      destruct Hkind as [Hk | [m Hk]]; [|done]. injection Hk. simpl. discriminate. }
    apply bind_inv in H as [(e3 & H3 & Ho) | (s3 & ? & _ & H)].
    { injection Ho as ->. destruct (CreateQuestDto.organizationTypeId dto); [|done].
      apply bind_inv in H3 as [(e3' & H3 & Ho) | (? & ? & _ & H3)]; [|done].
      apply fetch_thrown in H3 as [_ ->]. injection Ho as ->.
      destruct Hkind as [Hk | [m Hk]]; [|done]. injection Hk. simpl. discriminate. }
    apply bind_inv in H as [(e4 & H4 & Ho) | (s4 & ? & _ & H)].
    { injection Ho as ->. destruct (nonempty_ids _); [|done].
      apply bind_inv in H4 as [(e4' & H4 & Ho) | (? & ? & _ & H4)]; [done|].
      unfold throw_if in H4. destruct (negb _); [|done]. injection H4 as _ <-.
      destruct Hkind as [Hk | [m Hk]]; [|done]. injection Hk. simpl. discriminate. }
    apply bind_inv in H as [(e5 & H5 & Ho) | (s5 & ? & _ & H)].
    { injection Ho as ->. unfold throw_if in H5. destruct (gallery_over_limit _); [|done].
      injection H5 as _ <-. destruct Hkind as [Hk | [m Hk]]; done. }
    apply bind_inv in H as [(e6 & H6 & Ho) | (s6 & quest & _ & H)]; [done|].
    apply tail_of_create_no_validation_failure in H; [congruence|].
    intros s0 s1' e0. by destruct achievementId.
  - apply bind_inv in H as [(e1 & H1 & _) | (s1 & achievementId & H1 & H)]; [done|].
    injection H1 as <- <-.
    do 4 (read_stage H; [done|]).
    exfalso.
    apply bind_inv in H as [(e6 & H6 & Ho) | (s6 & quest & _ & H)]; [done|].
    apply tail_of_create_no_validation_failure in H; [congruence|].
    by intros s0 s1' e0.
Qed.

Lemma with_quests_same s : with_quests (quests s) (quests_seq s) s = s.
Proof. now destruct s. Qed.

Lemma with_achievements_same s : with_achievements (achievements s) (achievements_seq s) s = s.
Proof. now destruct s. Qed.

Lemma find_none_map {A} (p : A -> bool) (f : A -> A) l :
  List.find p l = None -> map (fun x => if p x then f x else x) l = l.
Proof.
  induction l as [|x l IH]; simpl; [done|].
  destruct (p x); [discriminate|]. intros H. now rewrite IH.
Qed.

(** The methods that only read. *)
Lemma readonly_service_findAll cityId categoryId :
  readonly (QuestService.findAll cityId categoryId).
Proof. unfold QuestService.findAll. cbv zeta. solve_readonly. Qed.

Lemma readonly_service_findByStatus status cityId categoryId :
  readonly (QuestService.findByStatus status cityId categoryId).
Proof. unfold QuestService.findByStatus. cbv zeta. solve_readonly. Qed.

Lemma readonly_getUserQuests userId : readonly (getUserQuests userId).
Proof. unfold getUserQuests. cbv zeta. solve_readonly. Qed.

Lemma readonly_getAvailableQuests userId : readonly (getAvailableQuests userId).
Proof. unfold getAvailableQuests. cbv zeta. solve_readonly. Qed.

Lemma readonly_achievement_findAll : readonly AchievementService.findAll.
Proof. unfold AchievementService.findAll. solve_readonly. Qed.

Lemma readonly_achievement_findOne id : readonly (AchievementService.findOne id).
Proof. unfold AchievementService.findOne. solve_readonly. Qed.

Lemma readonly_getUserAchievements userId :
  readonly (AchievementService.getUserAchievements userId).
Proof. unfold AchievementService.getUserAchievements. solve_readonly. Qed.

Lemma remove_thrown now id s s' e :
  QuestService.remove now id s = (s', Thrown e) -> s' = s.
Proof.
  unfold QuestService.remove, softDelete. unfold_call. intros H.
  destruct (List.find (live_quest id) (quests s)) eqn:Hf; simpl in H; [discriminate|].
  injection H as <- _. rewrite (find_none_map _ _ _ Hf). apply with_quests_same.
Qed.

Lemma archiveQuest_thrown now id s s' e :
  archiveQuest now id s = (s', Thrown e) -> findByIdBasic id s = None -> s' = s.
Proof.
  unfold archiveQuest. unfold_call. intros H Hnone. rewrite Hnone in H.
  now injection H as <- _.
Qed.

Lemma unarchiveQuest_thrown now id s s' e :
  unarchiveQuest now id s = (s', Thrown e) -> findByIdBasic id s = None -> s' = s.
Proof.
  unfold unarchiveQuest. unfold_call. intros H Hnone. rewrite Hnone in H.
  now injection H as <- _.
Qed.

Lemma achievement_remove_thrown id s s' e :
  AchievementService.remove id s = (s', Thrown e) -> s' = s.
Proof.
  unfold AchievementService.remove, AchievementRepository.softDelete,
    AchievementRepository.findById. unfold_call. intros H.
  destruct (List.find (live_achievement id) (achievements s)) eqn:Hf; simpl in H;
    [discriminate|].
  injection H as <- _. rewrite (find_none_map _ _ _ Hf). apply with_achievements_same.
Qed.

Lemma assignToUser_thrown now userId achievementId s s' e :
  AchievementService.assignToUser now userId achievementId s = (s', Thrown e) -> s' = s.
Proof.
  unfold AchievementService.assignToUser. intros H.
  do 4 (read_stage H; [done|]).
  unfold AchievementRepository.assignToUser in H. discriminate.
Qed.

(** ** One participation row per pair *)



























Lemma NoDup_snoc {A} (l : list A) x : NoDup l -> x ∉ l -> NoDup (l ++ [x]).
Proof.
  intros Hl Hx. apply NoDup_app. split; [done|]. split; [|apply NoDup_singleton].
  intros y Hy ->%list_elem_of_singleton. by apply Hx.
Qed.

















Lemma joinQuest_run now userId questId s user quest :
  select_user userId s = Some user ->
  findByIdBasic questId s = Some quest ->
  Quests.status quest = active ->
  findUserQuest userId questId s = None ->
  let r := {| UserQuests.id := userQuests_seq s; UserQuests.userId := userId;
              UserQuests.questId := questId; UserQuests.status := in_progress;
              UserQuests.startedAt := Some now; UserQuests.completedAt := None |} in
  joinQuest now userId questId s
  = (with_events (events s ++ [UserJoined questId userId (Some (owner_view user))])
       (with_userQuests (userQuests s ++ [r]) (Pos.succ (userQuests_seq s)) s),
     Returned r).
Proof.
  intros Hu Hq Hact Hnone. unfold joinQuest. unfold_call.
  rewrite Hu, Hq. simpl. rewrite Hact. simpl. rewrite Hnone. simpl.
  unfold createUserQuest. simpl. unfold select_user. simpl.
  unfold select_user in Hu. rewrite Hu. reflexivity.
Qed.

Lemma joinQuest_returned now userId questId s s' r :
  joinQuest now userId questId s = (s', Returned r) ->
  findUserQuest userId questId s = None /\
  userQuests s' = (userQuests s ++ [r])%list /\
  UserQuests.userId r = userId /\ UserQuests.questId r = questId /\
  UserQuests.status r = in_progress.
Proof.
  unfold joinQuest. intros H.
  do 3 (read_stage H; [done|]).
  read_stage H; [done|]. injection Hm2 as Hfound. subst a2.
  read_stage H; [done|].
  destruct (findUserQuest userId questId s) eqn:Hnone; [done|].
  unfold_call. unfold createUserQuest in H. by simplify_eq.
Qed.


Lemma joinQuest_existing now userId questId s row :
  findUserQuest userId questId s = Some row ->
  exists e, joinQuest now userId questId s = (s, Thrown e).
Proof.
  intros Hrow. destruct (joinQuest now userId questId s) as [s' [r|e]] eqn:H.
  - apply joinQuest_returned in H as [Hnone _]. congruence.
  - apply joinQuest_thrown in H as ->. by exists e.
Qed.


(** ** Rarity and quest binding of achievements *)

(** It gives the equivalence in the words of the data model. *)
Lemma binding_ok_iff s a :
  binding_ok s a ->
  (Achievements.rarity a = private <->
   exists q, Achievements.questId a = Some q
             /\ is_Some (AchievementRepository.findQuestById q s)).
Proof.
  unfold binding_ok. destruct (Achievements.questId a) as [q|].
  - intros [Hp Hq]. split; [by eauto|]. intros _. by destruct (Achievements.rarity a).
  - intros Hp. split; [intros Hr; by rewrite Hr in Hp|]. by intros (q & ? & _).
Qed.

Lemma binding_same_quests s s' a :
  quests s' = quests s -> binding_ok s a -> binding_ok s' a.
Proof.
  intros Hq. unfold binding_ok, AchievementRepository.findQuestById.
  by rewrite Hq.
Qed.

Lemma achievement_create_cases dto s s' o :
  AchievementService.create dto s = (s', o) ->
  (s' = s /\ exists e, o = Thrown e) \/
  (exists a,
     o = Returned a /\
     s' = with_achievements (achievements s ++ [a]) (Pos.succ (achievements_seq s)) s /\
     Achievements.id a = achievements_seq s /\
     Achievements.rarity a = CreateAchievementDto.rarity dto /\
     Achievements.questId a = mjoin (CreateAchievementDto.questId dto) /\
     if is_private (CreateAchievementDto.rarity dto)
     then exists q, CreateAchievementDto.questId dto = Some (Some q)
                    /\ is_Some (AchievementRepository.findQuestById q s)
     else mjoin (CreateAchievementDto.questId dto) = None).
Proof.
  unfold AchievementService.create. intros H.
  read_stage H; [left; eauto|].
  read_stage H; [left; eauto|].
  read_stage H; [left; eauto|].
  right. injection H as <- <-. eexists. split; [done|]. split; [done|].
  repeat split.
  destruct (is_private (CreateAchievementDto.rarity dto)).
  - destruct (CreateAchievementDto.questId dto) as [[q|]|]; try done.
    exists q. split; [done|].
    apply bind_inv in Hm1 as [(? & ? & ?) | (? & ? & Hf & _)]; [done|].
    apply fetch_returned in Hf. by rewrite Hf.
  - by destruct (CreateAchievementDto.questId dto) as [[q|]|].
Qed.

Lemma achievement_update_cases id dto s s' o :
  AchievementService.update id dto s = (s', o) ->
  (s' = s /\ exists e, o = Thrown e) \/
  (exists current dto',
     AchievementRepository.findById id s = Some current /\
     binding_check s current dto dto' /\
     s' = with_achievements
            (map (fun a => if live_achievement id a
                           then AchievementRepository.set_row dto' a else a)
               (achievements s))
            (achievements_seq s) s /\
     o = Returned (AchievementRepository.set_row dto' current)).
Proof.
  unfold AchievementService.update. intros H.
  read_stage H; [left; eauto|]. apply fetch_returned in Hm as Hcur.
  read_stage H; [left; eauto|].
  read_stage H; [left; eauto|].
  right. exists a, a1. split; [done|].
  unfold AchievementRepository.update in H. unfold_call. rewrite Hcur in H. simpl in H.
  injection H as <- <-. split; [|done].
  unfold binding_check, effective_rarity.
  destruct (is_private _).
  - destruct (UpdateAchievementDto.questId dto) as [[q|]|].
    + apply bind_inv in Hm1 as [(? & ? & ?) | (? & ? & Hf & Hr)]; [done|].
      apply fetch_returned in Hf. injection Hr as _ <-. split; [done|]. by rewrite Hf.
    + done.
    + destruct (Achievements.questId a); [|done]. by injection Hm1 as <-.
  - destruct (UpdateAchievementDto.rarity dto); [by injection Hm1 as <-|].
    destruct (UpdateAchievementDto.questId dto) as [[q|]|]; [done| |];
      by injection Hm1 as <-.
Qed.

Lemma NoDup_map_inj {A B} (f : A -> B) (l : list A) x y :
  NoDup (map f l) -> In x l -> In y l -> f x = f y -> x = y.
Proof.
  induction l as [|z l IH]; simpl; [done|].
  intros [Hz Hl]%NoDup_cons [<-|Hx] [<-|Hy] Hf; try done.
  - exfalso. apply Hz. rewrite Hf. by apply list_elem_of_In, in_map.
  - exfalso. apply Hz. rewrite <- Hf. by apply list_elem_of_In, in_map.
  - by apply IH.
Qed.

Lemma binding_check_ok s current dto dto' :
  binding_ok s current ->
  binding_check s current dto dto' ->
  binding_ok s (AchievementRepository.set_row dto' current).
Proof.
  unfold binding_ok, binding_check, effective_rarity.
  intros Hcur. destruct (is_private (default _ _)) eqn:Hp.
  - intros [-> Hq]. simpl.
    destruct (UpdateAchievementDto.questId dto) as [[q|]|]; simpl; [done|done|].
    destruct (Achievements.questId current) as [q|] eqn:Hcq; [|by destruct Hq].
    by destruct Hcur.
  - destruct (UpdateAchievementDto.rarity dto) as [r|] eqn:Hr.
    + intros ->. simpl. by rewrite Hr.
    + intros [-> Hq]. simpl. rewrite Hr. simpl in *.
      by destruct (UpdateAchievementDto.questId dto) as [[q|]|].
Qed.

(** [update] once the title check has let the patch through. *)
Lemma achievement_update_run id dto s current :
  AchievementRepository.findById id s = Some current ->
  title_free id dto s ->
  AchievementService.update id dto s =
    (let! dto' :=
       if is_private (effective_rarity current dto)
       then
         match UpdateAchievementDto.questId dto with
         | Some (Some q) =>
           let! _ := fetch (AchievementRepository.findQuestById q)
                       (AchievementService.quest_not_found q) in
           ret dto
         | Some None => throw AchievementService.questId_required
         | None =>
           match Achievements.questId current with
           | Some _ => ret dto
           | None => throw AchievementService.questId_required
           end
         end
       else
         match UpdateAchievementDto.rarity dto with
         | Some _ => ret (UpdateAchievementDto.set_questId_null dto)
         | None =>
           match UpdateAchievementDto.questId dto with
           | Some (Some _) => throw AchievementService.questId_forbidden
           | _ => ret dto
           end
         end in
     let! achievement := AchievementRepository.update id dto' in
     or_throw achievement (AchievementService.achievement_not_found id)) s.
Proof.
  intros Hcur Hfree. unfold AchievementService.update, title_free in *.
  unfold bind at 1. unfold fetch at 1. unfold bind at 1, query at 1. rewrite Hcur.
  cbn [or_throw ret]. unfold bind at 1.
  destruct (truthy_str (UpdateAchievementDto.title dto)).
  - unfold bind at 1, query at 1. rewrite (Hfree eq_refl). reflexivity.
  - reflexivity.
Qed.

Lemma achievement_create_inv dto s s' o :
  achievement_inv s -> AchievementService.create dto s = (s', o) -> achievement_inv s'.
Proof.
  intros (Hbind & Hkeys & Hseq) H.
  apply achievement_create_cases in H
    as [[-> _] | (a & -> & -> & Hid & Hr & Hq & Hcheck)]; [done|].
  split; [|split]; simpl.
  - intros a' [Hin | [<- | []]]%in_app_or.
    + eapply binding_same_quests; [|by apply Hbind]. done.
    + unfold binding_ok. rewrite Hq, Hr.
      destruct (is_private (CreateAchievementDto.rarity dto)).
      * destruct Hcheck as (q & -> & Hlive). done.
      * by rewrite Hcheck.
  - rewrite map_app. apply NoDup_snoc; [done|]. simpl. rewrite Hid.
    intros Hin. apply list_elem_of_In, in_map_iff in Hin as (a' & Heq & Hin).
    apply Hseq in Hin. lia.
  - intros a' [Hin | [<- | []]]%in_app_or; [apply Hseq in Hin|]; lia.
Qed.

Lemma achievement_update_inv id dto s s' o :
  achievement_inv s -> AchievementService.update id dto s = (s', o) -> achievement_inv s'.
Proof.
  intros (Hbind & Hkeys & Hseq) H.
  apply achievement_update_cases in H
    as [[-> _] | (current & dto' & Hcur & Hcheck & -> & _)]; [done|].
  apply find_some in Hcur as [Hin_cur Hlive_cur].
  assert (Hids : map Achievements.id
                   (map (fun a => if live_achievement id a
                                  then AchievementRepository.set_row dto' a else a)
                      (achievements s))
                 = map Achievements.id (achievements s)).
  { rewrite map_map. apply map_ext. intros a. by destruct (live_achievement id a). }
  split; [|split]; simpl.
  - intros a' Hin. apply in_map_iff in Hin as (a & <- & Hin).
    destruct (live_achievement id a) eqn:Hlive.
    + assert (a = current) as ->.
      { eapply NoDup_map_inj; eauto. unfold live_achievement in *.
        apply andb_true_iff in Hlive as [->%Pos.eqb_eq _].
        by apply andb_true_iff in Hlive_cur as [->%Pos.eqb_eq _]. }
      apply (binding_same_quests s); [done|].
      eapply binding_check_ok; [by apply Hbind | done].
    + apply (binding_same_quests s); [done|]. by apply Hbind.
  - by rewrite Hids.
  - intros a' Hin. apply in_map_iff in Hin as (a & <- & Hin).
    apply Hseq in Hin. by destruct (live_achievement id a).
Qed.

Lemma find_app_fresh {A} (p : A -> bool) (l : list A) x :
  (forall y, In y l -> p y = false) -> p x = true -> List.find p (l ++ [x]) = Some x.
Proof.
  induction l as [|y l IH]; simpl; intros Hl Hx.
  - now rewrite Hx.
  - rewrite (Hl y (or_introl eq_refl)). apply IH; [|exact Hx].
    intros z Hz. apply Hl. now right.
Qed.

Lemma live_achievement_set_row id dto a :
  live_achievement id (AchievementRepository.set_row dto a) = live_achievement id a.
Proof. reflexivity. Qed.

Lemma achievement_update_stored id dto s s' a :
  AchievementService.update id dto s = (s', Returned a) ->
  AchievementRepository.findById id s' = Some a.
Proof.
  intros H.
  apply achievement_update_cases in H
    as [[_ [e He]] | (current & dto' & Hcur & _ & -> & Ho)]; [discriminate|].
  injection Ho as ->.
  unfold AchievementRepository.findById in *. simpl.
  rewrite find_map_where by (intros x; apply live_achievement_set_row).
  now rewrite Hcur.
Qed.

Lemma achievement_create_stored dto s s' a :
  achievement_inv s ->
  AchievementService.create dto s = (s', Returned a) ->
  achievements s' = (achievements s ++ [a])%list
  /\ AchievementRepository.findById (Achievements.id a) s' = Some a
  /\ Achievements.rarity a = CreateAchievementDto.rarity dto
  /\ Achievements.questId a = mjoin (CreateAchievementDto.questId dto).
Proof.
  intros (_ & _ & Hseq) H.
  assert (Hlive : Achievements.recordStatus a = CREATED).
  { unfold AchievementService.create, AchievementRepository.create in H.
    unfold_call. simpl in H.
    repeat match type of H with
           | context [match ?x with _ => _ end] =>
             destruct x eqn:?; simpl in H; try discriminate H
           end; now injection H as _ <-. }
  apply achievement_create_cases in H
    as [[_ [e He]] | (a' & Ho & -> & Hid & Hr & Hq & _)]; [discriminate|].
  injection Ho as <-. repeat split; try done.
  unfold AchievementRepository.findById. simpl.
  apply find_app_fresh.
  - intros y Hy. apply Hseq in Hy. unfold live_achievement.
    destruct (Pos.eqb_spec (Achievements.id y) (Achievements.id a)); [lia|done].
  - unfold live_achievement. now rewrite Pos.eqb_refl, Hlive.
Qed.

Lemma findById_In id s a :
  AchievementRepository.findById id s = Some a -> In a (achievements s).
Proof. intros H. now apply find_some in H as [Hin _]. Qed.

Lemma achievement_create_accepts dto s :
  AchievementRepository.findByTitle (CreateAchievementDto.title dto) s = None ->
  (if is_private (CreateAchievementDto.rarity dto)
   then exists q, CreateAchievementDto.questId dto = Some (Some q)
                  /\ is_Some (AchievementRepository.findQuestById q s)
   else mjoin (CreateAchievementDto.questId dto) = None) ->
  exists s' a, AchievementService.create dto s = (s', Returned a).
Proof.
  intros Hfree Hok. unfold AchievementService.create, AchievementRepository.create.
  unfold_call. rewrite Hfree. simpl.
  destruct (is_private (CreateAchievementDto.rarity dto)).
  - destruct Hok as (q & -> & [quest Hquest]). rewrite Hquest. simpl. eauto.
  - destruct (CreateAchievementDto.questId dto) as [[q|]|]; [discriminate| |]; simpl; eauto.
Qed.

(** C8 (amended): on a store where every achievement satisfies the rarity
    and quest binding invariant, [create] and [update] leave a store that
    satisfies it again, whatever they return or throw; a call that throws
    leaves the store as it was, and the row a call returns is the row found
    in the store afterwards, and it satisfies the invariant there.  [create]
    appends the row with the rarity and quest of the request; with a free
    title it rejects private without a quest and any other rarity with one,
    both with BadRequest, and accepts private with a live quest and any
    other rarity without one.  [update] of an existing achievement, the
    title check apart: a patch that names a non-private rarity is stored
    with [questId] null, a quest supplied with it being discarded; a patch
    that names no rarity and supplies a quest while the stored rarity is not
    private is rejected with the BadRequest of the binding; and when the
    effective rarity is private and the patch has no [questId], the stored
    one is kept, with BadRequest only if there is none. *)
Theorem achievement_binding_preserved s :
  achievement_inv s ->
  (forall dto s' o,
     AchievementService.create dto s = (s', o) ->
     achievement_inv s' /\
     (forall e, o = Thrown e -> s' = s) /\
     (forall a, o = Returned a ->
        achievements s' = (achievements s ++ [a])%list /\
        AchievementRepository.findById (Achievements.id a) s' = Some a /\
        Achievements.rarity a = CreateAchievementDto.rarity dto /\
        Achievements.questId a = mjoin (CreateAchievementDto.questId dto) /\
        binding_ok s' a) /\
     (AchievementRepository.findByTitle (CreateAchievementDto.title dto) s = None ->
      (CreateAchievementDto.rarity dto = private ->
       mjoin (CreateAchievementDto.questId dto) = None ->
       s' = s /\ o = Thrown AchievementService.questId_required) /\
      (CreateAchievementDto.rarity dto <> private ->
       is_Some (mjoin (CreateAchievementDto.questId dto)) ->
       s' = s /\ o = Thrown AchievementService.questId_forbidden) /\
      (CreateAchievementDto.rarity dto = private ->
       forall q, CreateAchievementDto.questId dto = Some (Some q) ->
                 is_Some (AchievementRepository.findQuestById q s) ->
                 exists a, o = Returned a) /\
      (CreateAchievementDto.rarity dto <> private ->
       mjoin (CreateAchievementDto.questId dto) = None ->
       exists a, o = Returned a))) /\
  (forall id dto current s' o,
     AchievementRepository.findById id s = Some current ->
     AchievementService.update id dto s = (s', o) ->
     achievement_inv s' /\
     (forall e, o = Thrown e -> s' = s) /\
     (forall a, o = Returned a ->
        AchievementRepository.findById id s' = Some a /\ binding_ok s' a) /\
     (forall r,
        UpdateAchievementDto.rarity dto = Some r -> r <> private ->
        title_free id dto s ->
        exists a, o = Returned a /\ Achievements.rarity a = r
                  /\ Achievements.questId a = None
                  /\ AchievementRepository.findById id s' = Some a) /\
     (UpdateAchievementDto.rarity dto = None ->
      Achievements.rarity current <> private ->
      is_Some (mjoin (UpdateAchievementDto.questId dto)) ->
      s' = s /\ exists e, o = Thrown e
                /\ (title_free id dto s -> e = AchievementService.questId_forbidden)) /\
     (effective_rarity current dto = private ->
      UpdateAchievementDto.questId dto = None ->
      title_free id dto s ->
      match Achievements.questId current with
      | Some q => exists a, o = Returned a /\ Achievements.rarity a = private
                            /\ Achievements.questId a = Some q
                            /\ AchievementRepository.findById id s' = Some a
      | None => s' = s /\ o = Thrown AchievementService.questId_required
      end)).
Proof.
  intros Hinv. split.
  - intros dto s' o H.
    pose proof (achievement_create_inv _ _ _ _ Hinv H) as Hinv'.
    split; [exact Hinv'|]. split; [|split].
    + intros e ->. apply achievement_create_cases in H as [[-> _] | (a & Ho & _)]; done.
    + intros a ->.
      destruct (achievement_create_stored _ _ _ _ Hinv H) as (Hrows & Hfind & Hr & Hq).
      repeat split; try done.
      apply Hinv'. by apply (findById_In (Achievements.id a)).
    + intros Hfree.
      assert (Hrej :
        (CreateAchievementDto.rarity dto = private ->
         mjoin (CreateAchievementDto.questId dto) = None ->
         s' = s /\ o = Thrown AchievementService.questId_required) /\
        (CreateAchievementDto.rarity dto <> private ->
         is_Some (mjoin (CreateAchievementDto.questId dto)) ->
         s' = s /\ o = Thrown AchievementService.questId_forbidden)).
      { pose proof H as H0. unfold AchievementService.create in H0. unfold_call.
        rewrite Hfree in H0. simpl in H0. split.
        - intros Hr Hnone. rewrite Hr in H0. simpl in H0.
          destruct (CreateAchievementDto.questId dto) as [[q|]|]; [done| |];
            by simplify_eq.
        - intros Hr [q Hq].
          destruct (CreateAchievementDto.rarity dto); try done;
            destruct (CreateAchievementDto.questId dto) as [[q'|]|]; try done;
            simpl in H0; by simplify_eq. }
      destruct Hrej as [Hreq Hforb]. split; [exact Hreq|]. split; [exact Hforb|]. split.
      * intros Hr q Hq Hquest.
        destruct (achievement_create_accepts dto s Hfree) as (s2 & a & Hrun).
        { rewrite Hr. simpl. eauto. }
        rewrite Hrun in H. injection H as _ <-. eauto.
      * intros Hr Hnone.
        destruct (achievement_create_accepts dto s Hfree) as (s2 & a & Hrun).
        { assert (is_private (CreateAchievementDto.rarity dto) = false) as ->
            by (by destruct (CreateAchievementDto.rarity dto)). exact Hnone. }
        rewrite Hrun in H. injection H as _ <-. eauto.
  - intros id dto current s' o Hcur H.
    pose proof (achievement_update_inv _ _ _ _ _ Hinv H) as Hinv'.
    split; [exact Hinv'|]. split; [|split; [|split; [|split]]].
    + intros e ->. apply achievement_update_cases in H as [[-> _] | (c & d & _ & _ & _ & Ho)];
        done.
    + intros a ->. pose proof (achievement_update_stored _ _ _ _ _ H) as Hstored.
      split; [exact Hstored|]. apply Hinv'. by apply (findById_In id).
    + intros r Hr Hnp Hfree. pose proof H as Hrun.
      rewrite (achievement_update_run _ _ _ _ Hcur Hfree) in H.
      unfold effective_rarity in H. rewrite Hr in H. simpl in H.
      assert (is_private r = false) as Hp by (by destruct r). rewrite Hp in H.
      unfold_call. unfold AchievementRepository.update in H. rewrite Hcur in H.
      simpl in H. injection H as <- <-. eexists. split; [done|]. simpl.
      rewrite Hr. repeat split; try done.
      by apply (achievement_update_stored _ _ _ _ _ Hrun).
    + intros Hr Hnp [q Hq].
      assert (UpdateAchievementDto.questId dto = Some (Some q)) as Hq'.
      { destruct (UpdateAchievementDto.questId dto) as [[q'|]|]; try done.
        simpl in Hq. by injection Hq as ->. }
      assert (is_private (effective_rarity current dto) = false) as Hp.
      { unfold effective_rarity. rewrite Hr. simpl.
        by destruct (Achievements.rarity current). }
      pose proof H as Hrun.
      apply achievement_update_cases in H
        as [[-> [e ->]] | (current' & dto' & Hcur' & Hcheck & _)].
      * split; [done|]. exists e. split; [done|]. intros Hfree.
        rewrite (achievement_update_run _ _ _ _ Hcur Hfree) in Hrun.
        rewrite Hp, Hr, Hq' in Hrun. unfold_call. by simplify_eq.
      * exfalso. unfold binding_check in Hcheck. rewrite Hcur in Hcur'.
        injection Hcur' as <-. rewrite Hp, Hr, Hq' in Hcheck. by destruct Hcheck.
    + intros Hpriv Hnone Hfree. pose proof H as Hrun.
      rewrite (achievement_update_run _ _ _ _ Hcur Hfree) in H.
      rewrite Hpriv, Hnone in H. simpl in H.
      destruct (Achievements.questId current) as [q|] eqn:Hq.
      * unfold_call. unfold AchievementRepository.update in H. rewrite Hcur in H.
        simpl in H. injection H as <- <-. eexists. split; [done|]. simpl.
        rewrite Hnone, Hq. split; [|split; [done|]].
        { unfold effective_rarity in Hpriv. done. }
        by apply (achievement_update_stored _ _ _ _ _ Hrun).
      * unfold_call. by simplify_eq.
Qed.

(** ** Failures and writes, method by method *)

(** C4 (amended): a validation failure leaves the store as it was when it is
    thrown by [joinQuest], [leaveQuest], [completeQuest], [remove], by any
    of the reading methods of the quest service ([findOne], [findAll],
    [findByStatus], [getUserQuests], [getAvailableQuests]), or by any method
    of the achievement service ([create], [update], [remove],
    [assignToUser], [findOne], [findAll], [getUserAchievements]).
    [archiveQuest] and [unarchiveQuest] raise the NotFound of a quest that
    does not exist before any write.  [updateRequirementCurrentValue] and
    [update] do so for every BadRequest and for the NotFound of a quest that
    does not exist, [update] also for the NotFound of a missing achievement,
    city or organization type.  [create] does so for the NotFound of the
    user and for the Forbidden of the level gate, and for every validation
    failure when the request carries no inline achievement. *)
Theorem validation_failures_before_writes now s s' e :
  is_validation_failure e = true ->
  (forall userId questId,
     QuestService.joinQuest now userId questId s = (s', Thrown e) -> s' = s) /\
  (forall userId questId,
     QuestService.leaveQuest userId questId s = (s', Thrown e) -> s' = s) /\
  (forall userId questId,
     QuestService.completeQuest now userId questId s = (s', Thrown e) -> s' = s) /\
  (forall id, QuestService.remove now id s = (s', Thrown e) -> s' = s) /\
  (forall id,
     QuestService.archiveQuest now id s = (s', Thrown e) ->
     QuestRepository.findByIdBasic id s = None -> s' = s) /\
  (forall id,
     QuestService.unarchiveQuest now id s = (s', Thrown e) ->
     QuestRepository.findByIdBasic id s = None -> s' = s) /\
  (forall questId stepIndex dto,
     QuestService.updateRequirementCurrentValue now questId stepIndex dto s
     = (s', Thrown e) ->
     (exists m, e = BadRequestException m)
     \/ QuestRepository.findByIdBasic questId s = None ->
     s' = s) /\
  (forall id dto,
     QuestService.update now id dto s = (s', Thrown e) ->
     (exists m, e = BadRequestException m)
     \/ QuestRepository.findByIdBasic id s = None
     \/ (exists a, e = QuestService.achievement_not_found a)
     \/ (exists c, e = QuestService.city_not_found c)
     \/ (exists o, e = QuestService.organizationType_not_found o) ->
     s' = s) /\
  (forall dto userId,
     QuestService.create now dto userId s = (s', Thrown e) ->
     CreateQuestDto.achievement dto = None
     \/ e = QuestService.user_not_found userId
     \/ (exists m, e = ForbiddenException m) ->
     s' = s) /\
  (forall id, QuestService.findOne id s = (s', Thrown e) -> s' = s) /\
  (forall cityId categoryId,
     QuestService.findAll cityId categoryId s = (s', Thrown e) -> s' = s) /\
  (forall status cityId categoryId,
     QuestService.findByStatus status cityId categoryId s = (s', Thrown e) -> s' = s) /\
  (forall userId, QuestService.getUserQuests userId s = (s', Thrown e) -> s' = s) /\
  (forall userId, QuestService.getAvailableQuests userId s = (s', Thrown e) -> s' = s) /\
  (forall dto, AchievementService.create dto s = (s', Thrown e) -> s' = s) /\
  (forall id dto, AchievementService.update id dto s = (s', Thrown e) -> s' = s) /\
  (forall id, AchievementService.remove id s = (s', Thrown e) -> s' = s) /\
  (forall userId achievementId,
     AchievementService.assignToUser now userId achievementId s = (s', Thrown e) ->
     s' = s) /\
  (forall id, AchievementService.findOne id s = (s', Thrown e) -> s' = s) /\
  (AchievementService.findAll s = (s', Thrown e) -> s' = s) /\
  (forall userId,
     AchievementService.getUserAchievements userId s = (s', Thrown e) -> s' = s).
Proof.
  intros Hval. repeat split.
  - intros userId questId. apply (joinQuest_thrown now).
  - intros userId questId. apply leaveQuest_thrown.
  - intros userId questId. apply (completeQuest_thrown now).
  - intros id. apply (remove_thrown now).
  - intros id. apply (archiveQuest_thrown now).
  - intros id. apply (unarchiveQuest_thrown now).
  - intros questId stepIndex dto. apply (updateRequirement_thrown now).
  - intros id dto. apply (update_thrown now).
  - intros dto userId H. by apply (create_thrown now dto userId).
  - intros id H. eapply readonly_elim; [exact H|apply readonly_findOne].
  - intros c k H. eapply readonly_elim; [exact H|apply readonly_service_findAll].
  - intros st c k H. eapply readonly_elim; [exact H|apply readonly_service_findByStatus].
  - intros u H. eapply readonly_elim; [exact H|apply readonly_getUserQuests].
  - intros u H. eapply readonly_elim; [exact H|apply readonly_getAvailableQuests].
  - intros dto H. by apply achievement_create_cases in H as [[-> _] | (a & Ho & _)].
  - intros id dto H.
    by apply achievement_update_cases in H as [[-> _] | (c & d & _ & _ & _ & Ho)].
  - intros id. apply achievement_remove_thrown.
  - intros u a. apply (assignToUser_thrown now).
  - intros id H. eapply readonly_elim; [exact H|apply readonly_achievement_findOne].
  - intros H. eapply readonly_elim; [exact H|apply readonly_achievement_findAll].
  - intros u H. eapply readonly_elim; [exact H|apply readonly_getUserAchievements].
Qed.

(** ** The theorems at work on the demo store *)

Lemma completeQuest_second_call_conflict_witness :
  (exists s1 r, QuestService.completeQuest 9 1 1 demo_store = (s1, Returned r)) /\
  snd (QuestService.completeQuest 10 1 1 (fst (QuestService.completeQuest 9 1 1 demo_store)))
  = Thrown (ConflictException "Квест уже выполнен"%string).
Proof.
  destruct (QuestService.completeQuest 9 1 1 demo_store) as [s1 [r|e]] eqn:Hfirst;
    [|by vm_compute in Hfirst].
  split; [by eauto|].
  destruct (completeQuest_second_call_conflict 9 10 1 1 demo_store s1 r Hfirst)
    as (_ & Hsecond & _).
  simpl. by rewrite Hsecond.
Defined.

Lemma completeQuest_needs_only_open_participation_witness :
  Quests.status (demo_quest 2 1 archived 20 (Some 1%positive) 3) = archived /\
  exists s' r row' user',
    QuestService.completeQuest 9 1 2 demo_store = (s', Returned r) /\
    QuestRepository.findUserQuest 1 2 s' = Some row' /\
    UserQuests.status row' = uq_completed /\
    UserQuests.completedAt row' = Some 9 /\
    QuestService.select_user 1 s' = Some user' /\
    Users.experience user' = 100 + 20.
Proof.
  split; [reflexivity|].
  refine (completeQuest_needs_only_open_participation 9 1 2 demo_store alice
            (demo_quest 2 1 archived 20 (Some 1%positive) 3) (joined 2 1 2) _ _ _ _);
    [reflexivity | reflexivity | reflexivity | simpl; discriminate].
Defined.

Lemma updateRequirement_accepts_exactly_the_range_witness :
  ((exists s' r,
      QuestService.updateRequirementCurrentValue 9 1 0 {| dto_currentValue := 10 |} demo_store
      = (s', Returned r))
   <-> 0 <= 10 <= 10) /\
  (~ 0 <= 10 <= 10 ->
   exists m,
     QuestService.updateRequirementCurrentValue 9 1 0 {| dto_currentValue := 10 |} demo_store
     = (demo_store, Thrown (BadRequestException m))).
Proof.
  refine (updateRequirement_accepts_exactly_the_range 9 1 0 {| dto_currentValue := 10 |}
            demo_store (demo_quest 1 1 active 50 None 0) [step_of 0 10] (step_of 0 10)
            demo_requirement 10 alice _ _ _ _ _ _ _ _);
    [reflexivity | reflexivity | reflexivity | lia | reflexivity | reflexivity
    | reflexivity | reflexivity].
Defined.

(** C2 as stated fails: quest 3 is active and its step 0 carries a
    requirement with target 10, the value 5 is within range, and yet the call
    throws: the write went through, and the final re-read finds no row
    because the quest's owner is soft-deleted. *)
Lemma updateRequirement_in_range_can_throw :
  QuestRepository.findByIdBasic 3 demo_store = Some (demo_quest 3 2 active 5 None 0) /\
  Quests.status (demo_quest 3 2 active 5 None 0) = active /\
  Quests.steps (demo_quest 3 2 active 5 None 0) = Some [step_of 0 10] /\
  requirement (step_of 0 10) = Some demo_requirement /\
  targetValue demo_requirement = Some 10 /\
  0 <= 5 <= 10 /\
  ~ (exists s' r,
       QuestService.updateRequirementCurrentValue 9 3 0 {| dto_currentValue := 5 |} demo_store
       = (s', Returned r)) /\
  snd (QuestService.updateRequirementCurrentValue 9 3 0 {| dto_currentValue := 5 |} demo_store)
  = Thrown (QuestService.quest_not_found 3) /\
  (Quests.steps <$> QuestRepository.findByIdBasic 3
     (fst (QuestService.updateRequirementCurrentValue 9 3 0 {| dto_currentValue := 5 |}
             demo_store)))
  = Some (Some [step_of 5 10]).
Proof.
  repeat split; try reflexivity; try lia.
  intros (s' & r & Hrun). by vm_compute in Hrun.
Qed.

Lemma updateRequirement_rejects_inactive_quest_witness :
  QuestService.updateRequirementCurrentValue 9 2 0 {| dto_currentValue := 5 |} demo_store
  = (demo_store,
     Thrown (BadRequestException
               "Квест со статусом 'archived' не может быть изменен"%string)).
Proof.
  refine (updateRequirement_rejects_inactive_quest 9 2 0 {| dto_currentValue := 5 |}
            demo_store (demo_quest 2 1 archived 20 (Some 1%positive) 3) _ _);
    [reflexivity | left; reflexivity].
Defined.

Lemma updateRequirement_touches_one_value_witness :
  exists s' r quest quest' steps steps' step step' req,
    QuestService.updateRequirementCurrentValue 9 1 0 {| dto_currentValue := 7 |} demo_store
    = (s', Returned r) /\
    QuestRepository.findByIdBasic 1 demo_store = Some quest /\
    Quests.steps quest = Some steps /\
    steps !! Z.to_nat 0 = Some step /\
    requirement step = Some req /\
    QuestRepository.findByIdBasic 1 s' = Some quest' /\
    Quests.steps quest' = Some steps' /\
    length steps' = length steps /\
    (forall j, j <> Z.to_nat 0 -> steps' !! j = steps !! j) /\
    steps' !! Z.to_nat 0 = Some step' /\
    step_title step' = step_title step /\
    step_description step' = step_description step /\
    step_status step' = step_status step /\
    step_progress step' = step_progress step /\
    deadline step' = deadline step /\
    requirement step' = Some {| currentValue := Some 7; targetValue := targetValue req |} /\
    events s' = (events demo_store ++ [RequirementUpdated 1 (Some steps')])%list.
Proof.
  destruct (QuestService.updateRequirementCurrentValue 9 1 0 {| dto_currentValue := 7 |}
              demo_store) as [s' [r|e]] eqn:Hrun; [|by vm_compute in Hrun].
  destruct (updateRequirement_touches_one_value 9 1 0 {| dto_currentValue := 7 |}
              demo_store s' r Hrun)
    as (quest & quest' & steps & steps' & step & step' & req & H).
  exists s', r, quest, quest', steps, steps', step, step', req. split; [done|exact H].
Defined.

Lemma update_writes_only_what_the_patch_names_witness :
  (exists r,
     QuestService.update 9 1 UpdateQuestDto.empty demo_store
     = (with_quests
          (map (fun q => if live_quest 1 q then Quests.set_updatedAt 9 q else q)
             (quests demo_store))
          (quests_seq demo_store) demo_store, Returned r)
     /\ qr_quest (qd_quest r) = Quests.set_updatedAt 9 (demo_quest 1 1 active 50 None 0)) /\
  (exists r,
     QuestService.update 9 1 (UpdateQuestDto.only_gallery []) demo_store
     = (with_quests
          (map (fun q => if live_quest 1 q
                         then Quests.set_updatedAt 9 (Quests.set_gallery (Some []) q)
                         else q)
             (quests demo_store))
          (quests_seq demo_store) demo_store, Returned r)
     /\ Quests.gallery (qr_quest (qd_quest r)) = Some []) /\
  exists quest',
    QuestRepository.findByIdBasic 1
      (fst (QuestService.update 9 1 demo_progress_patch demo_store)) = Some quest'
    /\ Quests.title quest' = "Q"%string
    /\ Quests.gallery quest' = Some ["a.png"%string; "b.png"%string]
    /\ Quests.steps quest' = Some [step_of 5 10].
Proof.
  destruct (update_writes_only_what_the_patch_names 9 1 demo_store
              (demo_quest 1 1 active 50 None 0) eq_refl)
    as ((o1 & Hempty & Hret1 & _) & (o2 & Hgallery & Hret2 & _) & Hany).
  split; [|split].
  - destruct (Hret1 (ex_intro _ alice eq_refl)) as (r & -> & Hr). exists r. by split.
  - destruct (Hret2 (ex_intro _ alice eq_refl)) as (r & -> & Hr). exists r.
    split; [done|]. by rewrite Hr.
  - destruct (QuestService.update 9 1 demo_progress_patch demo_store) as [s' o] eqn:Hrun.
    destruct (Hany demo_progress_patch s' o Hrun)
      as (quest' & Hq' & Htitle & _ & _ & _ & _ & _ & _ & _ & _ & _ & _ & _ & Hgal & _).
    exists quest'. split; [exact Hq'|]. split; [by rewrite Htitle|].
    split; [by rewrite Hgal|].
    vm_compute in Hrun. injection Hrun as <- _. vm_compute in Hq'. by injection Hq' as <-.
Defined.

(** C9 as stated fails: quest 3 exists, its owner is soft-deleted; the patch
    [{ gallery: [] }] is stored and the call then throws NotFound, a
    validation error, from the final re-read. *)
Lemma update_clears_gallery_then_throws :
  QuestRepository.findByIdBasic 3 demo_store = Some (demo_quest 3 2 active 5 None 0) /\
  snd (QuestService.update 9 3 (UpdateQuestDto.only_gallery []) demo_store)
  = Thrown (QuestService.quest_not_found 3) /\
  is_validation_failure (QuestService.quest_not_found 3) = true /\
  (Quests.gallery <$> QuestRepository.findByIdBasic 3
     (fst (QuestService.update 9 3 (UpdateQuestDto.only_gallery []) demo_store)))
  = Some (Some []) /\
  snd (QuestService.update 9 3 UpdateQuestDto.empty demo_store)
  = Thrown (QuestService.quest_not_found 3).
Proof. repeat split; reflexivity. Qed.

(** C4 as stated fails: [create] with an inline achievement and a city that
    does not exist throws NotFound for the city, and the achievement row it
    inserted before looking the city up stays in the store. *)
Lemma create_leaves_achievement_behind_on_missing_city :
  snd (QuestService.create 9 demo_create_in_missing_city 1 demo_store)
  = Thrown (QuestService.city_not_found 99) /\
  is_validation_failure (QuestService.city_not_found 99) = true /\
  fst (QuestService.create 9 demo_create_in_missing_city 1 demo_store) <> demo_store /\
  achievements (fst (QuestService.create 9 demo_create_in_missing_city 1 demo_store))
  = [ badge;
      {| Achievements.id := 2; Achievements.title := "Medal"%string;
         Achievements.description := None; Achievements.icon := None;
         Achievements.rarity := private; Achievements.questId := None;
         Achievements.recordStatus := CREATED |} ].
Proof.
  repeat split; try reflexivity.
  intros Heq. apply (f_equal achievements_seq) in Heq. vm_compute in Heq. discriminate.
Qed.

(** The same for [update]: a patch whose categories do not all exist throws
    NotFound after the quest row has been rewritten and the quest's category
    associations deleted. *)
Lemma update_drops_categories_before_rejecting_them :
  let patch :=
    {| UpdateQuestDto.title := Some "Renamed"%string;
       UpdateQuestDto.description := None; UpdateQuestDto.status := None;
       UpdateQuestDto.experienceReward := None; UpdateQuestDto.achievementId := None;
       UpdateQuestDto.cityId := None; UpdateQuestDto.organizationTypeId := None;
       UpdateQuestDto.latitude := None; UpdateQuestDto.longitude := None;
       UpdateQuestDto.address := None; UpdateQuestDto.contacts := None;
       UpdateQuestDto.coverImage := None; UpdateQuestDto.gallery := None;
       UpdateQuestDto.steps := None; UpdateQuestDto.categoryIds := Some [77%positive] |} in
  snd (QuestService.update 9 1 patch demo_store) = Thrown QuestService.categories_not_found /\
  questCategories demo_store
  = [ {| QuestCategories.questId := 1; QuestCategories.categoryId := 1 |} ] /\
  questCategories (fst (QuestService.update 9 1 patch demo_store)) = [] /\
  (Quests.title <$> QuestRepository.findByIdBasic 1 (fst (QuestService.update 9 1 patch demo_store)))
  = Some "Renamed"%string.
Proof. repeat split; reflexivity. Qed.

Lemma validation_failures_before_writes_witness :
  QuestService.create 9 demo_create 3 demo_store_with_carol
  = (demo_store_with_carol, Thrown QuestService.level_too_low) /\
  QuestService.update 9 1 demo_move_to_missing_city demo_store
  = (demo_store, Thrown (QuestService.city_not_found 99)) /\
  QuestService.joinQuest 9 1 1 demo_store
  = (demo_store,
     Thrown (ConflictException "Пользователь уже присоединился к этому квесту"%string)) /\
  QuestService.archiveQuest 9 99 demo_store
  = (demo_store, Thrown (QuestService.quest_not_found 99)) /\
  AchievementService.create private_without_quest demo_store
  = (demo_store, Thrown AchievementService.questId_required).
Proof.
  split; [|split; [|split; [|split]]].
  - assert (Hrun : QuestService.create 9 demo_create 3 demo_store_with_carol
                   = (fst (QuestService.create 9 demo_create 3 demo_store_with_carol),
                      Thrown QuestService.level_too_low)) by (vm_compute; reflexivity).
    destruct (validation_failures_before_writes 9 demo_store_with_carol
                (fst (QuestService.create 9 demo_create 3 demo_store_with_carol))
                QuestService.level_too_low eq_refl)
      as (_ & _ & _ & _ & _ & _ & _ & _ & Hcreate & _).
    assert (Hsame : fst (QuestService.create 9 demo_create 3 demo_store_with_carol)
                    = demo_store_with_carol).
    { apply (Hcreate demo_create 3%positive Hrun). right. right. by eexists. }
    rewrite Hrun at 1. by rewrite Hsame.
  - assert (Hrun : QuestService.update 9 1 demo_move_to_missing_city demo_store
                   = (fst (QuestService.update 9 1 demo_move_to_missing_city demo_store),
                      Thrown (QuestService.city_not_found 99))) by (vm_compute; reflexivity).
    destruct (validation_failures_before_writes 9 demo_store
                (fst (QuestService.update 9 1 demo_move_to_missing_city demo_store))
                (QuestService.city_not_found 99) eq_refl)
      as (_ & _ & _ & _ & _ & _ & _ & Hupdate & _).
    assert (Hsame : fst (QuestService.update 9 1 demo_move_to_missing_city demo_store)
                    = demo_store).
    { apply (Hupdate 1%positive demo_move_to_missing_city Hrun).
      right. right. right. left. by eexists. }
    rewrite Hrun at 1. by rewrite Hsame.
  - assert (Hrun : QuestService.joinQuest 9 1 1 demo_store
                   = (fst (QuestService.joinQuest 9 1 1 demo_store),
                      Thrown (ConflictException
                                "Пользователь уже присоединился к этому квесту"%string)))
      by (vm_compute; reflexivity).
    destruct (validation_failures_before_writes 9 demo_store
                (fst (QuestService.joinQuest 9 1 1 demo_store))
                (ConflictException "Пользователь уже присоединился к этому квесту"%string)
                eq_refl) as (Hjoin & _).
    pose proof (Hjoin 1%positive 1%positive Hrun) as Hsame.
    rewrite Hrun at 1. by rewrite Hsame.
  - assert (Hrun : QuestService.archiveQuest 9 99 demo_store
                   = (fst (QuestService.archiveQuest 9 99 demo_store),
                      Thrown (QuestService.quest_not_found 99)))
      by (vm_compute; reflexivity).
    destruct (validation_failures_before_writes 9 demo_store
                (fst (QuestService.archiveQuest 9 99 demo_store))
                (QuestService.quest_not_found 99) eq_refl)
      as (_ & _ & _ & _ & Harchive & _).
    pose proof (Harchive 99%positive Hrun eq_refl) as Hsame.
    rewrite Hrun at 1. by rewrite Hsame.
  - assert (Hrun : AchievementService.create private_without_quest demo_store
                   = (fst (AchievementService.create private_without_quest demo_store),
                      Thrown AchievementService.questId_required))
      by (vm_compute; reflexivity).
    destruct (validation_failures_before_writes 9 demo_store
                (fst (AchievementService.create private_without_quest demo_store))
                AchievementService.questId_required eq_refl)
      as (_ & _ & _ & _ & _ & _ & _ & _ & _ & _ & _ & _ & _ & _ & Hach & _).
    pose proof (Hach private_without_quest Hrun) as Hsame.
    rewrite Hrun at 1. by rewrite Hsame.
Defined.

(** The NotFound that [archiveQuest] is not covered for: quest 3 exists, its
    owner is soft-deleted; the status is written and the final re-read
    throws. *)
Lemma archiveQuest_writes_then_throws :
  snd (QuestService.archiveQuest 9 3 demo_store) = Thrown (QuestService.quest_not_found 3) /\
  (Quests.status <$> QuestRepository.findByIdBasic 3 demo_store) = Some active /\
  (Quests.status <$> QuestRepository.findByIdBasic 3
     (fst (QuestService.archiveQuest 9 3 demo_store))) = Some archived.
Proof. repeat split; reflexivity. Qed.

Lemma demo_store_participation_inv : participation_inv demo_store.
Proof.
  split; [|split].
  - unfold participation_unique. by apply (bool_decide_unpack (NoDup _)).
  - intros q Hin. simpl in Hin. destruct Hin as [<-|[<-|[<-|[]]]]; simpl; lia.
  - intros r Hin. simpl in Hin. destruct Hin as [<-|[<-|[]]]; simpl; lia.
Defined.



Lemma demo_store_achievement_inv : achievement_inv demo_store.
Proof.
  split; [|split].
  - intros a [<-|[]]. split; [reflexivity|]. by eexists.
  - by apply (bool_decide_unpack (NoDup _)).
  - intros a [<-|[]]. simpl. lia.
Defined.

Lemma demo_store_with_medal_inv : achievement_inv demo_store_with_medal.
Proof.
  split; [|split].
  - intros a [<-|[<-|[]]]; [split; [reflexivity|]; by eexists|reflexivity].
  - by apply (bool_decide_unpack (NoDup _)).
  - intros a [<-|[<-|[]]]; simpl; lia.
Defined.

Lemma achievement_binding_preserved_witness :
  AchievementService.create private_without_quest demo_store
  = (demo_store, Thrown AchievementService.questId_required) /\
  (exists a,
     snd (AchievementService.create common_star demo_store) = Returned a /\
     achievements (fst (AchievementService.create common_star demo_store)) = [badge; a] /\
     Achievements.rarity a = common /\ Achievements.questId a = None) /\
  achievement_inv (fst (AchievementService.update 1 make_common demo_store)) /\
  (exists a,
     snd (AchievementService.update 1 make_common demo_store) = Returned a /\
     Achievements.rarity a = common /\ Achievements.questId a = None /\
     AchievementRepository.findById 1 (fst (AchievementService.update 1 make_common demo_store))
     = Some a) /\
  AchievementService.update 2 only_quest_3 demo_store_with_medal
  = (demo_store_with_medal, Thrown AchievementService.questId_forbidden).
Proof.
  destruct (achievement_binding_preserved demo_store demo_store_achievement_inv)
    as [Hcreate Hupdate].
  destruct (achievement_binding_preserved demo_store_with_medal demo_store_with_medal_inv)
    as [_ Hupdate'].
  split; [|split; [|split; [|split]]].
  - destruct (AchievementService.create private_without_quest demo_store) as [s' o] eqn:Hrun.
    destruct (Hcreate _ _ _ Hrun) as (_ & _ & _ & Hreject).
    destruct (Hreject eq_refl) as [Hprivate _].
    destruct (Hprivate eq_refl eq_refl) as [-> ->]. reflexivity.
  - destruct (AchievementService.create common_star demo_store) as [s' o] eqn:Hrun.
    destruct (Hcreate _ _ _ Hrun) as (_ & _ & Hstored & Haccept).
    destruct (Haccept eq_refl) as (_ & _ & _ & Hcommon).
    destruct Hcommon as [a ->]; [discriminate|reflexivity|].
    destruct (Hstored a eq_refl) as (Hrows & _ & Hr & Hq & _).
    exists a. by repeat split.
  - destruct (AchievementService.update 1 make_common demo_store) as [s' o] eqn:Hrun.
    by destruct (Hupdate 1%positive make_common badge s' o eq_refl Hrun) as [Hinv _].
  - destruct (AchievementService.update 1 make_common demo_store) as [s' o] eqn:Hrun.
    destruct (Hupdate 1%positive make_common badge s' o eq_refl Hrun) as (_ & _ & _ & Hflip & _).
    apply (Hflip common eq_refl); [discriminate | by intros ?].
  - destruct (AchievementService.update 2 only_quest_3 demo_store_with_medal)
      as [s' o] eqn:Hrun.
    destruct (Hupdate' 2%positive only_quest_3 medal s' o eq_refl Hrun)
      as (_ & _ & _ & _ & Hreject & _).
    destruct (Hreject eq_refl) as (-> & e & -> & He); [discriminate|by eexists|].
    rewrite He; [reflexivity|]. by intros ?.
Defined.

(** C8 as stated fails: the medal is common and stays non-private under a
    patch that names the rarity epic and supplies quest 3; the effective
    rarity is not private and a quest is supplied, and yet [update] does not
    reject the patch: it returns, and the row is stored with the new rarity
    and no quest. *)
Lemma update_discards_questId_named_with_rarity :
  AchievementRepository.findById 2 demo_store_with_medal = Some medal /\
  Achievements.rarity medal = common /\
  effective_rarity medal epic_with_quest = epic /\
  UpdateAchievementDto.questId epic_with_quest = Some (Some 3%positive) /\
  (exists a,
     snd (AchievementService.update 2 epic_with_quest demo_store_with_medal) = Returned a /\
     Achievements.rarity a = epic /\ Achievements.questId a = None /\
     AchievementRepository.findById 2
       (fst (AchievementService.update 2 epic_with_quest demo_store_with_medal))
     = Some a) /\
  UpdateAchievementDto.refine epic_with_quest = false.
Proof. repeat split; try reflexivity. eexists. repeat split; reflexivity. Qed.

(** ** Grants of [completeQuest] *)

(** A quest without achievement still reaches the insert: nothing matches a
    null [achievementId], so the existence check finds no row. *)
Lemma select_userAchievement_null userId s :
  select_userAchievement userId None s = None.
Proof.
  unfold select_userAchievement. induction (userAchievements s) as [|r l IH]; [done|].
  simpl. unfold grant_matches at 1. by rewrite andb_false_r.
Qed.

Lemma completeQuest_unbound_quest_grants now userId questId s user quest userQuest :
  select_user userId s = Some user ->
  findByIdBasic questId s = Some quest ->
  findUserQuest userId questId s = Some userQuest ->
  UserQuests.status userQuest <> uq_completed ->
  Quests.achievementId quest = None ->
  userAchievements (fst (completeQuest now userId questId s))
  = (userAchievements s ++
     [{| UserAchievements.id := userAchievements_seq s;
         UserAchievements.userId := userId;
         UserAchievements.achievementId := None;
         UserAchievements.unlockedAt := now |}])%list.
Proof.
  intros Hu Hq Hrow Hopen Hnone.
  destruct (completeQuest_run now _ _ _ _ _ _ Hu Hq Hrow Hopen)
    as (s' & r & Hrun & _ & _ & _ & Hgrants & _).
  rewrite Hrun. simpl. rewrite Hgrants, Hnone. by rewrite select_userAchievement_null.
Qed.

(** With a bound achievement the grant is inserted exactly when the user
    holds none for it. *)
Lemma completeQuest_bound_quest_grants now userId questId s user quest userQuest a :
  select_user userId s = Some user ->
  findByIdBasic questId s = Some quest ->
  findUserQuest userId questId s = Some userQuest ->
  UserQuests.status userQuest <> uq_completed ->
  Quests.achievementId quest = Some a ->
  userAchievements (fst (completeQuest now userId questId s))
  = match select_userAchievement userId (Some a) s with
    | Some _ => userAchievements s
    | None =>
      (userAchievements s ++
       [{| UserAchievements.id := userAchievements_seq s;
           UserAchievements.userId := userId;
           UserAchievements.achievementId := Some a;
           UserAchievements.unlockedAt := now |}])%list
    end.
Proof.
  intros Hu Hq Hrow Hopen Hsome.
  destruct (completeQuest_run now _ _ _ _ _ _ Hu Hq Hrow Hopen)
    as (s' & r & Hrun & _ & _ & _ & Hgrants & _).
  rewrite Hrun. simpl. by rewrite Hgrants, Hsome.
Qed.

(** C3, the code at the failing input: Alice completes quest 1, which has no
    achievement, and a grant row with a null achievement is inserted for
    her. *)
Theorem completeQuest_grants_null_achievement :
  Quests.achievementId (demo_quest 1 1 active 50 None 0) = None /\
  userAchievements demo_store = [] /\
  userAchievements (fst (QuestService.completeQuest 9 1 1 demo_store))
  = [ {| UserAchievements.id := 1; UserAchievements.userId := 1;
         UserAchievements.achievementId := None; UserAchievements.unlockedAt := 9 |} ].
Proof. repeat split; reflexivity. Qed.

(** * Further properties

    The list methods, the life cycle of a quest, what the methods do one
    after the other, and the grants of [AchievementService]. *)

Lemma groupByQuestId_from (l : list CategoryRelation) (m : gmap positive (list NamedView)) k :
  categories_of
    (fold_left
       (fun m category =>
          <[cr_questId category :=
              (default [] (m !! cr_questId category)
               ++ [{| nv_id := cr_id category; nv_name := cr_name category |}])%list]> m)
       l m) k
  = (categories_of m k ++ map relation_view (List.filter (of_quest k) l))%list.
Proof.
  revert m. induction l as [|c l IH]; intros m; simpl.
  - now rewrite app_nil_r.
  - rewrite IH. unfold categories_of, of_quest.
    destruct (Pos.eqb_spec (cr_questId c) k) as [->|Hne].
    + rewrite lookup_insert_eq. simpl. now rewrite <- app_assoc.
    + rewrite lookup_insert_ne by done. reflexivity.
Qed.

Lemma groupByQuestId_lookup l k :
  categories_of (groupByQuestId l) k = map relation_view (List.filter (of_quest k) l).
Proof.
  unfold groupByQuestId. rewrite groupByQuestId_from.
  unfold categories_of. now rewrite lookup_empty.
Qed.

Lemma findCategoriesByQuestIds_of_quest questIds k s :
  map relation_view (List.filter (of_quest k) (findCategoriesByQuestIds questIds s))
  = if existsb (Pos.eqb k) questIds then findCategoriesByQuestId k s else [].
Proof.
  assert (Hgen :
    map relation_view
      (List.filter (of_quest k)
         (flat_map
            (fun qc =>
               if existsb (Pos.eqb (QuestCategories.questId qc)) questIds
               then map (fun c => {| cr_questId := QuestCategories.questId qc;
                                     cr_id := Categories.id c; cr_name := Categories.name c |})
                      (List.filter
                         (fun c => (Categories.id c =? QuestCategories.categoryId qc)%positive
                                   && not_deleted (Categories.recordStatus c))
                         (categories s))
               else [])
            (questCategories s)))
    = if existsb (Pos.eqb k) questIds then findCategoriesByQuestId k s else []).
  { unfold findCategoriesByQuestId.
    induction (questCategories s) as [|qc l IH]; simpl.
    - now destruct (existsb _ _).
    - rewrite List.filter_app, map_app, IH.
      destruct (Pos.eqb_spec (QuestCategories.questId qc) k) as [->|Hne].
      + destruct (existsb (Pos.eqb k) questIds); [|reflexivity].
        f_equal.
        induction (List.filter _ (categories s)) as [|c cs IHc]; simpl; [done|].
        unfold of_quest at 1. simpl. rewrite Pos.eqb_refl. simpl.
        now rewrite IHc.
      + assert (Hnil : forall cs,
          List.filter (of_quest k)
            (map (fun c => {| cr_questId := QuestCategories.questId qc;
                              cr_id := Categories.id c; cr_name := Categories.name c |}) cs)
          = []).
        { induction cs as [|c cs IHc]; simpl; [done|].
          unfold of_quest at 1. simpl.
          destruct (Pos.eqb_spec (QuestCategories.questId qc) k); [done|]. exact IHc. }
        destruct (existsb (Pos.eqb (QuestCategories.questId qc)) questIds);
          [rewrite Hnil|]; simpl; now destruct (existsb (Pos.eqb k) questIds). }
  unfold findCategoriesByQuestIds. destruct questIds as [|q qs]; [reflexivity|].
  exact Hgen.
Qed.

Lemma grouped_categories questIds k s :
  In k questIds ->
  categories_of (groupByQuestId (findCategoriesByQuestIds questIds s)) k
  = findCategoriesByQuestId k s.
Proof.
  intros Hin. rewrite groupByQuestId_lookup, findCategoriesByQuestIds_of_quest.
  assert (existsb (Pos.eqb k) questIds = true) as ->; [|reflexivity].
  apply existsb_exists. exists k. split; [exact Hin|apply Pos.eqb_refl].
Qed.

Lemma enriched_categories {A} (key : A -> positive) (xs : list A) x s :
  In x xs ->
  categories_of (groupByQuestId (findCategoriesByQuestIds (map key xs) s)) (key x)
  = findCategoriesByQuestId (key x) s.
Proof. intros Hin. apply grouped_categories. now apply in_map. Qed.

Lemma find_unique_key (l : list Quests.row) q :
  NoDup (map Quests.id l) -> In q l -> live_quest (Quests.id q) q = true ->
  List.find (live_quest (Quests.id q)) l = Some q.
Proof.
  induction l as [|x l IH]; simpl; intros Hnd Hin Hlive; [done|].
  apply NoDup_cons in Hnd as [Hx Hnd].
  destruct Hin as [->|Hin]; [now rewrite Hlive|].
  destruct (live_quest (Quests.id q) x) eqn:Hx'; [|now apply IH].
  exfalso. apply Hx. unfold live_quest in Hx'.
  apply andb_true_iff in Hx' as [Hx' _]. apply Pos.eqb_eq in Hx'. rewrite Hx'.
  apply list_elem_of_In. now apply in_map.
Qed.

Lemma per_association_in {A} categoryId questId s (v w : A) :
  In w (per_association categoryId questId s v) -> w = v.
Proof.
  unfold per_association. destruct categoryId as [c|]; simpl.
  - intros Hin. apply in_map_iff in Hin as (_ & Heq & _). now symmetry.
  - intros [->|[]]. reflexivity.
Qed.

Lemma repository_findAll_in cityId categoryId s v :
  In v (QuestRepository.findAll cityId categoryId s) ->
  In (qr_quest v) (quests s)
  /\ joined_owner s (qr_quest v) = Some (qr_owner v)
  /\ qr_achievement v = joined_achievement s (qr_quest v)
  /\ qr_city v = joined_city s (qr_quest v)
  /\ qr_organizationType v = joined_organizationType s (qr_quest v)
  /\ in_city cityId (qr_quest v) = true.
Proof.
  unfold QuestRepository.findAll. intros Hin.
  apply in_flat_map in Hin as (q & Hq & Hin).
  destruct (joined_owner s q) as [owner|] eqn:Ho; [|destruct Hin].
  destruct (in_city cityId q) eqn:Hc; [|destruct Hin].
  apply per_association_in in Hin. subst v. simpl. now rewrite Ho.
Qed.

Lemma service_findAll_run cityId categoryId s :
  QuestService.findAll cityId categoryId s
  = (s, Returned
          (map (fun quest =>
                  {| qd_quest := quest;
                     qd_categories :=
                       findCategoriesByQuestId (Quests.id (qr_quest quest)) s |})
             (QuestRepository.findAll cityId categoryId s))).
Proof.
  unfold QuestService.findAll. unfold_call. do 2 f_equal.
  apply map_ext_in. intros q Hq. f_equal.
  now apply (enriched_categories (fun q => Quests.id (qr_quest q))).
Qed.

(** X4: the list view of the service is the repository's list, each quest
    with the categories its detail view shows: the one batched query and
    the grouping give what [findCategoriesByQuestId] gives quest by quest. *)
Theorem findAll_lists_with_categories cityId categoryId s :
  exists l,
    QuestService.findAll cityId categoryId s = (s, Returned l)
    /\ map qd_quest l = QuestRepository.findAll cityId categoryId s
    /\ forall v, In v l ->
         qd_categories v = findCategoriesByQuestId (Quests.id (qr_quest (qd_quest v))) s.
Proof.
  rewrite service_findAll_run. eexists. split; [reflexivity|]. split.
  - rewrite map_map. simpl. apply map_id.
  - intros v Hin. apply in_map_iff in Hin as (x & <- & Hx). reflexivity.
Qed.

(** X5: with unique quest keys, an entry of the list view for a live quest
    is exactly what [findOne] returns for that quest. *)
Theorem findAll_entry_is_findOne cityId categoryId s s' l v :
  quest_keys_unique s ->
  QuestService.findAll cityId categoryId s = (s', Returned l) ->
  In v l ->
  Quests.recordStatus (qr_quest (qd_quest v)) = CREATED ->
  findOne (Quests.id (qr_quest (qd_quest v))) s = (s, Returned v).
Proof.
  intros Hnd Hrun Hin Hlive.
  rewrite service_findAll_run in Hrun. injection Hrun as <- <-.
  apply in_map_iff in Hin as (x & <- & Hx). simpl in *.
  apply repository_findAll_in in Hx as (Hq & Ho & Ha & Hc & Hot & _).
  rewrite findOne_run. unfold findById, findByIdBasic.
  rewrite (find_unique_key _ _ Hnd Hq).
  2:{ unfold live_quest. now rewrite Pos.eqb_refl, Hlive. }
  unfold joined_owner in Ho.
  destruct (List.find (live_user _) (users s)) as [u|]; [|discriminate].
  simpl in Ho. injection Ho as Ho.
  f_equal. f_equal. f_equal. destruct x as [q a o c ot]. simpl in *.
  subst. reflexivity.
Qed.

Lemma findAll_entry_is_findOne_witness :
  findOne 1 demo_store = (demo_store, Returned demo_listed_quest).
Proof.
  eapply (findAll_entry_is_findOne None None demo_store demo_store _ demo_listed_quest).
  - apply (bool_decide_unpack _). vm_compute. reflexivity.
  - rewrite service_findAll_run. reflexivity.
  - simpl. left. reflexivity.
  - reflexivity.
Defined.

Lemma not_deleted_CREATED r : not_deleted r = true <-> r = CREATED.
Proof. destruct r; simpl; split; congruence. Qed.

Lemma joined_owner_is_Some s q :
  is_Some (joined_owner s q) <-> is_Some (select_user (Quests.ownerId q) s).
Proof.
  unfold joined_owner, select_user.
  destruct (List.find _ (users s)); simpl; split; intros [x Hx]; try discriminate; eauto.
Qed.

Lemma per_association_nonempty {A} categoryId questId s (v : A) :
  per_association categoryId questId s v <> [] <->
  forall c, categoryId = Some c -> tagged s questId c.
Proof.
  unfold per_association, tagged. destruct categoryId as [c|].
  - split.
    + intros Hne c' [= <-].
      destruct (List.filter _ (questCategories s)) as [|qc l] eqn:Hf; [done|].
      assert (Hin : In qc (List.filter
        (fun qc => (QuestCategories.questId qc =? questId)%positive
                   && (QuestCategories.categoryId qc =? c)%positive) (questCategories s))).
      { rewrite Hf. now left. }
      apply filter_In in Hin as [Hin Hp].
      apply andb_true_iff in Hp as [Hq Hc].
      apply Pos.eqb_eq in Hq, Hc. destruct qc as [a b]. simpl in *. now subst.
    + intros Htag. specialize (Htag c eq_refl).
      assert (Hin : In {| QuestCategories.questId := questId; QuestCategories.categoryId := c |}
        (List.filter
        (fun qc => (QuestCategories.questId qc =? questId)%positive
                   && (QuestCategories.categoryId qc =? c)%positive) (questCategories s))).
      { apply filter_In. split; [exact Htag|]. simpl. now rewrite !Pos.eqb_refl. }
      destruct (List.filter _ (questCategories s)); [destruct Hin|done].
  - split; [intros _ c [=]|done].
Qed.

Lemma in_nonempty {A} (l : list A) : l <> [] <-> exists x, In x l.
Proof.
  destruct l as [|x l]; split; try done.
  - intros [x []].
  - intros _. exists x. now left.
Qed.

Lemma has_status_spec status q :
  has_status status q = true <-> forall st, status = Some st -> Quests.status q = st.
Proof.
  unfold has_status. destruct status as [st|].
  - rewrite bool_decide_eq_true. split; [intros H st' [= <-]; exact H|eauto].
  - split; [intros _ st [=]|done].
Qed.

Lemma in_city_spec cityId q :
  in_city cityId q = true <-> forall c, cityId = Some c -> Quests.cityId q = c.
Proof.
  unfold in_city. destruct cityId as [c|].
  - rewrite Pos.eqb_eq. split; [intros H c' [= <-]; exact H|eauto].
  - split; [intros _ c [=]|done].
Qed.

Lemma repository_findByStatus_ids status cityId categoryId s k :
  In k (map qs_id (QuestRepository.findByStatus status cityId categoryId s)) <->
  exists q, listable s q /\ Quests.id q = k
    /\ (forall st, status = Some st -> Quests.status q = st)
    /\ (forall c, cityId = Some c -> Quests.cityId q = c)
    /\ (forall c, categoryId = Some c -> tagged s k c).
Proof.
  unfold QuestRepository.findByStatus, listable. split.
  - intros Hin. apply in_map_iff in Hin as (v & <- & Hin).
    apply in_flat_map in Hin as (q & Hq & Hin).
    destruct (joined_owner s q) as [owner|] eqn:Ho; [|destruct Hin].
    destruct (not_deleted _ && _ && _) eqn:Hc; [|destruct Hin].
    apply andb_true_iff in Hc as [Hc Hcity]. apply andb_true_iff in Hc as [Hlive Hst].
    assert (Hne : per_association categoryId (Quests.id q) s (summary s q owner) <> []).
    { apply in_nonempty. eauto. }
    apply per_association_in in Hin. subst v. simpl.
    exists q. repeat split; try done.
    + now apply not_deleted_CREATED.
    + apply joined_owner_is_Some. now rewrite Ho.
    + now apply has_status_spec.
    + now apply in_city_spec.
    + now apply (per_association_nonempty categoryId (Quests.id q) s (summary s q owner)).
  - intros (q & (Hq & Hlive & Ho) & <- & Hst & Hcity & Htag).
    apply joined_owner_is_Some in Ho as [owner Ho].
    assert (Hne : per_association categoryId (Quests.id q) s (summary s q owner) <> []).
    { now apply per_association_nonempty. }
    apply in_nonempty in Hne as [v Hv].
    apply in_map_iff. exists v. split.
    + apply per_association_in in Hv. now subst v.
    + apply in_flat_map. exists q. split; [exact Hq|].
      rewrite Ho.
      apply not_deleted_CREATED in Hlive. apply has_status_spec in Hst.
      apply in_city_spec in Hcity. now rewrite Hlive, Hst, Hcity.
Qed.

Lemma findByStatus_run status cityId categoryId s :
  exists l,
    QuestService.findByStatus status cityId categoryId s = (s, Returned l)
    /\ forall k,
         In k (map (fun v => qs_id (listed v)) l) <->
         exists q, listable s q /\ Quests.id q = k
           /\ (forall st, status = Some st -> Quests.status q = st)
           /\ (forall c, cityId = Some c -> Quests.cityId q = c)
           /\ (forall c, categoryId = Some c -> tagged s k c).
Proof.
  unfold QuestService.findByStatus. unfold_call. eexists. split; [reflexivity|].
  intros k. rewrite map_map. simpl. apply repository_findByStatus_ids.
Qed.

(** X7: [findByStatus] lists exactly the live quests with a live owner that
    pass the filters given; the category filter asks for an association row
    and not for a live category. Each entry carries the categories of the
    detail view. *)
Theorem findByStatus_lists_exactly status cityId categoryId s :
  exists l,
    QuestService.findByStatus status cityId categoryId s = (s, Returned l)
    /\ (forall v, In v l ->
          listed_categories v = findCategoriesByQuestId (qs_id (listed v)) s)
    /\ forall k,
         In k (map (fun v => qs_id (listed v)) l) <->
         exists q, listable s q /\ Quests.id q = k
           /\ (forall st, status = Some st -> Quests.status q = st)
           /\ (forall c, cityId = Some c -> Quests.cityId q = c)
           /\ (forall c, categoryId = Some c -> tagged s k c).
Proof.
  unfold QuestService.findByStatus. unfold_call. eexists. split; [reflexivity|]. split.
  - intros v Hin. apply in_map_iff in Hin as (x & <- & Hx). simpl.
    now apply (enriched_categories qs_id).
  - intros k. rewrite map_map. simpl. apply repository_findByStatus_ids.
Qed.

Lemma findActiveQuests_ids s k :
  In k (map (fun v => qc_id (aq_quest v)) (findActiveQuests s)) <->
  exists q, listable s q /\ Quests.id q = k /\ Quests.status q = active.
Proof.
  unfold findActiveQuests, listable. split.
  - intros Hin. apply in_map_iff in Hin as (v & <- & Hin).
    apply in_flat_map in Hin as (q & Hq & Hin).
    destruct (joined_owner s q) as [owner|] eqn:Ho; [|destruct Hin].
    destruct (is_active _ && _) eqn:Hc; [|destruct Hin].
    apply andb_true_iff in Hc as [Hact Hlive].
    destruct Hin as [<-|[]]. simpl. exists q. repeat split; try done.
    + now apply not_deleted_CREATED.
    + apply joined_owner_is_Some. now rewrite Ho.
    + now destruct (Quests.status q).
  - intros (q & (Hq & Hlive & Ho) & <- & Hact).
    apply joined_owner_is_Some in Ho as [owner Ho].
    apply in_map_iff. eexists. split; [|apply in_flat_map; exists q; split; [exact Hq|]].
    2:{ rewrite Ho, Hact. apply not_deleted_CREATED in Hlive. rewrite Hlive. simpl.
        left. reflexivity. }
    reflexivity.
Qed.

Lemma started_iff userId questId s :
  existsb (Pos.eqb questId) (findStartedQuestIdsByUserId userId s) = false <->
  findUserQuest userId questId s = None.
Proof.
  unfold findStartedQuestIdsByUserId, findUserQuest.
  induction (userQuests s) as [|r l IH]; simpl; [done|].
  unfold for_pair at 1.
  destruct (UserQuests.userId r =? userId)%positive; simpl; [|exact IH].
  rewrite (Pos.eqb_sym questId).
  destruct (UserQuests.questId r =? questId)%positive; simpl; [|exact IH].
  split; discriminate.
Qed.

Lemma find_In {A} (p : A -> bool) l (x : A) : List.find p l = Some x -> In x l /\ p x = true.
Proof. apply find_some. Qed.

Lemma joinQuest_returned_inv now userId questId s s' r :
  joinQuest now userId questId s = (s', Returned r) ->
  exists user quest,
    select_user userId s = Some user /\ findByIdBasic questId s = Some quest
    /\ Quests.status quest = active /\ findUserQuest userId questId s = None.
Proof.
  unfold joinQuest. unfold_call. intros H.
  destruct (select_user userId s) as [user|]; [|discriminate].
  destruct (findByIdBasic questId s) as [quest|]; [|discriminate].
  destruct (Quests.status quest) eqn:Hst; simpl in H; try discriminate.
  destruct (findUserQuest userId questId s) eqn:Hf; simpl in H; [discriminate|].
  eauto 10.
Qed.

(** X19: with unique quest keys, the quests [getAvailableQuests] lists for
    a user are exactly those [joinQuest] would accept from that user and
    whose owner is live. *)
Theorem getAvailableQuests_lists_the_joinable now userId s user :
  quest_keys_unique s ->
  select_user userId s = Some user ->
  exists l,
    getAvailableQuests userId s = (s, Returned l)
    /\ (forall v, In v l ->
          listed_categories v = findCategoriesByQuestId (qc_id (aq_quest (listed v))) s)
    /\ forall k,
         In k (map (fun v => qc_id (aq_quest (listed v))) l) <->
         (exists s' r, joinQuest now userId k s = (s', Returned r))
         /\ exists q, findByIdBasic k s = Some q
                      /\ is_Some (select_user (Quests.ownerId q) s).
Proof.
  intros Hnd Hu. unfold getAvailableQuests. unfold_call. rewrite Hu.
  eexists. split; [reflexivity|]. split.
  - intros v Hin. apply in_map_iff in Hin as (x & <- & Hx). simpl.
    now apply (enriched_categories (fun q => qc_id (aq_quest q))).
  - intros k. rewrite map_map. simpl. split.
    + intros Hin. apply in_map_iff in Hin as (v & <- & Hin).
      apply filter_In in Hin as [Hin Hfresh].
      apply negb_true_iff, started_iff in Hfresh.
      assert (Hk : In (qc_id (aq_quest v))
                     (map (fun v => qc_id (aq_quest v)) (findActiveQuests s))).
      { apply in_map_iff. eauto. }
      apply findActiveQuests_ids in Hk as (q & (Hq & Hlive & Ho) & Hid & Hact).
      assert (Hfind : findByIdBasic (qc_id (aq_quest v)) s = Some q).
      { unfold findByIdBasic. rewrite <- Hid.
        apply find_unique_key; try done.
        unfold live_quest. now rewrite Pos.eqb_refl, Hlive. }
      split; [|eauto].
      rewrite (joinQuest_run now userId _ s user q Hu Hfind Hact Hfresh). eauto.
    + intros [(s' & r & Hjoin) (q & Hfind & Ho)].
      apply joinQuest_returned_inv in Hjoin as (user' & q' & _ & Hfind' & Hact & Hnone).
      rewrite Hfind in Hfind'. injection Hfind' as <-.
      apply find_In in Hfind as [Hq Hlive].
      unfold live_quest in Hlive. apply andb_true_iff in Hlive as [Hid Hlive].
      apply Pos.eqb_eq in Hid. apply not_deleted_CREATED in Hlive.
      assert (Hk : In k (map (fun v => qc_id (aq_quest v)) (findActiveQuests s))).
      { apply findActiveQuests_ids. exists q. unfold listable. auto. }
      apply in_map_iff in Hk as (v & Hv & Hin).
      apply in_map_iff. exists v. split; [exact Hv|].
      apply filter_In. split; [exact Hin|].
      apply negb_true_iff, started_iff. now rewrite Hv.
Qed.

Lemma findUserQuestsByUserId_rows userId s :
  map uqv_userQuest (findUserQuestsByUserId userId s)
  = List.filter
      (fun r => (UserQuests.userId r =? userId)%positive
                && bool_decide (is_Some (findByIdBasic (UserQuests.questId r) s)))
      (userQuests s).
Proof.
  unfold findUserQuestsByUserId, findByIdBasic.
  induction (userQuests s) as [|r l IH]; simpl; [done|].
  rewrite map_app, IH.
  destruct (UserQuests.userId r =? userId)%positive; simpl; [|done].
  destruct (List.find _ (quests s)); simpl; [|done].
  reflexivity.
Qed.

Lemma findUserQuestsByUserId_in userId s v :
  In v (findUserQuestsByUserId userId s) ->
  exists q, findByIdBasic (UserQuests.questId (uqv_userQuest v)) s = Some q
    /\ uqv_quest v = card q
    /\ uqv_achievement v = joined_achievement s q
    /\ uqv_city v = joined_city s q.
Proof.
  unfold findUserQuestsByUserId, findByIdBasic. intros Hin.
  apply in_flat_map in Hin as (r & Hr & Hin).
  destruct (UserQuests.userId r =? userId)%positive; [|destruct Hin].
  destruct (List.find _ (quests s)) as [q|] eqn:Hq; [|destruct Hin].
  destruct Hin as [<-|[]]. simpl. rewrite Hq. eauto.
Qed.

Lemma getUserQuests_run userId s :
  match select_user userId s with
  | Some _ =>
    exists l,
      getUserQuests userId s = (s, Returned l)
      /\ map (fun v => uqv_userQuest (listed v)) l
         = List.filter
             (fun r => (UserQuests.userId r =? userId)%positive
                       && bool_decide (is_Some (findByIdBasic (UserQuests.questId r) s)))
             (userQuests s)
  | None => getUserQuests userId s = (s, Thrown (user_not_found userId))
  end.
Proof.
  unfold getUserQuests. unfold_call.
  destruct (select_user userId s) as [user|]; [|reflexivity].
  eexists. split; [reflexivity|].
  rewrite map_map. simpl. apply findUserQuestsByUserId_rows.
Qed.

(** X18: [getUserQuests] throws NotFound for a missing user; otherwise it
    lists the user's participation rows whose quest is live, in table
    order, each with the columns of that quest and the categories of its
    detail view. *)
Theorem getUserQuests_lists_live_participations userId s :
  match select_user userId s with
  | Some _ =>
    exists l,
      getUserQuests userId s = (s, Returned l)
      /\ map (fun v => uqv_userQuest (listed v)) l
         = List.filter
             (fun r => (UserQuests.userId r =? userId)%positive
                       && bool_decide (is_Some (findByIdBasic (UserQuests.questId r) s)))
             (userQuests s)
      /\ forall v, In v l ->
           Some (uqv_quest (listed v))
           = card <$> findByIdBasic (UserQuests.questId (uqv_userQuest (listed v))) s
           /\ listed_categories v
              = findCategoriesByQuestId (UserQuests.questId (uqv_userQuest (listed v))) s
  | None => getUserQuests userId s = (s, Thrown (user_not_found userId))
  end.
Proof.
  unfold getUserQuests. unfold_call.
  destruct (select_user userId s) as [user|]; [|reflexivity].
  eexists. split; [reflexivity|]. split.
  - rewrite map_map. simpl. apply findUserQuestsByUserId_rows.
  - intros v Hin. apply in_map_iff in Hin as (x & <- & Hx). simpl. split.
    + apply findUserQuestsByUserId_in in Hx as (q & -> & -> & _). reflexivity.
    + now apply (enriched_categories (fun r => UserQuests.questId (uqv_userQuest r))).
Qed.

Lemma remove_run now id s :
  QuestService.remove now id s
  = (soft_deleted id now s,
     match findByIdBasic id s with
     | Some q => Returned (mark_deleted now q)
     | None => Thrown (quest_not_found id)
     end).
Proof.
  unfold QuestService.remove, softDelete. unfold_call. unfold findByIdBasic, soft_deleted.
  now destruct (List.find (live_quest id) (quests s)).
Qed.

Lemma live_quest_mark_deleted id now q : live_quest id (mark_deleted now q) = false.
Proof. unfold live_quest. simpl. apply andb_false_r. Qed.

Lemma findByIdBasic_soft_deleted id now s : findByIdBasic id (soft_deleted id now s) = None.
Proof.
  unfold findByIdBasic, soft_deleted. simpl.
  induction (quests s) as [|q l IH]; simpl; [done|].
  destruct (live_quest id q) eqn:Hq.
  - now rewrite live_quest_mark_deleted.
  - now rewrite Hq.
Qed.

Lemma soft_deleted_missing id now s : findByIdBasic id s = None -> soft_deleted id now s = s.
Proof.
  unfold findByIdBasic, soft_deleted. intros H.
  rewrite find_none_map by exact H. apply with_quests_same.
Qed.

(** X10: every method that takes a quest throws the same NotFound for a
    quest that is missing or soft-deleted, and leaves the store as it was. *)
Theorem missing_quest_is_not_found now id s :
  findByIdBasic id s = None ->
  findOne id s = (s, Thrown (quest_not_found id))
  /\ (forall dto, QuestService.update now id dto s = (s, Thrown (quest_not_found id)))
  /\ QuestService.remove now id s = (s, Thrown (quest_not_found id))
  /\ archiveQuest now id s = (s, Thrown (quest_not_found id))
  /\ unarchiveQuest now id s = (s, Thrown (quest_not_found id))
  /\ (forall stepIndex dto,
        updateRequirementCurrentValue now id stepIndex dto s
        = (s, Thrown (quest_not_found id)))
  /\ (forall userId user,
        select_user userId s = Some user ->
        joinQuest now userId id s = (s, Thrown (quest_not_found id))
        /\ leaveQuest userId id s = (s, Thrown (quest_not_found id))
        /\ completeQuest now userId id s = (s, Thrown (quest_not_found id))).
Proof.
  intros Hnone. repeat split.
  - rewrite findOne_run. unfold findById. now rewrite Hnone.
  - intros dto. unfold QuestService.update. unfold_call. now rewrite Hnone.
  - rewrite remove_run, Hnone. now rewrite soft_deleted_missing.
  - unfold archiveQuest. unfold_call. now rewrite Hnone.
  - unfold unarchiveQuest. unfold_call. now rewrite Hnone.
  - intros stepIndex dto. unfold updateRequirementCurrentValue. unfold_call.
    now rewrite Hnone.
  - unfold joinQuest. unfold_call. now rewrite H, Hnone.
  - unfold leaveQuest. unfold_call. now rewrite H, Hnone.
  - unfold completeQuest. unfold_call. now rewrite H, Hnone.
Qed.

Lemma missing_quest_is_not_found_witness :
  QuestService.remove 7 99 demo_store = (demo_store, Thrown (quest_not_found 99))
  /\ joinQuest 7 1 99 demo_store = (demo_store, Thrown (quest_not_found 99)).
Proof.
  destruct (missing_quest_is_not_found 7 99 demo_store eq_refl)
    as (_ & _ & Hremove & _ & _ & _ & Husers).
  split; [exact Hremove|].
  exact (proj1 (Husers 1%positive alice eq_refl)).
Defined.

Lemma soft_deleted_row now id s q :
  findByIdBasic id s = Some q -> In (mark_deleted now q) (quests (soft_deleted id now s)).
Proof.
  unfold findByIdBasic, soft_deleted. simpl. intros H.
  apply find_In in H as [Hin Hlive].
  apply in_map_iff. exists q. now rewrite Hlive.
Qed.

Lemma soft_deleted_no_live_row now id s q :
  In q (quests (soft_deleted id now s)) -> Quests.id q = id ->
  Quests.recordStatus q = DELETED.
Proof.
  unfold soft_deleted. simpl. intros Hin Hid.
  apply in_map_iff in Hin as (q0 & Hq & _).
  destruct (live_quest id q0) eqn:Hlive; subst q; [reflexivity|].
  unfold live_quest in Hlive. rewrite Hid, Pos.eqb_refl in Hlive. simpl in Hlive.
  now destruct (Quests.recordStatus q0).
Qed.

(** X11: a soft-deleted quest stays in [findAll], which has no condition on
    the record status, and leaves every other view. *)
Theorem removed_quest_stays_in_findAll now id s s' q :
  QuestService.remove now id s = (s', Returned q) ->
  is_Some (select_user (Quests.ownerId q) s) ->
  Quests.id q = id /\ Quests.recordStatus q = DELETED
  /\ (exists l, QuestService.findAll None None s' = (s', Returned l)
                /\ In q (map (fun v => qr_quest (qd_quest v)) l))
  /\ (exists l, QuestService.findByStatus None None None s' = (s', Returned l)
                /\ ~ In id (map (fun v => qs_id (listed v)) l))
  /\ ~ In id (map (fun v => qc_id (aq_quest v)) (findActiveQuests s'))
  /\ findOne id s' = (s', Thrown (quest_not_found id)).
Proof.
  rewrite remove_run. intros Hrun Ho.
  destruct (findByIdBasic id s) as [q0|] eqn:Hq0; [|discriminate].
  injection Hrun as <- <-.
  pose proof (find_In _ _ _ Hq0) as [_ Hlive].
  unfold live_quest in Hlive. apply andb_true_iff in Hlive as [Hid _].
  apply Pos.eqb_eq in Hid.
  split; [exact Hid|]. split; [reflexivity|]. split; [|split; [|split]].
  - rewrite service_findAll_run. eexists. split; [reflexivity|].
    rewrite map_map. simpl.
    apply joined_owner_is_Some in Ho as [owner Ho].
    apply in_map_iff.
    exists {| qr_quest := mark_deleted now q0;
              qr_achievement := joined_achievement (soft_deleted id now s) (mark_deleted now q0);
              qr_owner := owner;
              qr_city := joined_city (soft_deleted id now s) (mark_deleted now q0);
              qr_organizationType :=
                joined_organizationType (soft_deleted id now s) (mark_deleted now q0) |}.
    split; [reflexivity|].
    unfold QuestRepository.findAll. apply in_flat_map.
    exists (mark_deleted now q0). split; [now apply soft_deleted_row|].
    unfold joined_owner in *. simpl in *. rewrite Ho. simpl. now left.
  - destruct (findByStatus_run None None None (soft_deleted id now s)) as (l & Hrun & Hids).
    exists l. split; [exact Hrun|]. intros Hin.
    apply Hids in Hin as (q & (Hq & Hlive & _) & Hqid & _).
    now rewrite (soft_deleted_no_live_row now id s q Hq Hqid) in Hlive.
  - intros Hin. apply findActiveQuests_ids in Hin as (q & (Hq & Hlive & _) & Hqid & _).
    now rewrite (soft_deleted_no_live_row now id s q Hq Hqid) in Hlive.
  - rewrite findOne_run. unfold findById. now rewrite findByIdBasic_soft_deleted.
Qed.

Lemma removed_quest_stays_in_findAll_witness :
  exists l,
    QuestService.findAll None None (soft_deleted 1 7 demo_store)
    = (soft_deleted 1 7 demo_store, Returned l)
    /\ In (mark_deleted 7 (demo_quest 1 1 active 50 None 0))
         (map (fun v => qr_quest (qd_quest v)) l).
Proof.
  refine (proj1 (proj2 (proj2
    (removed_quest_stays_in_findAll 7 1 demo_store _ _ eq_refl _)))).
  exists alice. reflexivity.
Defined.

(** X12: [remove] writes the quest row alone: an achievement bound to the
    quest stays bound to it, so the binding of the data model no longer
    holds. *)
Theorem remove_leaves_achievement_bound now id s s' q a :
  QuestService.remove now id s = (s', Returned q) ->
  In a (achievements s) ->
  Achievements.questId a = Some id ->
  In a (achievements s')
  /\ AchievementRepository.findQuestById id s' = None
  /\ ~ binding_ok s' a.
Proof.
  rewrite remove_run. intros Hrun Hin Hq.
  destruct (findByIdBasic id s) as [q0|]; [|discriminate].
  injection Hrun as <- <-.
  assert (Hnone : AchievementRepository.findQuestById id (soft_deleted id now s) = None)
    by apply findByIdBasic_soft_deleted.
  split; [exact Hin|]. split; [exact Hnone|].
  unfold binding_ok. rewrite Hq, Hnone. intros [_ [x Hx]]. discriminate.
Qed.

Lemma remove_leaves_achievement_bound_witness :
  In badge (achievements (soft_deleted 2 7 demo_store))
  /\ AchievementRepository.findQuestById 2 (soft_deleted 2 7 demo_store) = None
  /\ ~ binding_ok (soft_deleted 2 7 demo_store) badge.
Proof.
  apply (remove_leaves_achievement_bound 7 2 demo_store _ _ badge eq_refl).
  - left. reflexivity.
  - reflexivity.
Defined.

(** X13: the participation rows of a removed quest stay in the table, where
    no method reaches them any more: they cannot be left or completed, the
    user's list hides them, and they still count as started. *)
Theorem removed_quest_strands_participations now id s s' q userId user row :
  QuestService.remove now id s = (s', Returned q) ->
  select_user userId s = Some user ->
  findUserQuest userId id s = Some row ->
  findUserQuest userId id s' = Some row
  /\ leaveQuest userId id s' = (s', Thrown (quest_not_found id))
  /\ completeQuest now userId id s' = (s', Thrown (quest_not_found id))
  /\ (exists l, getUserQuests userId s' = (s', Returned l)
                /\ ~ In id (map (fun v => UserQuests.questId (uqv_userQuest (listed v))) l))
  /\ In id (findStartedQuestIdsByUserId userId s').
Proof.
  rewrite remove_run. intros Hrun Hu Hrow.
  destruct (findByIdBasic id s) as [q0|]; [|discriminate].
  injection Hrun as <- <-.
  pose proof (findByIdBasic_soft_deleted id now s) as Hnone.
  assert (Hu' : select_user userId (soft_deleted id now s) = Some user) by exact Hu.
  assert (Hrow' : findUserQuest userId id (soft_deleted id now s) = Some row) by exact Hrow.
  split; [exact Hrow'|]. split; [|split; [|split]].
  - unfold leaveQuest. unfold_call. now rewrite Hu', Hnone.
  - unfold completeQuest. unfold_call. now rewrite Hu', Hnone.
  - pose proof (getUserQuests_run userId (soft_deleted id now s)) as Hrun.
    rewrite Hu' in Hrun. destruct Hrun as (l & Hrun & Hrows). exists l.
    split; [exact Hrun|]. intros Hin.
    rewrite <- (map_map (fun v => uqv_userQuest (listed v)) UserQuests.questId) in Hin.
    rewrite Hrows in Hin.
    apply in_map_iff in Hin as (r & Hid & Hin).
    apply filter_In in Hin as [_ Hp]. apply andb_true_iff in Hp as [_ Hp].
    rewrite Hid, Hnone in Hp. now apply bool_decide_eq_true in Hp as [x Hx].
  - apply find_In in Hrow as [Hin Hp]. unfold for_pair in Hp.
    apply andb_true_iff in Hp as [Hp1 Hp2]. apply Pos.eqb_eq in Hp2.
    unfold findStartedQuestIdsByUserId. apply in_map_iff. exists row.
    split; [exact Hp2|]. apply filter_In. split; [exact Hin|exact Hp1].
Qed.

Lemma removed_quest_strands_participations_witness :
  findUserQuest 1 1 (soft_deleted 1 7 demo_store) = Some (joined 1 1 1)
  /\ leaveQuest 1 1 (soft_deleted 1 7 demo_store)
     = (soft_deleted 1 7 demo_store, Thrown (quest_not_found 1)).
Proof.
  destruct (removed_quest_strands_participations 7 1 demo_store _ _ 1 alice (joined 1 1 1)
              eq_refl eq_refl eq_refl) as (Hrow & Hleave & _).
  split; [exact Hrow|exact Hleave].
Defined.

Lemma archiveQuest_run now id s q :
  findByIdBasic id s = Some q ->
  archiveQuest now id s = findOne id (rewritten id (status_patch archived) now s).
Proof.
  intros Hq. unfold archiveQuest, updateStatus, QuestRepository.update. unfold_call.
  rewrite Hq. unfold findByIdBasic in Hq. rewrite Hq. reflexivity.
Qed.

Lemma unarchiveQuest_run now id s q :
  findByIdBasic id s = Some q ->
  unarchiveQuest now id s = findOne id (rewritten id (status_patch active) now s).
Proof.
  intros Hq. unfold unarchiveQuest, updateStatus, QuestRepository.update. unfold_call.
  rewrite Hq. unfold findByIdBasic in Hq. rewrite Hq. reflexivity.
Qed.

Lemma set_status_returned id st now s q :
  findByIdBasic id s = Some q ->
  is_Some (select_user (Quests.ownerId q) s) ->
  exists v,
    findOne id (rewritten id (status_patch st) now s)
    = (rewritten id (status_patch st) now s, Returned v)
    /\ qr_quest (qd_quest v) = set_row (status_patch st) now q.
Proof.
  intros Hq Ho. rewrite findOne_run.
  assert (Hsome : is_Some (findById id (rewritten id (status_patch st) now s))).
  { apply findById_rewritten_some. now apply (findById_owner id s q Hq). }
  destruct Hsome as [w Hw]. rewrite Hw. eexists. split; [reflexivity|]. simpl.
  apply findById_quest in Hw. rewrite findByIdBasic_rewritten, Hq in Hw.
  simpl in Hw. now injection Hw as <-.
Qed.

(** X21: neither [archiveQuest] nor [unarchiveQuest] looks at the status
    the quest has: archiving and then unarchiving returns the quest as
    active whatever it was before, a completed quest included, with no
    other column than the status and the update time rewritten. *)
Theorem archive_then_unarchive_activates now now' id s q :
  findByIdBasic id s = Some q ->
  is_Some (select_user (Quests.ownerId q) s) ->
  exists s1 v1 s2 v2,
    archiveQuest now id s = (s1, Returned v1)
    /\ qr_quest (qd_quest v1) = set_row (status_patch archived) now q
    /\ unarchiveQuest now' id s1 = (s2, Returned v2)
    /\ qr_quest (qd_quest v2) = set_row (status_patch active) now' q
    /\ Quests.status (qr_quest (qd_quest v2)) = active.
Proof.
  intros Hq Ho.
  destruct (set_status_returned id archived now s q Hq Ho) as (v1 & Hrun1 & Hv1).
  set (s1 := rewritten id (status_patch archived) now s) in *.
  assert (Hq1 : findByIdBasic id s1 = Some (set_row (status_patch archived) now q)).
  { unfold s1. now rewrite findByIdBasic_rewritten, Hq. }
  assert (Ho1 : is_Some (select_user (Quests.ownerId (set_row (status_patch archived) now q)) s1))
    by exact Ho.
  destruct (set_status_returned id active now' s1 _ Hq1 Ho1) as (v2 & Hrun2 & Hv2).
  exists s1, v1, (rewritten id (status_patch active) now' s1), v2.
  rewrite (archiveQuest_run now id s q Hq), (unarchiveQuest_run now' id s1 _ Hq1).
  repeat split; try done.
  now rewrite Hv2.
Qed.

Lemma archive_then_unarchive_activates_witness :
  exists s1 v1 s2 v2,
    archiveQuest 7 2 demo_store = (s1, Returned v1)
    /\ qr_quest (qd_quest v1)
       = set_row (status_patch archived) 7 (demo_quest 2 1 archived 20 (Some 1%positive) 3)
    /\ unarchiveQuest 8 2 s1 = (s2, Returned v2)
    /\ qr_quest (qd_quest v2)
       = set_row (status_patch active) 8 (demo_quest 2 1 archived 20 (Some 1%positive) 3)
    /\ Quests.status (qr_quest (qd_quest v2)) = active.
Proof.
  apply (archive_then_unarchive_activates 7 8 2 demo_store); [reflexivity|].
  exists alice. reflexivity.
Defined.

Lemma archiveQuest_returned now id s s1 v :
  archiveQuest now id s = (s1, Returned v) ->
  exists q, findByIdBasic id s = Some q
            /\ s1 = rewritten id (status_patch archived) now s.
Proof.
  intros Hrun. destruct (findByIdBasic id s) as [q|] eqn:Hq.
  - exists q. split; [reflexivity|].
    rewrite (archiveQuest_run now id s q Hq) in Hrun.
    apply readonly_elim in Hrun; [|apply readonly_findOne]. exact Hrun.
  - unfold archiveQuest in Hrun. unfold_call. rewrite Hq in Hrun. discriminate.
Qed.

(** X22: once archived, a quest takes no new participant (the status check
    of [joinQuest] comes before the check for an earlier participation), no
    progress on its requirements, and is in no list of active quests. *)
Theorem archived_quest_is_closed now now' id s s1 v :
  archiveQuest now id s = (s1, Returned v) ->
  (forall userId user,
     select_user userId s1 = Some user ->
     joinQuest now' userId id s1
     = (s1, Thrown (BadRequestException "Квест не доступен для выполнения"%string)))
  /\ (forall stepIndex dto,
        updateRequirementCurrentValue now' id stepIndex dto s1
        = (s1, Thrown (status_not_active archived)))
  /\ ~ In id (map (fun v => qc_id (aq_quest v)) (findActiveQuests s1)).
Proof.
  intros Hrun. apply archiveQuest_returned in Hrun as (q & Hq & ->).
  assert (Hq1 : findByIdBasic id (rewritten id (status_patch archived) now s)
                = Some (set_row (status_patch archived) now q)).
  { now rewrite findByIdBasic_rewritten, Hq. }
  split; [|split].
  - intros userId user Hu. unfold joinQuest. unfold_call. now rewrite Hu, Hq1.
  - intros stepIndex dto. unfold updateRequirementCurrentValue. unfold_call.
    now rewrite Hq1.
  - intros Hin. apply findActiveQuests_ids in Hin as (q' & (Hin & Hlive & _) & Hid & Hact).
    unfold rewritten, update_rows in Hin. simpl in Hin.
    apply in_map_iff in Hin as (q0 & Hq0 & _).
    destruct (live_quest id q0) eqn:Hl; subst q'; [discriminate|].
    unfold live_quest in Hl. rewrite Hid, Pos.eqb_refl, Hlive in Hl. discriminate.
Qed.

Lemma archived_quest_is_closed_witness :
  joinQuest 8 1 1 (rewritten 1 (status_patch archived) 7 demo_store)
  = (rewritten 1 (status_patch archived) 7 demo_store,
     Thrown (BadRequestException "Квест не доступен для выполнения"%string)).
Proof.
  destruct (set_status_returned 1 archived 7 demo_store _ eq_refl (ex_intro _ alice eq_refl))
    as (v & Hrun & _).
  rewrite <- (archiveQuest_run 7 1 demo_store _ eq_refl) in Hrun.
  exact (proj1 (archived_quest_is_closed 7 8 1 demo_store _ v Hrun) 1%positive alice eq_refl).
Defined.

Lemma leaveQuest_returned userId questId s s' r :
  leaveQuest userId questId s = (s', Returned r) ->
  exists user quest row,
    select_user userId s = Some user /\ findByIdBasic questId s = Some quest
    /\ findUserQuest userId questId s = Some row
    /\ UserQuests.status row <> uq_completed
    /\ List.find (has_id (UserQuests.id row)) (userQuests s) = Some r
    /\ s' = without_userQuest (UserQuests.id row) s.
Proof.
  unfold leaveQuest, deleteUserQuest. unfold_call. intros H.
  destruct (select_user userId s) as [user|]; [|discriminate].
  destruct (findByIdBasic questId s) as [quest|]; [|discriminate].
  destruct (findUserQuest userId questId s) as [row|]; [|discriminate].
  destruct (is_uq_completed (UserQuests.status row)) eqn:Hst; [discriminate|].
  simpl in H.
  destruct (List.find (has_id (UserQuests.id row)) (userQuests s)) as [r0|] eqn:Hf;
    [|discriminate].
  injection H as <- <-. exists user, quest, row. repeat split; try done.
  intros Hc. now rewrite Hc in Hst.
Qed.

Lemma find_filter_same {A} (p f : A -> bool) (l : list A) :
  (forall x, In x l -> p x = true -> f x = true) ->
  List.find p (List.filter f l) = List.find p l.
Proof.
  induction l as [|x l IH]; simpl; intros H; [done|].
  destruct (f x) eqn:Hf; simpl.
  - destruct (p x); [done|]. apply IH. intros y Hy. apply H. now right.
  - destruct (p x) eqn:Hp.
    + rewrite (H x (or_introl eq_refl) Hp) in Hf. discriminate.
    + apply IH. intros y Hy. apply H. now right.
Qed.

Lemma find_filter_none {A} (p f : A -> bool) (l : list A) :
  (forall x, In x l -> p x = true -> f x = false) ->
  List.find p (List.filter f l) = None.
Proof.
  induction l as [|x l IH]; simpl; intros H; [done|].
  destruct (f x) eqn:Hf; simpl.
  - destruct (p x) eqn:Hp.
    + rewrite (H x (or_introl eq_refl) Hp) in Hf. discriminate.
    + apply IH. intros y Hy. apply H. now right.
  - apply IH. intros y Hy. apply H. now right.
Qed.

Lemma for_pair_spec u q r : for_pair u q r = true <-> pair_of r = (u, q).
Proof.
  unfold for_pair, pair_of. rewrite andb_true_iff, !Pos.eqb_eq.
  split; [intros [-> ->]; reflexivity|intros [= -> ->]; done].
Qed.

(** X15: [leaveQuest] deletes the row of the pair and nothing else, and
    emits no event; the pair is then free, so the user may join the quest
    again and starts over with a new row. *)
Theorem leaveQuest_frees_the_pair now userId questId s s' r :
  participation_unique s ->
  participation_keys_unique s ->
  leaveQuest userId questId s = (s', Returned r) ->
  findUserQuest userId questId s = Some r
  /\ findUserQuest userId questId s' = None
  /\ (forall u q, (u, q) <> (userId, questId) ->
        findUserQuest u q s' = findUserQuest u q s)
  /\ users s' = users s /\ quests s' = quests s
  /\ userAchievements s' = userAchievements s /\ events s' = events s
  /\ (forall quest,
        findByIdBasic questId s = Some quest -> Quests.status quest = active ->
        exists s2 r2,
          joinQuest now userId questId s' = (s2, Returned r2)
          /\ UserQuests.id r2 = userQuests_seq s
          /\ UserQuests.startedAt r2 = Some now).
Proof.
  intros Hpairs Hkeys Hrun.
  apply leaveQuest_returned in Hrun as (user & quest & row & Hu & Hq & Hrow & Hopen & Hr & ->).
  pose proof (find_In _ _ _ Hrow) as [Hrow_in Hrow_pair].
  pose proof (find_In _ _ _ Hr) as [Hr_in Hr_id].
  assert (r = row) as ->.
  { apply (NoDup_map_inj UserQuests.id (userQuests s)); try done.
    unfold has_id in Hr_id. now apply Pos.eqb_eq in Hr_id. }
  assert (Hfree : findUserQuest userId questId (without_userQuest (UserQuests.id row) s) = None).
  { unfold findUserQuest, without_userQuest. simpl.
    apply find_filter_none. intros x Hx Hp.
    assert (x = row) as ->.
    { apply (NoDup_map_inj pair_of (userQuests s)); try done.
      apply for_pair_spec in Hp, Hrow_pair. congruence. }
    unfold has_id. now rewrite Pos.eqb_refl. }
  split; [exact Hrow|]. split; [exact Hfree|]. split; [|repeat split].
  - intros u q Hne. unfold findUserQuest, without_userQuest. simpl.
    apply find_filter_same. intros x Hx Hp.
    apply negb_true_iff. destruct (has_id (UserQuests.id row) x) eqn:Hid; [|done].
    exfalso. apply Hne.
    assert (x = row) as ->.
    { apply (NoDup_map_inj UserQuests.id (userQuests s)); try done.
      unfold has_id in Hid. now apply Pos.eqb_eq in Hid. }
    apply for_pair_spec in Hp, Hrow_pair. congruence.
  - intros quest' Hq' Hact.
    assert (Hu' : select_user userId (without_userQuest (UserQuests.id row) s) = Some user)
      by exact Hu.
    assert (Hq'' : findByIdBasic questId (without_userQuest (UserQuests.id row) s) = Some quest')
      by exact Hq'.
    rewrite (joinQuest_run now userId questId _ user quest' Hu' Hq'' Hact Hfree).
    eexists. eexists. split; [reflexivity|]. split; reflexivity.
Qed.

Lemma leaveQuest_frees_the_pair_witness :
  findUserQuest 1 1 demo_store = Some (joined 1 1 1)
  /\ findUserQuest 1 1 (without_userQuest 1 demo_store) = None.
Proof.
  destruct (leaveQuest_frees_the_pair 7 1 1 demo_store (without_userQuest 1 demo_store)
              (joined 1 1 1)) as (Hrow & Hfree & _).
  - apply (bool_decide_unpack _). vm_compute. reflexivity.
  - apply (bool_decide_unpack _). vm_compute. reflexivity.
  - reflexivity.
  - split; [exact Hrow|exact Hfree].
Defined.

(** X16: a quest that was completed cannot be left: the completed row stays
    and [leaveQuest] refuses with BadRequest, the store untouched. *)
Theorem completed_quest_cannot_be_left now userId questId s s1 r :
  completeQuest now userId questId s = (s1, Returned r) ->
  leaveQuest userId questId s1 = (s1, Thrown cannot_leave_completed).
Proof.
  intros Hrun.
  destruct (completeQuest_returns _ _ _ _ _ _ Hrun) as (user & quest & row & Hu & Hq & Hrow & Hopen).
  destruct (completeQuest_effect now _ _ _ _ _ _ Hu Hq Hrow Hopen)
    as (s' & r' & Hrun' & Hrow' & Hu' & Hq').
  rewrite Hrun in Hrun'. injection Hrun' as <- <-.
  unfold leaveQuest. unfold_call. rewrite Hu', Hq', Hrow'.
  destruct (complete_row_own now row) as [-> _]. reflexivity.
Qed.

Lemma completed_quest_cannot_be_left_witness :
  snd (leaveQuest 1 1 (fst (completeQuest 7 1 1 demo_store)))
  = Thrown cannot_leave_completed.
Proof.
  destruct (completeQuest 7 1 1 demo_store) as [s1 [r|e]] eqn:Hfirst;
    [|by vm_compute in Hfirst].
  simpl. by rewrite (completed_quest_cannot_be_left 7 1 1 demo_store s1 r Hfirst).
Defined.

(** X17: rewards add up: completing two quests one after the other leaves
    the user with the experience they had plus both rewards. *)
Theorem completeQuest_rewards_add_up now now' userId q1 q2 s user quest1 quest2 uq1 uq2 :
  participation_keys_unique s ->
  q1 <> q2 ->
  select_user userId s = Some user ->
  findByIdBasic q1 s = Some quest1 ->
  findByIdBasic q2 s = Some quest2 ->
  findUserQuest userId q1 s = Some uq1 ->
  findUserQuest userId q2 s = Some uq2 ->
  UserQuests.status uq1 <> uq_completed ->
  UserQuests.status uq2 <> uq_completed ->
  exists s1 r1 s2 r2 user2,
    completeQuest now userId q1 s = (s1, Returned r1)
    /\ completeQuest now' userId q2 s1 = (s2, Returned r2)
    /\ select_user userId s2 = Some user2
    /\ Users.experience user2
       = Users.experience user + Quests.experienceReward quest1
         + Quests.experienceReward quest2.
Proof.
  intros Hkeys Hne Hu Hq1 Hq2 Hrow1 Hrow2 Hopen1 Hopen2.
  destruct (completeQuest_run now _ _ _ _ _ _ Hu Hq1 Hrow1 Hopen1)
    as (s1 & r1 & Hrun1 & Husers & Hquests & Hrows & _).
  destruct (completeQuest_effect now _ _ _ _ _ _ Hu Hq1 Hrow1 Hopen1)
    as (s1' & r1' & Hrun1' & _ & Hu1 & _).
  rewrite Hrun1 in Hrun1'. injection Hrun1' as <- <-.
  assert (Hq2' : findByIdBasic q2 s1 = Some quest2).
  { unfold findByIdBasic. now rewrite Hquests. }
  assert (Hrow2' : findUserQuest userId q2 s1
                   = Some (complete_row now (UserQuests.id uq1) uq2)).
  { unfold findUserQuest. rewrite Hrows.
    rewrite find_map_inv by (intros x; apply for_pair_complete).
    unfold findUserQuest in Hrow2. now rewrite Hrow2. }
  assert (Hdiff : has_id (UserQuests.id uq1) uq2 = false).
  { unfold has_id. apply Pos.eqb_neq. intros Heq.
    pose proof (find_In _ _ _ Hrow1) as [Hin1 Hp1].
    pose proof (find_In _ _ _ Hrow2) as [Hin2 Hp2].
    assert (uq2 = uq1) as ->
      by now apply (NoDup_map_inj UserQuests.id (userQuests s)).
    apply for_pair_spec in Hp1, Hp2. congruence. }
  assert (Hopen2' : UserQuests.status (complete_row now (UserQuests.id uq1) uq2)
                    <> uq_completed).
  { unfold complete_row. now rewrite Hdiff. }
  destruct (completeQuest_effect now' _ _ _ _ _ _ Hu1 Hq2' Hrow2' Hopen2')
    as (s2 & r2 & Hrun2 & _ & Hu2 & _).
  exists s1, r1, s2, r2. eexists. split; [exact Hrun1|]. split; [exact Hrun2|].
  split; [exact Hu2|].
  pose proof (find_In _ _ _ Hu) as [_ Hlive].
  assert (Hlive1 : live_user userId
            (credit_row userId (Users.experience user + Quests.experienceReward quest1) user)
          = true) by now rewrite live_user_credit.
  rewrite (credit_row_own _ _ _ Hlive1), (credit_row_own _ _ _ Hlive). reflexivity.
Qed.

Lemma completeQuest_rewards_add_up_witness :
  exists s1 r1 s2 r2 user2,
    completeQuest 7 1 1 demo_store = (s1, Returned r1)
    /\ completeQuest 8 1 2 s1 = (s2, Returned r2)
    /\ select_user 1 s2 = Some user2
    /\ Users.experience user2 = 100 + 50 + 20.
Proof.
  refine (completeQuest_rewards_add_up 7 8 1 1 2 demo_store alice
            (demo_quest 1 1 active 50 None 0)
            (demo_quest 2 1 archived 20 (Some 1%positive) 3)
            (joined 1 1 1) (joined 2 1 2) _ _ _ _ _ _ _ _ _);
    try reflexivity; try (simpl; discriminate).
  apply (bool_decide_unpack _). vm_compute. reflexivity.
Defined.

(** Peels the stages of a method whose run is known: every [match] the run
    is stuck on is decided, branches that contradict the run are dropped. *)
Ltac decide_stages H :=
  repeat match type of H with
         | context [match ?x with _ => _ end] =>
           let E := fresh "E" in destruct x eqn:E; simpl in H; try discriminate H
         end.

Lemma find_app_fresh_any {A} (p : A -> bool) (l : list A) x :
  p x = true -> is_Some (List.find p (l ++ [x])).
Proof.
  intros Hx. induction l as [|y l IH]; simpl.
  - rewrite Hx. eauto.
  - destruct (p y); eauto.
Qed.

Lemma fresh_quest_key s q :
  keys_fresh s -> In q (quests s) -> live_quest (quests_seq s) q = false.
Proof.
  intros [Hq _] Hin. apply Hq in Hin. unfold live_quest.
  destruct (Pos.eqb_spec (Quests.id q) (quests_seq s)) as [Heq|]; [lia|reflexivity].
Qed.

Lemma created_quest_found s big row w :
  keys_fresh s ->
  quests big = (quests s ++ [row])%list ->
  Quests.id row = quests_seq s ->
  Quests.recordStatus row = CREATED ->
  findById (quests_seq s) big = Some w ->
  qr_quest w = row.
Proof.
  intros Hfresh Hrows Hid Hlive Hw. apply findById_quest in Hw.
  unfold findByIdBasic in Hw. rewrite Hrows in Hw.
  rewrite find_app_fresh in Hw.
  - now injection Hw.
  - intros y Hy. now apply fresh_quest_key.
  - unfold live_quest. now rewrite Hid, Pos.eqb_refl, Hlive.
Qed.

(** Decides the matches left in the equations of the stages, the two
    coordinates apart: they only choose a value that is stored. *)
Ltac decide_equations :=
  repeat match goal with
         | E : context [match ?x with _ => _ end] |- _ =>
           lazymatch x with
           | CreateQuestDto.latitude _ => fail
           | CreateQuestDto.longitude _ => fail
           | _ => destruct x eqn:?; simplify_eq; simpl in *
           end
         end.

(** X1: a successful [create] appends one quest row, keyed by the sequence
    and owned by the creator, with [active] and [0] as the defaults of
    status and reward; it enrols the creator with an in-progress
    participation row and emits the two events, the join first. *)
Theorem create_enrols_the_creator now dto userId s s' v :
  keys_fresh s ->
  QuestService.create now dto userId s = (s', Returned v) ->
  exists user,
    select_user userId s = Some user /\ 5 <= Users.level user
    /\ Quests.id (qr_quest (qd_quest v)) = quests_seq s
    /\ Quests.ownerId (qr_quest (qd_quest v)) = userId
    /\ Quests.status (qr_quest (qd_quest v)) = default active (CreateQuestDto.status dto)
    /\ Quests.experienceReward (qr_quest (qd_quest v))
       = default 0 (CreateQuestDto.experienceReward dto)
    /\ quests s' = (quests s ++ [qr_quest (qd_quest v)])%list
    /\ userQuests s' = (userQuests s ++ [enrolment now userId (quests_seq s) s])%list
    /\ events s'
       = (events s ++ [UserJoined (quests_seq s) userId (Some (owner_view user));
                       QuestCreated (quests_seq s) v])%list
    /\ users s' = users s.
Proof.
  intros Hfresh H. unfold QuestService.create in H.
  unfold insert_achievement, set_achievement_quest, createQuestCategories,
    QuestRepository.create, createUserQuest in H.
  unfold_call. simpl in H.
  destruct (select_user userId s) as [user|] eqn:Hu; [|discriminate].
  destruct (Users.level user <? 5) eqn:Hlevel; [discriminate|]. simpl in H.
  exists user. split; [reflexivity|]. split; [lia|].
  decide_stages H. injection H as <- <-. simpl.
  decide_equations.
  all: match goal with
       | Hw : findById _ _ = Some ?w |- _ =>
         eapply created_quest_found in Hw; [|eassumption|reflexivity..];
         rewrite Hw; simpl
       end.
  all: unfold select_user in *; simpl; rewrite ?Hu; simpl.
  all: rewrite <- app_assoc; repeat split; reflexivity.
Qed.

Lemma create_enrols_the_creator_witness :
  exists s' v,
    QuestService.create 7 demo_create 1 demo_store = (s', Returned v)
    /\ Quests.ownerId (qr_quest (qd_quest v)) = 1%positive
    /\ userQuests s' = (userQuests demo_store ++ [enrolment 7 1 4 demo_store])%list.
Proof.
  destruct (QuestService.create 7 demo_create 1 demo_store) as [s' [v|e]] eqn:Hrun;
    [|by vm_compute in Hrun].
  destruct (create_enrols_the_creator 7 demo_create 1 demo_store s' v
              (proj2 demo_store_participation_inv) Hrun)
    as (user & _ & _ & _ & Howner & _ & _ & _ & Hrows & _).
  exists s', v. split; [reflexivity|]. split; [exact Howner|exact Hrows].
Defined.

Lemma bind_fresh_achievement (l : list Achievements.row) k q x :
  (forall a, In a l -> (Achievements.id a < k)%positive) ->
  Achievements.id x = k ->
  map (fun a => if (Achievements.id a =? k)%positive
                then Achievements.set_questId q a else a) (l ++ [x])
  = (l ++ [Achievements.set_questId q x])%list.
Proof.
  intros Hl Hx. rewrite map_app. simpl. rewrite Hx, Pos.eqb_refl. f_equal.
  induction l as [|a l IH]; simpl; [done|].
  rewrite IH by (intros b Hb; apply Hl; now right).
  destruct (Pos.eqb_spec (Achievements.id a) k) as [Heq|]; [|done].
  specialize (Hl a (or_introl eq_refl)). lia.
Qed.

Lemma find_app_some {A} (p : A -> bool) (l l' : list A) :
  is_Some (List.find p l) -> is_Some (List.find p (l ++ l')).
Proof.
  induction l as [|x l IH]; simpl; [intros [? [=]]|].
  destruct (p x); [eauto|exact IH].
Qed.

Lemma findById_achievement id s w :
  findById id s = Some w ->
  qr_achievement w
  = match Quests.achievementId (qr_quest w) with
    | Some a => achievement_view <$> List.find (live_achievement a) (achievements s)
    | None => None
    end.
Proof.
  unfold findById. destruct (findByIdBasic id s) as [q|]; [|discriminate].
  destruct (List.find _ (users s)); [|discriminate].
  intros [= <-]. reflexivity.
Qed.

Lemma achievement_inv_grows s s' row rows :
  achievement_inv s ->
  quests s' = (quests s ++ [row])%list ->
  achievements s' = (achievements s ++ rows)%list ->
  (achievements_seq s <= achievements_seq s')%positive ->
  (forall b, In b rows ->
     binding_ok s' b /\ (achievements_seq s <= Achievements.id b < achievements_seq s')%positive) ->
  NoDup (map Achievements.id rows) ->
  achievement_inv s'.
Proof.
  intros (Hbind & Hnd & Hlt) Hq Ha Hseq Hrows Hnd'. split; [|split].
  - intros a Hin. rewrite Ha in Hin. apply in_app_or in Hin as [Hin|Hin].
    + specialize (Hbind a Hin). unfold binding_ok in *.
      destruct (Achievements.questId a) as [q|]; [|exact Hbind].
      destruct Hbind as [Hp Hsome]. split; [exact Hp|].
      unfold AchievementRepository.findQuestById in *. rewrite Hq.
      now apply find_app_some.
    + now apply Hrows.
  - rewrite Ha, map_app. apply NoDup_app. split; [exact Hnd|]. split; [|exact Hnd'].
    intros k Hk Hk'. apply list_elem_of_In, in_map_iff in Hk as (a & <- & Hin).
    apply list_elem_of_In, in_map_iff in Hk' as (b & Heq & Hin').
    apply Hlt in Hin. apply Hrows in Hin' as [_ Hb]. lia.
  - intros a Hin. rewrite Ha in Hin. apply in_app_or in Hin as [Hin|Hin].
    + apply Hlt in Hin. lia.
    + apply Hrows in Hin as [_ Hb]. lia.
Qed.

(** X2: on success [create] keeps the binding of achievements and quests:
    an inline payload ends as one new private achievement bound to the new
    quest, which names it in turn; without a payload the achievements stay
    as they are and the quest names none. *)
Theorem create_binds_the_inline_achievement now dto userId s s' v :
  keys_fresh s ->
  achievement_inv s ->
  QuestService.create now dto userId s = (s', Returned v) ->
  achievement_inv s'
  /\ match CreateQuestDto.achievement dto with
     | Some p =>
       achievements s' = (achievements s ++ [bound_achievement p s])%list
       /\ Quests.achievementId (qr_quest (qd_quest v)) = Some (achievements_seq s)
       /\ qr_achievement (qd_quest v)
          = Some (achievement_view (bound_achievement p s))
     | None =>
       achievements s' = achievements s
       /\ Quests.achievementId (qr_quest (qd_quest v)) = None
     end.
Proof.
  intros Hfresh Hinv H. unfold QuestService.create in H.
  unfold insert_achievement, set_achievement_quest, createQuestCategories,
    QuestRepository.create, createUserQuest in H.
  unfold_call. simpl in H.
  destruct (select_user userId s) as [user|] eqn:Hu; [|discriminate].
  destruct (Users.level user <? 5) eqn:Hlevel; [discriminate|]. simpl in H.
  decide_stages H. injection H as <- <-. simpl.
  decide_equations.
  all: match goal with
       | Hw : findById _ _ = Some ?w |- _ =>
         pose proof (findById_achievement _ _ _ Hw) as Hach;
         eapply created_quest_found in Hw; [|eassumption|reflexivity..];
         rewrite Hw in *; simpl in Hach |- *
       end.
  all: try rewrite (bind_fresh_achievement (achievements _) (achievements_seq _))
         in * by (try apply Hinv; reflexivity).
  all: match goal with
       | Hi : achievement_inv ?s0, Hf : keys_fresh ?s0 |- _ /\ (_ = (_ ++ [_])%list /\ _) =>
         assert (Hnew : forall y, In y (achievements s0) ->
                          live_achievement (achievements_seq s0) y = false);
         [ intros y Hy; apply Hi in Hy; unfold live_achievement;
           destruct (Pos.eqb_spec (Achievements.id y) (achievements_seq s0)); [lia|done]
         | rewrite (find_app_fresh _ _ _ Hnew) in Hach
             by (unfold live_achievement; simpl; now rewrite Pos.eqb_refl);
           split; [|repeat split; exact Hach];
           eapply (achievement_inv_grows s0 _ _ [_]);
           [ exact Hi | reflexivity | reflexivity | simpl; lia
           | intros b [<-|[]]; split; [|simpl; lia];
             unfold binding_ok; simpl; split; [reflexivity|];
             unfold AchievementRepository.findQuestById; simpl;
             rewrite find_app_fresh; [eauto| |];
             [ intros y Hy; now apply fresh_quest_key
             | unfold live_quest; simpl; now rewrite Pos.eqb_refl ]
           | apply (NoDup_singleton (Achievements.id _)) ] ]
       | Hi : achievement_inv ?s0 |- _ =>
         split; [|split; reflexivity];
         eapply (achievement_inv_grows s0 _ _ []);
         [ exact Hi | reflexivity | simpl; now rewrite app_nil_r | simpl; lia
         | intros b [] | apply NoDup_nil_2 ]
       end.
Qed.

Lemma create_binds_the_inline_achievement_witness :
  exists s' v,
    QuestService.create 7 demo_create 1 demo_store = (s', Returned v)
    /\ achievements s' = [badge; bound_achievement
                                   {| ap_title := "Medal"%string; ap_description := None;
                                      ap_icon := None |} demo_store]
    /\ achievement_inv s'.
Proof.
  destruct (QuestService.create 7 demo_create 1 demo_store) as [s' [v|e]] eqn:Hrun;
    [|by vm_compute in Hrun].
  destruct (create_binds_the_inline_achievement 7 demo_create 1 demo_store s' v
              (proj2 demo_store_participation_inv) demo_store_achievement_inv Hrun)
    as (Hinv & Hrows & _).
  exists s', v. split; [reflexivity|]. split; [exact Hrows|exact Hinv].
Defined.

(** X3: [create] throws Forbidden exactly for a creator below level 5, and
    then before any write, an inline achievement included. *)
Theorem create_forbidden_below_level_5 now dto userId s s' :
  QuestService.create now dto userId s = (s', Thrown level_too_low)
  <-> s' = s /\ exists user, select_user userId s = Some user /\ Users.level user < 5.
Proof.
  split.
  - intros H. unfold QuestService.create in H.
    unfold insert_achievement, set_achievement_quest, createQuestCategories,
      QuestRepository.create, createUserQuest in H.
    unfold_call. simpl in H.
    destruct (select_user userId s) as [user|] eqn:Hu; [|discriminate].
    destruct (Users.level user <? 5) eqn:Hlevel.
    + injection H as <-. split; [reflexivity|]. exists user. split; [reflexivity|lia].
    + exfalso. simpl in H. decide_stages H.
      all: simplify_eq; decide_equations; done.
  - intros (-> & user & Hu & Hlevel).
    unfold QuestService.create. unfold_call. rewrite Hu.
    assert ((Users.level user <? 5) = true) as -> by lia. reflexivity.
Qed.

Lemma has_requirement_bind step :
  has_requirement step = bool_decide (is_Some (step ≫= requirement)).
Proof.
  now destruct step.
Qed.

Lemma defined_and_differs_same v : defined_and_differs v v = false.
Proof.
  unfold defined_and_differs. destruct v; [|reflexivity].
  now rewrite bool_decide_true.
Qed.

Lemma requirement_differs_same newStep oldStep :
  newStep ≫= requirement = oldStep ≫= requirement ->
  requirement_differs newStep oldStep = false.
Proof.
  intros Heq. unfold requirement_differs.
  rewrite !has_requirement_bind, Heq, eqb_reflx. simpl.
  destruct (oldStep ≫= requirement) as [r|]; [|reflexivity].
  now rewrite !defined_and_differs_same.
Qed.

Lemma existsb_false {A} (p : A -> bool) l :
  (forall x, In x l -> p x = false) -> existsb p l = false.
Proof.
  induction l as [|x l IH]; simpl; intros H; [done|].
  rewrite (H x (or_introl eq_refl)). apply IH. intros y Hy. apply H. now right.
Qed.

(** X9: the comparison of [update] reads the requirements alone: step lists
    that agree on the requirement of every step count as unchanged,
    whatever their titles, descriptions, statuses, progress or deadlines. *)
Theorem requirementsChanged_reads_requirements_only olds news :
  map requirement news = map requirement olds ->
  requirementsChanged (Some olds) (Some news) = false.
Proof.
  intros Hmap. unfold requirementsChanged. apply existsb_false. intros i _.
  apply requirement_differs_same.
  assert (Hi : map requirement news !! i = map requirement olds !! i) by now rewrite Hmap.
  rewrite !list_lookup_fmap in Hi.
  destruct (news !! i), (olds !! i); simpl in *; congruence.
Qed.

Lemma requirementsChanged_reads_requirements_only_witness :
  requirementsChanged (Some [step_of 0 10])
    (Some [{| step_title := "Renamed"%string; step_description := Some "Later"%string;
              step_status := "done"%string; step_progress := 100;
              requirement := Some demo_requirement; deadline := None |}])
  = false.
Proof.
  apply requirementsChanged_reads_requirements_only. reflexivity.
Defined.

(** X8: a successful [update] emits the requirement event exactly when the
    patch carries steps that the comparison finds changed, with the steps
    of the patch as payload, and no other event. *)
Theorem update_emits_only_requirement_changes now id dto s s' r quest :
  findByIdBasic id s = Some quest ->
  QuestService.update now id dto s = (s', Returned r) ->
  events s'
  = (events s ++
     if changed_by dto quest
     then [RequirementUpdated id (default (Quests.steps quest) (UpdateQuestDto.steps dto))]
     else [])%list.
Proof.
  intros Hq H. unfold QuestService.update, findOne in H.
  unfold deleteQuestCategories, createQuestCategories, QuestRepository.update in H.
  unfold_call. rewrite Hq in H. simpl in H. unfold changed_by.
  decide_stages H. injection H as <- <-. simpl.
  decide_equations.
  all: unfold findByIdBasic in *; try rewrite Hq in *; simpl in *; simplify_eq; simpl.
  all: try rewrite app_nil_r; try reflexivity.
  all: match goal with Hs : UpdateQuestDto.steps _ = _ |- _ => now rewrite Hs end.
Qed.

Lemma update_emits_only_requirement_changes_witness :
  exists s' r,
    QuestService.update 7 1 demo_progress_patch demo_store = (s', Returned r)
    /\ events s' = [RequirementUpdated 1 (Some [step_of 5 10])].
Proof.
  destruct (QuestService.update 7 1 demo_progress_patch demo_store) as [s' [r|e]] eqn:Hrun;
    [|by vm_compute in Hrun].
  exists s', r. split; [reflexivity|].
  exact (update_emits_only_requirement_changes 7 1 demo_progress_patch demo_store s' r
           (demo_quest 1 1 active 50 None 0) eq_refl Hrun).
Defined.

Lemma updateRequirement_effect now questId stepIndex dto s s1 r :
  updateRequirementCurrentValue now questId stepIndex dto s = (s1, Returned r) ->
  exists quest steps step req,
    findByIdBasic questId s = Some quest /\ Quests.steps quest = Some steps
    /\ 0 <= stepIndex
    /\ steps !! Z.to_nat stepIndex = Some step /\ requirement step = Some req
    /\ findByIdBasic questId s1
       = Some (set_row (only_steps (progressed steps stepIndex step req (dto_currentValue dto)))
                 now quest).
Proof.
  intros Hrun.
  destruct (updateRequirement_returned _ _ _ _ _ _ _ Hrun)
    as (quest & steps & step & req & target & Hq & Hact & Hsteps & Hpos & Hstep & Hreq & Htarget & Hrange).
  exists quest, steps, step, req. repeat split; try done.
  rewrite (updateRequirement_run now questId stepIndex dto s quest steps step req target)
    in Hrun by done.
  assert ((dto_currentValue dto <? 0) = false) as Hlo by lia.
  assert ((target <? dto_currentValue dto) = false) as Hhi by lia.
  rewrite Hlo, Hhi in Hrun. simpl in Hrun.
  apply readonly_elim in Hrun; [|apply readonly_findOne]. subst s1.
  change (findByIdBasic questId
            (rewritten questId
               (only_steps (progressed steps stepIndex step req (dto_currentValue dto))) now s)
          = Some (set_row (only_steps (progressed steps stepIndex step req (dto_currentValue dto)))
                    now quest)).
  now rewrite findByIdBasic_rewritten, Hq.
Qed.

(** X20: progress on two different steps adds up: the second call reads the
    steps the first one wrote, so both values are stored, and the steps end
    the same whichever call came first. *)
Theorem updateRequirement_steps_accumulate now now' questId i j dto_i dto_j s s1 r1 s2 r2 :
  i <> j ->
  updateRequirementCurrentValue now questId i dto_i s = (s1, Returned r1) ->
  updateRequirementCurrentValue now' questId j dto_j s1 = (s2, Returned r2) ->
  exists quest steps step_i req_i step_j req_j quest2,
    findByIdBasic questId s = Some quest /\ Quests.steps quest = Some steps
    /\ steps !! Z.to_nat i = Some step_i /\ requirement step_i = Some req_i
    /\ steps !! Z.to_nat j = Some step_j /\ requirement step_j = Some req_j
    /\ findByIdBasic questId s2 = Some quest2
    /\ Quests.steps quest2
       = Some (progressed (progressed steps i step_i req_i (dto_currentValue dto_i))
                 j step_j req_j (dto_currentValue dto_j))
    /\ progressed (progressed steps i step_i req_i (dto_currentValue dto_i))
         j step_j req_j (dto_currentValue dto_j)
       = progressed (progressed steps j step_j req_j (dto_currentValue dto_j))
           i step_i req_i (dto_currentValue dto_i).
Proof.
  intros Hne H1 H2.
  apply updateRequirement_effect in H1
    as (quest & steps & step_i & req_i & Hq & Hsteps & Hi & Hstep_i & Hreq_i & Hq1).
  apply updateRequirement_effect in H2
    as (quest1 & steps1 & step_j & req_j & Hq1' & Hsteps1 & Hj & Hstep_j & Hreq_j & Hq2).
  rewrite Hq1 in Hq1'. injection Hq1' as <-. simpl in Hsteps1. injection Hsteps1 as <-.
  assert (Hnat : Z.to_nat i <> Z.to_nat j) by lia.
  unfold progressed in Hstep_j at 1.
  rewrite list_lookup_insert_ne in Hstep_j by exact Hnat.
  exists quest, steps, step_i, req_i, step_j, req_j. eexists.
  repeat split; try done.
  unfold progressed. apply list_insert_insert_ne. lia.
Qed.

Lemma updateRequirement_steps_accumulate_witness :
  exists s1 r1 s2 r2 steps step_i req_i step_j req_j quest2,
    updateRequirementCurrentValue 7 1 0 {| dto_currentValue := 4 |} demo_store_two_steps
    = (s1, Returned r1)
    /\ updateRequirementCurrentValue 8 1 1 {| dto_currentValue := 3 |} s1 = (s2, Returned r2)
    /\ findByIdBasic 1 s2 = Some quest2
    /\ Quests.steps quest2
       = Some (progressed (progressed steps 0 step_i req_i 4) 1 step_j req_j 3).
Proof.
  destruct (updateRequirementCurrentValue 7 1 0 {| dto_currentValue := 4 |}
              demo_store_two_steps) as [s1 [r1|e]] eqn:H1; [|by vm_compute in H1].
  destruct (updateRequirementCurrentValue 8 1 1 {| dto_currentValue := 3 |} s1)
    as [s2 [r2|e]] eqn:H2.
  2:{ pose proof H1 as H1'. vm_compute in H1'. injection H1' as <- _.
      by vm_compute in H2. }
  assert (Hne : 0 <> 1) by discriminate.
  destruct (updateRequirement_steps_accumulate 7 8 1 0 1 _ _ _ s1 r1 s2 r2 Hne H1 H2)
    as (quest & steps & step_i & req_i & step_j & req_j & quest2
        & _ & _ & _ & _ & _ & _ & Hq2 & Hsteps & _).
  exists s1, r1, s2, r2, steps, step_i, req_i, step_j, req_j, quest2.
  repeat split; assumption.
Defined.

Lemma getAvailableQuests_lists_the_joinable_witness :
  exists l,
    getAvailableQuests 3 demo_store_with_carol = (demo_store_with_carol, Returned l)
    /\ In 1%positive (map (fun v => qc_id (aq_quest (listed v))) l).
Proof.
  destruct (getAvailableQuests_lists_the_joinable 7 3 demo_store_with_carol carol)
    as (l & Hrun & _ & Hids).
  - apply (bool_decide_unpack _). vm_compute. reflexivity.
  - reflexivity.
  - exists l. split; [exact Hrun|]. apply Hids. split.
    + eexists. eexists.
      apply (joinQuest_run 7 3 1 demo_store_with_carol carol
               (demo_quest 1 1 active 50 None 0)); reflexivity.
    + exists (demo_quest 1 1 active 50 None 0). split; [reflexivity|].
      exists alice. reflexivity.
Defined.

Lemma getAvailableQuests_ids userId s user :
  select_user userId s = Some user ->
  exists l,
    getAvailableQuests userId s = (s, Returned l)
    /\ map (fun v => qc_id (aq_quest (listed v))) l
       = List.filter
           (fun k => negb (existsb (Pos.eqb k) (findStartedQuestIdsByUserId userId s)))
           (map (fun v => qc_id (aq_quest v)) (findActiveQuests s)).
Proof.
  intros Hu. unfold getAvailableQuests. unfold_call. rewrite Hu.
  eexists. split; [reflexivity|]. rewrite map_map. simpl.
  induction (findActiveQuests s) as [|v l IH]; simpl; [done|].
  destruct (existsb _ _); simpl; now rewrite IH.
Qed.

(** X14: joining moves the quest from the user's available quests to the
    user's own list. *)
Theorem joined_quest_changes_lists now userId questId s s' r :
  joinQuest now userId questId s = (s', Returned r) ->
  (exists l, getUserQuests userId s' = (s', Returned l)
             /\ In r (map (fun v => uqv_userQuest (listed v)) l))
  /\ (exists l, getAvailableQuests userId s' = (s', Returned l)
                /\ ~ In questId (map (fun v => qc_id (aq_quest (listed v))) l)).
Proof.
  intros Hrun.
  destruct (joinQuest_returned_inv _ _ _ _ _ _ Hrun) as (user & quest & Hu & Hq & Hact & Hnone).
  rewrite (joinQuest_run now userId questId s user quest Hu Hq Hact Hnone) in Hrun.
  injection Hrun as <- <-.
  match goal with |- context [getUserQuests userId ?big] => set (s' := big) end.
  assert (Hu' : select_user userId s' = Some user) by exact Hu.
  assert (Hq' : findByIdBasic questId s' = Some quest) by exact Hq.
  split.
  - pose proof (getUserQuests_run userId s') as Hlist. rewrite Hu' in Hlist.
    destruct Hlist as (l & Hlist & Hrows). exists l. split; [exact Hlist|].
    rewrite Hrows. apply filter_In. split.
    + unfold s'. simpl. apply in_or_app. right. now left.
    + simpl. now rewrite Pos.eqb_refl, Hq'.
  - destruct (getAvailableQuests_ids userId s' user Hu') as (l & Hlist & Hids).
    exists l. split; [exact Hlist|]. rewrite Hids. intros Hin.
    apply filter_In in Hin as [_ Hfresh]. apply negb_true_iff, started_iff in Hfresh.
    unfold findUserQuest, s' in Hfresh. simpl in Hfresh.
    match type of Hfresh with
    | List.find ?p (?l ++ [?x]) = None =>
      destruct (find_app_fresh_any p l x) as [y Hy]; [|congruence]
    end.
    unfold for_pair. simpl. now rewrite !Pos.eqb_refl.
Qed.

Lemma joined_quest_changes_lists_witness :
  exists s' r l,
    joinQuest 7 3 1 demo_store_with_carol = (s', Returned r)
    /\ getUserQuests 3 s' = (s', Returned l)
    /\ In r (map (fun v => uqv_userQuest (listed v)) l).
Proof.
  destruct (joinQuest 7 3 1 demo_store_with_carol) as [s' [r|e]] eqn:Hrun;
    [|by vm_compute in Hrun].
  destruct (joined_quest_changes_lists 7 3 1 demo_store_with_carol s' r Hrun)
    as [(l & Hl & Hin) _].
  exists s', r, l. repeat split; assumption.
Defined.

Lemma assignToUser_returned now userId achievementId s s1 g :
  AchievementService.assignToUser now userId achievementId s = (s1, Returned g) ->
  exists user achievement,
    AchievementRepository.findUserById userId s = Some user
    /\ AchievementRepository.findById achievementId s = Some achievement
    /\ AchievementRepository.findUserAchievement userId achievementId s = None
    /\ g = grant now userId achievementId s
    /\ s1 = with_userAchievements (userAchievements s ++ [g])
              (Pos.succ (userAchievements_seq s)) s.
Proof.
  unfold AchievementService.assignToUser, AchievementRepository.assignToUser.
  unfold_call. intros H.
  destruct (AchievementRepository.findUserById userId s) as [user|]; [|discriminate].
  destruct (AchievementRepository.findById achievementId s) as [a|]; [|discriminate].
  destruct (AchievementRepository.findUserAchievement userId achievementId s) eqn:Hg;
    simpl in H; [discriminate|].
  injection H as <- <-. exists user, a. repeat split; reflexivity.
Qed.

Lemma grant_matches_own now userId achievementId s :
  grant_matches userId (Some achievementId) (grant now userId achievementId s) = true.
Proof. unfold grant_matches. simpl. now rewrite !Pos.eqb_refl. Qed.

(** X23: [assignToUser] inserts one grant, and a second call for the same
    pair is refused with Conflict and writes nothing. *)
Theorem assignToUser_grants_once now now' userId achievementId s s1 g :
  AchievementService.assignToUser now userId achievementId s = (s1, Returned g) ->
  AchievementRepository.findUserAchievement userId achievementId s = None
  /\ g = grant now userId achievementId s
  /\ userAchievements s1 = (userAchievements s ++ [g])%list
  /\ AchievementService.assignToUser now' userId achievementId s1
     = (s1, Thrown AchievementService.already_granted).
Proof.
  intros Hrun.
  apply assignToUser_returned in Hrun as (user & a & Hu & Ha & Hnone & -> & ->).
  repeat split; try done.
  unfold AchievementService.assignToUser. unfold_call.
  unfold AchievementRepository.findUserById, AchievementRepository.findById,
    AchievementRepository.findUserAchievement in *. simpl.
  rewrite Hu. simpl. rewrite Ha. simpl.
  destruct (find_app_fresh_any (grant_matches userId (Some achievementId))
              (userAchievements s) (grant now userId achievementId s)
              (grant_matches_own _ _ _ _)) as [y ->].
  reflexivity.
Qed.

Lemma assignToUser_grants_once_witness :
  exists s1 g,
    AchievementService.assignToUser 7 1 1 demo_store = (s1, Returned g)
    /\ AchievementService.assignToUser 8 1 1 s1
       = (s1, Thrown AchievementService.already_granted).
Proof.
  destruct (AchievementService.assignToUser 7 1 1 demo_store) as [s1 [g|e]] eqn:Hrun;
    [|by vm_compute in Hrun].
  destruct (assignToUser_grants_once 7 8 1 1 demo_store s1 g Hrun) as (_ & _ & _ & Hsecond).
  exists s1, g. split; [reflexivity|exact Hsecond].
Defined.

(** X24: completing a quest does not grant again an achievement the user
    was assigned before: the table of grants stays as [assignToUser] left
    it. *)
Theorem assigned_achievement_is_not_granted_again
    now now' userId achievementId questId s s1 g quest userQuest :
  AchievementService.assignToUser now userId achievementId s = (s1, Returned g) ->
  findByIdBasic questId s1 = Some quest ->
  Quests.achievementId quest = Some achievementId ->
  findUserQuest userId questId s1 = Some userQuest ->
  UserQuests.status userQuest <> uq_completed ->
  exists s2 r,
    completeQuest now' userId questId s1 = (s2, Returned r)
    /\ userAchievements s2 = userAchievements s1.
Proof.
  intros Hrun Hq Hbound Hrow Hopen.
  apply assignToUser_returned in Hrun as (user & a & Hu & Ha & Hnone & -> & Hs1).
  assert (Hu1 : select_user userId s1 = Some user) by (subst s1; exact Hu).
  destruct (completeQuest_run now' userId questId s1 user quest userQuest Hu1 Hq Hrow Hopen)
    as (s2 & r & Hrun & _ & _ & _ & Hgrants & _).
  exists s2, r. split; [exact Hrun|]. rewrite Hgrants, Hbound.
  unfold select_userAchievement. subst s1. simpl.
  now destruct (find_app_fresh_any (grant_matches userId (Some achievementId))
                  (userAchievements s) (grant now userId achievementId s)
                  (grant_matches_own _ _ _ _)) as [y ->].
Qed.

Lemma assigned_achievement_is_not_granted_again_witness :
  exists s2 r,
    completeQuest 8 1 2
      (with_userAchievements [grant 7 1 1 demo_store] 2 demo_store) = (s2, Returned r)
    /\ userAchievements s2 = [grant 7 1 1 demo_store].
Proof.
  apply (assigned_achievement_is_not_granted_again 7 8 1 1 2 demo_store
           (with_userAchievements [grant 7 1 1 demo_store] 2 demo_store)
           (grant 7 1 1 demo_store)
           (demo_quest 2 1 archived 20 (Some 1%positive) 3) (joined 2 1 2));
    [vm_compute; reflexivity | reflexivity | reflexivity | reflexivity | simpl; discriminate].
Defined.

Lemma completeQuest_keeps_achievements now userId questId s s1 o :
  completeQuest now userId questId s = (s1, o) -> achievements s1 = achievements s.
Proof.
  intros H. unfold completeQuest in H.
  unfold updateUserQuest, set_user_experience, insert_userAchievement in H.
  unfold_call. simpl in H.
  decide_stages H.
  all: injection H as <- _; decide_equations; reflexivity.
Qed.

(** X25: once a quest bound to an achievement is completed, the user holds
    the achievement and [assignToUser] refuses it with Conflict. *)
Theorem completed_quest_achievement_cannot_be_assigned
    now now' userId questId s s1 r quest achievementId :
  completeQuest now userId questId s = (s1, Returned r) ->
  findByIdBasic questId s = Some quest ->
  Quests.achievementId quest = Some achievementId ->
  is_Some (AchievementRepository.findById achievementId s) ->
  AchievementService.assignToUser now' userId achievementId s1
  = (s1, Thrown AchievementService.already_granted).
Proof.
  intros Hrun Hq Hbound [a Ha].
  pose proof (completeQuest_keeps_achievements _ _ _ _ _ _ Hrun) as Hsame.
  destruct (completeQuest_returns _ _ _ _ _ _ Hrun)
    as (user & quest' & row & Hu & Hq' & Hrow & Hopen).
  rewrite Hq in Hq'. injection Hq' as <-.
  destruct (completeQuest_effect now _ _ _ _ _ _ Hu Hq Hrow Hopen)
    as (s' & r' & Hrun' & _ & Hu1 & _).
  destruct (completeQuest_run now _ _ _ _ _ _ Hu Hq Hrow Hopen)
    as (s'' & r'' & Hrun'' & _ & _ & _ & Hgrants & _).
  rewrite Hrun in Hrun', Hrun''. injection Hrun' as <- <-. injection Hrun'' as <- _.
  unfold AchievementService.assignToUser. unfold_call.
  unfold AchievementRepository.findUserById, AchievementRepository.findById,
    AchievementRepository.findUserAchievement in *.
  unfold select_user in Hu1. rewrite Hu1. simpl. rewrite Hsame, Ha. simpl.
  rewrite Hgrants, Hbound.
  unfold select_userAchievement.
  destruct (List.find (grant_matches userId (Some achievementId)) (userAchievements s))
    as [g|] eqn:Hg.
  - now rewrite Hg.
  - now destruct (find_app_fresh_any (grant_matches userId (Some achievementId))
                    (userAchievements s)
                    {| UserAchievements.id := userAchievements_seq s;
                       UserAchievements.userId := userId;
                       UserAchievements.achievementId := Some achievementId;
                       UserAchievements.unlockedAt := now |}
                    (grant_matches_own now userId achievementId s)) as [y ->].
Qed.

Lemma completed_quest_achievement_cannot_be_assigned_witness :
  snd (AchievementService.assignToUser 8 1 1 (fst (completeQuest 7 1 2 demo_store)))
  = Thrown AchievementService.already_granted.
Proof.
  destruct (completeQuest 7 1 2 demo_store) as [s1 [r|e]] eqn:Hrun;
    [|by vm_compute in Hrun].
  simpl.
  rewrite (completed_quest_achievement_cannot_be_assigned 7 8 1 2 demo_store s1 r
             (demo_quest 2 1 archived 20 (Some 1%positive) 3) 1 Hrun eq_refl eq_refl
             (ex_intro _ badge eq_refl)).
  reflexivity.
Defined.

Lemma find_none_iff {A} (p : A -> bool) (l : list A) :
  List.find p l = None <-> forall x, In x l -> p x = false.
Proof.
  split; [apply find_none|].
  induction l as [|x l IH]; simpl; intros H; [done|].
  rewrite (H x (or_introl eq_refl)). apply IH. intros y Hy. apply H. now right.
Qed.

Lemma achievement_remove_run id s :
  AchievementService.remove id s
  = (without_achievement id s,
     match AchievementRepository.findById id s with
     | Some a => Returned (AchievementRepository.mark_deleted a)
     | None => Thrown (AchievementService.achievement_not_found id)
     end).
Proof.
  unfold AchievementService.remove, AchievementRepository.softDelete. unfold_call.
  unfold without_achievement. now destruct (AchievementRepository.findById id s).
Qed.

Lemma findById_without_achievement id s :
  AchievementRepository.findById id (without_achievement id s) = None.
Proof.
  unfold AchievementRepository.findById, without_achievement. simpl.
  apply find_none_iff. intros x Hx. apply in_map_iff in Hx as (a & <- & _).
  destruct (live_achievement id a) eqn:Ha; [|exact Ha].
  unfold live_achievement. simpl. apply andb_false_r.
Qed.

(** X26: a removed achievement is gone for every method of the service, its
    title is free again, and the quests that name it are not touched. *)
Theorem removed_achievement_frees_its_title now id s s1 a :
  AchievementService.remove id s = (s1, Returned a) ->
  AchievementRepository.findByTitleExcludingId (Achievements.title a) id s = None ->
  AchievementService.findOne id s1
  = (s1, Thrown (AchievementService.achievement_not_found id))
  /\ AchievementService.remove id s1
     = (s1, Thrown (AchievementService.achievement_not_found id))
  /\ (forall userId user,
        AchievementRepository.findUserById userId s1 = Some user ->
        AchievementService.assignToUser now userId id s1
        = (s1, Thrown (AchievementService.achievement_not_found id)))
  /\ quests s1 = quests s
  /\ forall dto,
       CreateAchievementDto.title dto = Achievements.title a ->
       is_private (CreateAchievementDto.rarity dto) = false ->
       mjoin (CreateAchievementDto.questId dto) = None ->
       exists s2 a', AchievementService.create dto s1 = (s2, Returned a').
Proof.
  rewrite achievement_remove_run. intros Hrun Hfree.
  destruct (AchievementRepository.findById id s) as [a0|] eqn:Ha0; [|discriminate].
  injection Hrun as <- <-. simpl in Hfree.
  pose proof (findById_without_achievement id s) as Hnone.
  split; [|split; [|split; [|split]]].
  - unfold AchievementService.findOne. unfold_call. now rewrite Hnone.
  - rewrite achievement_remove_run, Hnone. f_equal.
    unfold without_achievement at 1.
    unfold AchievementRepository.findById in Hnone.
    rewrite (find_none_map _ _ _ Hnone). apply with_achievements_same.
  - intros userId user Hu. unfold AchievementService.assignToUser. unfold_call.
    now rewrite Hu, Hnone.
  - reflexivity.
  - intros dto Htitle Hcommon Hquest.
    assert (Htaken : AchievementRepository.findByTitle (CreateAchievementDto.title dto)
                       (without_achievement id s) = None).
    { unfold AchievementRepository.findByTitle, without_achievement. simpl.
      apply find_none_iff. intros x Hx. apply in_map_iff in Hx as (b & <- & Hb).
      destruct (live_achievement id b) eqn:Hlive; [simpl; apply andb_false_r|].
      unfold AchievementRepository.findByTitleExcludingId in Hfree.
      pose proof (find_none _ _ Hfree b Hb) as Hb'. simpl in Hb'.
      rewrite Htitle. simpl. unfold live_achievement in Hlive.
      destruct (String.eqb (Achievements.title b) (Achievements.title a0)); [|reflexivity].
      destruct (Achievements.id b =? id)%positive; simpl in *; [exact Hlive|exact Hb']. }
    unfold AchievementService.create, AchievementRepository.create. unfold_call.
    rewrite Htaken, Hcommon. simpl.
    destruct (CreateAchievementDto.questId dto) as [[q|]|]; [discriminate| |];
      eexists; eexists; reflexivity.
Qed.

Lemma removed_achievement_frees_its_title_witness :
  exists s2 a',
    AchievementService.create common_badge (without_achievement 1 demo_store)
    = (s2, Returned a').
Proof.
  refine (proj2 (proj2 (proj2 (proj2
    (removed_achievement_frees_its_title 7 1 demo_store _ _ eq_refl eq_refl))))
    common_badge eq_refl eq_refl eq_refl).
Defined.

(** X6: the grouping loop of the list methods files each category under its
    quest, in the order the query returned them, and has no entry for a
    quest without category. *)
Theorem groupByQuestId_groups_in_order allCategories k :
  categories_of (groupByQuestId allCategories) k
  = map relation_view (List.filter (of_quest k) allCategories)
  /\ (groupByQuestId allCategories !! k = None <-> ~ In k (map cr_questId allCategories)).
Proof.
  split; [apply groupByQuestId_lookup|].
  unfold groupByQuestId.
  assert (Hgen : forall l (m : gmap positive (list NamedView)),
    fold_left
      (fun m category =>
         <[cr_questId category :=
             (default [] (m !! cr_questId category)
              ++ [{| nv_id := cr_id category; nv_name := cr_name category |}])%list]> m)
      l m !! k = None
    <-> m !! k = None /\ ~ In k (map cr_questId l)).
  { induction l as [|c l IH]; intros m; simpl.
    - tauto.
    - rewrite IH. destruct (Pos.eq_dec (cr_questId c) k) as [->|Hne].
      + rewrite lookup_insert_eq. split; [intros [[=] _]|intros [_ H]; tauto].
      + rewrite lookup_insert_ne by done. tauto. }
  rewrite Hgen, lookup_empty. tauto.
Qed.
